(** * Brother VC-500W bridge server: verification of [bridge_server.py]

    A shallow embedding of the request/response translation core of
    [src/bridge_server.py]:

    - the tape projection computed by [handle_printer_status_request]
      (lines 149-162), over IEEE 754 binary64 values;
    - the multipart decoder [parse_multipart_form_data] (lines 26-82),
      over byte sequences and code-point strings;
    - the two device-facing handlers (lines 128-203 and 205-289), as
      programs of a small exception-and-trace monad.
*)

From Stdlib Require Import ZArith Lia Bool List Ascii String.
From Stdlib Require Import Floats.
From stdpp Require Import base option list gmap.

Set Warnings "-inexact-float".
Local Open Scope string_scope.
Local Open Scope list_scope.
Local Open Scope Z_scope.

(** ** Python exceptions *)

(** The exception classes the embedded code can see.  [BaseOnly] stands for
    the classes that derive from [BaseException] but not from [Exception]
    ([KeyboardInterrupt], [SystemExit]): [except Exception] does not catch
    them, a bare [except:] does. *)
Inductive exn_class :=
| ValueError | OverflowError | ZeroDivisionError | TypeError | IndexError
| OSError | BaseOnly.

Record exn := Exn { exn_cls : exn_class; exn_msg : string }.

Definition is_Exception (e : exn) : bool :=
  match exn_cls e with BaseOnly => false | _ => true end.

(** The outcome of evaluating a Python expression: a value, or a raised
    exception. *)
Inductive result (A : Type) :=
| Ok (a : A)
| Raise (e : exn).
Arguments Ok {A} a.
Arguments Raise {A} e.

#[global] Instance result_ret : MRet result := fun _ a => Ok a.
#[global] Instance result_bind : MBind result := fun _ _ k r =>
  match r with
  | Ok a => k a
  | Raise e => Raise e
  end.

(** ** Python floats

    A Python [float] is an IEEE 754 binary64 value.  It is modelled by the
    Standard Library's [spec_float] with the binary64 parameters
    [prec = 53], [emax = 1024]; the operations are the specification
    functions [SFmul], [SFdiv], [SFcompare] that [FloatAxioms] gives as the
    meaning of the hardware operations. *)
Module PyFloat.

Definition t := spec_float.

(** A float literal of the source: the binary64 value nearest to the
    decimal numeral, as Python's parser produces it. *)
Definition lit (x : PrimFloat.float) : t := Prim2SF x.

Definition mul (x y : t) : t := SFmul prec emax x y.
Definition div (x y : t) : t := SFdiv prec emax x y.
Definition eqb (x y : t) : bool := SFeqb x y.

(** [x != y]: true as soon as one side is a NaN. *)
Definition neb (x y : t) : bool := negb (eqb x y).

(** [bool(x)]: every float but the two zeros is true (NaN included). *)
Definition truthy (x : t) : bool := neb x (S754_zero false).

(** [x > 0.0], used only to state the specification's formula. *)
Definition gtb0 (x : t) : bool := SFltb (S754_zero false) x.

(** [int(x)]: truncation toward zero; [ValueError] on NaN,
    [OverflowError] on an infinity. *)
Definition to_int (x : t) : result Z :=
  match x with
  | S754_nan => Raise (Exn ValueError "cannot convert float NaN to integer")
  | S754_infinity _ =>
      Raise (Exn OverflowError "cannot convert float infinity to integer")
  | S754_zero _ => Ok 0
  | S754_finite s m e =>
      let a := Z.shiftl (Z.pos m) e in
      Ok (if s then - a else a)
  end.

(** [math.floor(x)], used only to state the specification's formula:
    rounding toward minus infinity ([Z.shiftl] by a negative amount is
    the floor of the division by the power of two). *)
Definition floor (x : t) : result Z :=
  match x with
  | S754_nan => Raise (Exn ValueError "cannot convert float NaN to integer")
  | S754_infinity _ =>
      Raise (Exn OverflowError "cannot convert float infinity to integer")
  | S754_zero _ => Ok 0
  | S754_finite s m e =>
      Ok (Z.shiftl (if s then Z.neg m else Z.pos m) e)
  end.

(** The exact conversion of an [int] used by [int.__truediv__]: the
    integer as an (unnormalised) significand with exponent 0. *)
Definition of_int_exact (a : Z) : t :=
  match a with
  | Z0 => S754_zero false
  | Z.pos p => S754_finite false p 0
  | Z.neg p => S754_finite true p 0
  end.

(** [a / b] on two Python [int]s: [ZeroDivisionError] when [b = 0],
    otherwise the quotient of the two integers rounded once to nearest
    even ([SFdiv] rounds the exact quotient of the two significands),
    and [OverflowError] when that does not fit a float. *)
Definition int_truediv (a b : Z) : result t :=
  if b =? 0 then Raise (Exn ZeroDivisionError "division by zero")
  else match div (of_int_exact a) (of_int_exact b) with
       | S754_infinity _ =>
           Raise (Exn OverflowError
                    "integer division result too large for a float")
       | q => Ok q
       end.

(** [x * y] where [x] may be [None]: Python raises [TypeError] then. *)
Definition mul_opt (x : option t) (y : t) : result t :=
  match x with
  | Some a => Ok (mul a y)
  | None =>
      Raise (Exn TypeError
               "unsupported operand type(s) for *: 'NoneType' and 'float'")
  end.

(** [bool(x)] for an attribute that is a float or [None]. *)
Definition truthy_opt (x : option t) : bool :=
  match x with
  | Some a => truthy a
  | None => false
  end.

End PyFloat.

(** ** The device's structured results

    [labelprinter]'s configuration and status objects, with the attributes
    the bridge reads.  The tape dimensions of the configuration are floats
    or [None]. *)
Record Configuration := {
  model : string;
  serial : string;
  tape_width : option PyFloat.t;
  tape_length_initial : option PyFloat.t
}.

Record Status := {
  print_state : string;
  print_job_stage : string;
  print_job_error : string;
  tape_length_remaining : PyFloat.t
}.

(** The [tape_info] dictionary of [handle_printer_status_request]. *)
Record TapeInfo := {
  present : bool;
  type_mm : Z;
  total_mm : Z;
  remaining_mm : Z;
  percentage : Z
}.

(** Lines 149-155: the dictionary before the test. *)
Definition tape_info_default : TapeInfo :=
  {| present := false; type_mm := 0; total_mm := 0;
     remaining_mm := 0; percentage := 0 |}.

Definition inch_to_mm : PyFloat.t := PyFloat.lit 25.4.
Definition minus_one : PyFloat.t := PyFloat.lit (-1).
Definition hundred : PyFloat.t := PyFloat.lit 100.

(** Line 157: [config.tape_width and config.tape_length_initial and
    status.tape_length_remaining != -1.0]. *)
Definition tape_guard (config : Configuration) (status : Status) : bool :=
  PyFloat.truthy_opt (tape_width config)
  && PyFloat.truthy_opt (tape_length_initial config)
  && PyFloat.neb (tape_length_remaining status) minus_one.

(** Line 162: [int((remaining_mm / total_mm) * 100) if total_mm > 0 else 0]. *)
Definition percentage_of (remaining total : Z) : result Z :=
  if total >? 0 then
    q ← PyFloat.int_truediv remaining total;
    PyFloat.to_int (PyFloat.mul q hundred)
  else Ok 0.

(** Lines 149-162: the projection of a configuration and a status to the
    tape information. *)
Definition project (config : Configuration) (status : Status)
  : result TapeInfo :=
  if tape_guard config status then
    w ← PyFloat.mul_opt (tape_width config) inch_to_mm;
    ty ← PyFloat.to_int w;
    l ← PyFloat.mul_opt (tape_length_initial config) inch_to_mm;
    total ← PyFloat.to_int l;
    remaining ←
      PyFloat.to_int (PyFloat.mul (tape_length_remaining status) inch_to_mm);
    pct ← percentage_of remaining total;
    Ok {| present := true; type_mm := ty; total_mm := total;
          remaining_mm := remaining; percentage := pct |}
  else Ok tape_info_default.


(** ** Python sequences

    The operations of [str] and [bytes] that the decoder uses, over lists
    of any element type with decidable equality.  Indices are Python
    [int]s ([Z]); [find] answers -1 when there is no occurrence. *)
Module Py.
Section Seq.
Context {A : Type} `{EqDecision A}.

Definition len (s : list A) : Z := Z.of_nat (length s).

(** [s.startswith(p)] *)
Fixpoint startswith (p s : list A) : bool :=
  match p, s with
  | [], _ => true
  | _ :: _, [] => false
  | a :: p', b :: s' => bool_decide (a = b) && startswith p' s'
  end.

(** [s.endswith(p)] *)
Definition endswith (p s : list A) : bool :=
  startswith (reverse p) (reverse s).

(** The scan of [s.find(sub)]: [i] is the index of the head of [s]. *)
Fixpoint find_aux (sub s : list A) (i : Z) : Z :=
  match s with
  | [] => if startswith sub [] then i else -1
  | _ :: s' => if startswith sub s then i else find_aux sub s' (i + 1)
  end.

(** [s.find(sub, start)] for [start >= 0]. *)
Definition find (sub s : list A) (start : Z) : Z :=
  if len s <? start then -1
  else find_aux sub (drop (Z.to_nat start) s) start.

(** [sub in s] *)
Definition contains (sub s : list A) : bool :=
  negb (find sub s 0 =? -1).

(** The scan of [s.split(sep)]: [skip] elements of a separator just
    matched are still to be passed over, [cur] is the piece being read,
    in reverse. *)
Fixpoint split_aux (sep : list A) (skip : nat) (cur s : list A)
  : list (list A) :=
  match s with
  | [] => [reverse cur]
  | a :: s' =>
      match skip with
      | S k => split_aux sep k cur s'
      | O =>
          if startswith sep s
          then reverse cur :: split_aux sep (length sep - 1) [] s'
          else split_aux sep 0 (a :: cur) s'
      end
  end.

(** [s.split(sep)]; Python raises [ValueError] on an empty separator. *)
Definition split (sep s : list A) : result (list (list A)) :=
  match sep with
  | [] => Raise (Exn ValueError "empty separator")
  | _ => Ok (split_aux sep 0 [] s)
  end.

(** [s.split(sep, 1)]: at most one cut, at the first occurrence. *)
Definition split1 (sep s : list A) : result (list (list A)) :=
  match sep with
  | [] => Raise (Exn ValueError "empty separator")
  | _ =>
      let i := find sep s 0 in
      if i =? -1 then Ok [s]
      else Ok [take (Z.to_nat i) s; drop (Z.to_nat i + length sep) s]
  end.

Fixpoint drop_while (f : A -> bool) (s : list A) : list A :=
  match s with
  | [] => []
  | a :: s' => if f a then drop_while f s' else s
  end.

(** [s.rstrip(...)] and [s.strip(...)], the stripped set given as a
    predicate. *)
Definition rstrip_with (f : A -> bool) (s : list A) : list A :=
  reverse (drop_while f (reverse s)).

Definition strip_with (f : A -> bool) (s : list A) : list A :=
  rstrip_with f (drop_while f s).

(** [s.rstrip(chars)]: every trailing element that is one of [chars]
    is removed. *)
Definition rstrip (chars s : list A) : list A :=
  rstrip_with (fun a => bool_decide (a ∈ chars)) s.

End Seq.

(** The bounds of a slice [s[i:j]] of a sequence of length [n]: a negative
    index counts from the end, and both are clamped to [0..n]. *)
Definition slice_index (n i : Z) : Z :=
  if i <? 0 then Z.max (i + n) 0 else Z.min i n.

(** [s[i:j]] *)
Definition slice {A} (s : list A) (i j : Z) : list A :=
  let n := Z.of_nat (length s) in
  let i' := slice_index n i in
  let j' := slice_index n j in
  take (Z.to_nat (j' - i')) (drop (Z.to_nat i') s).

(** [s[i]] for [i >= 0]; [IndexError] out of range. *)
Definition index {A} (s : list A) (i : nat) : result A :=
  match s !! i with
  | Some a => Ok a
  | None => Raise (Exn IndexError "list index out of range")
  end.

(** [a, b = s]: unpacking to exactly two targets. *)
Definition unpack2 {A} (s : list A) : result (A * A) :=
  match s with
  | [a; b] => Ok (a, b)
  | [] | [_] =>
      Raise (Exn ValueError "not enough values to unpack (expected 2)")
  | _ => Raise (Exn ValueError "too many values to unpack (expected 2)")
  end.

End Py.

(** ** Bytes and text *)

Abbreviation byte := Byte.byte.

#[global] Instance byte_eq_dec : EqDecision byte := Byte.byte_eq_dec.

(** A Python [bytes] value. *)
Abbreviation bytes := (list byte).

(** A Python [str]: a sequence of code points. *)
Abbreviation str := (list N).

(** An ASCII literal of the source as [bytes] and as [str]. *)
Definition bs (s : string) : bytes := list_byte_of_string s.
Definition us (s : string) : str :=
  map (fun c => Byte.to_N c) (list_byte_of_string s).

(** A header value as [http.server] hands it over: decoded as ISO-8859-1,
    one code point below 256 per byte. *)
Definition latin1 (s : string) : str := us s.

Definition quote : N := 34%N.
Definition CR : byte := Byte.x0d.
Definition LF : byte := Byte.x0a.

(** The whitespace of [bytes.strip()]: space, tab, LF, CR, VT, FF. *)
Definition bytes_isspace (c : byte) : bool :=
  bool_decide (c ∈ [Byte.x20; Byte.x09; Byte.x0a; Byte.x0d; Byte.x0b; Byte.x0c]).

(** The whitespace of [str.strip()]: the code points Python's
    [str.isspace] accepts. *)
Definition str_isspace (c : N) : bool :=
  ((9 <=? c) && (c <=? 13) || (28 <=? c) && (c <=? 32)
   || (c =? 133) || (c =? 160) || (c =? 5760)
   || (8192 <=? c) && (c <=? 8202)
   || (c =? 8232) || (c =? 8233) || (c =? 8239) || (c =? 8287)
   || (c =? 12288))%N.

(** [str.lower()], one code point at a time.  ASCII capitals are lowered;
    U+0130 lowers to [i] followed by U+0307 and U+212A (Kelvin sign) to
    [k]: the two code points outside ASCII whose lowering begins with an
    ASCII letter.  The lowering of every other code point begins outside
    ASCII and is left as it is: the source only compares the result with
    the ASCII prefix [content-disposition:], which such a code point fails
    either way. *)
Definition lower_cp (c : N) : str :=
  (if (65 <=? c) && (c <=? 90) then [c + 32]
   else if c =? 304 then [105; 775]
   else if c =? 8490 then [107]
   else [c])%N.

Definition str_lower (s : str) : str := s ≫= lower_cp.

(** *** UTF-8 *)

Definition byte_of (n : N) : byte :=
  default Byte.x00 (Byte.of_N (n mod 256)).

(** [s.encode()]: UTF-8; a surrogate cannot be encoded
    ([UnicodeEncodeError], a [ValueError]). *)
Definition encode_cp (c : N) : result bytes :=
  (if c <? 128 then Ok [byte_of c]
   else if c <? 2048 then
     Ok [byte_of (192 + c / 64); byte_of (128 + c mod 64)]
   else if (55296 <=? c) && (c <=? 57343) then
     Raise (Exn ValueError "'utf-8' codec can't encode: surrogates not allowed")
   else if c <? 65536 then
     Ok [byte_of (224 + c / 4096); byte_of (128 + (c / 64) mod 64);
         byte_of (128 + c mod 64)]
   else if c <? 1114112 then
     Ok [byte_of (240 + c / 262144); byte_of (128 + (c / 4096) mod 64);
         byte_of (128 + (c / 64) mod 64); byte_of (128 + c mod 64)]
   else Raise (Exn ValueError "code point not in range(0x110000)"))%N.

Fixpoint str_encode (s : str) : result bytes :=
  match s with
  | [] => Ok []
  | c :: s' =>
      x ← encode_cp c;
      y ← str_encode s';
      Ok (x ++ y)
  end.

(** A continuation byte, 0x80..0xBF. *)
Definition is_cont (c : byte) : bool :=
  ((128 <=? Byte.to_N c) && (Byte.to_N c <? 192))%N.

Definition cont_bits (c : byte) : N := (Byte.to_N c mod 64)%N.

(** One step of CPython's UTF-8 decoder at the lead byte [c], followed by
    [rest]: the code point decoded, or [None] for an error that
    [errors='ignore'] drops, and how many bytes of [rest] the step
    consumes besides [c].  An invalid start byte drops one byte, an invalid
    continuation drops the bytes before it, an unexpected end of data drops
    what is left. *)
Definition utf8_step (c : byte) (rest : bytes) : option N * nat :=
  let ch := Byte.to_N c in
  (if ch <? 128 then (Some ch, 0%nat)
   else if ch <? 194 then (None, 0%nat)
   else if ch <? 224 then
     match rest with
     | [] => (None, 0%nat)
     | c2 :: _ =>
         if is_cont c2
         then (Some ((ch mod 32) * 64 + cont_bits c2), 1%nat)
         else (None, 0%nat)
     end
   else if ch <? 240 then
     match rest with
     | [] => (None, 0%nat)
     | c2 :: rest2 =>
         if negb (is_cont c2)
            || (if Byte.to_N c2 <? 160 then ch =? 224 else ch =? 237)
         then (None, 0%nat)
         else
           match rest2 with
           | [] => (None, 1%nat)
           | c3 :: _ =>
               if is_cont c3
               then (Some ((ch mod 16) * 4096 + cont_bits c2 * 64
                           + cont_bits c3), 2%nat)
               else (None, 1%nat)
           end
     end
   else if ch <? 245 then
     match rest with
     | [] => (None, 0%nat)
     | c2 :: rest2 =>
         if negb (is_cont c2)
            || (if Byte.to_N c2 <? 144 then ch =? 240 else ch =? 244)
         then (None, 0%nat)
         else
           match rest2 with
           | [] => (None, 1%nat)
           | c3 :: rest3 =>
               if negb (is_cont c3) then (None, 1%nat)
               else
                 match rest3 with
                 | [] => (None, 2%nat)
                 | c4 :: _ =>
                     if is_cont c4
                     then (Some ((ch mod 8) * 262144 + cont_bits c2 * 4096
                                 + cont_bits c3 * 64 + cont_bits c4), 3%nat)
                     else (None, 2%nat)
                 end
           end
     end
   else (None, 0%nat))%N.

(** The decoder's scan; [skip] bytes of the step just taken are still to
    be passed over. *)
Fixpoint utf8_scan (skip : nat) (s : bytes) : str :=
  match s with
  | [] => []
  | c :: s' =>
      match skip with
      | S k => utf8_scan k s'
      | O =>
          match utf8_step c s' with
          | (Some cp, k) => cp :: utf8_scan k s'
          | (None, k) => utf8_scan k s'
          end
      end
  end.

(** [s.decode('utf-8', errors='ignore')] *)
Definition decode_ignore (s : bytes) : str := utf8_scan 0 s.

(** ** The multipart decoder: [parse_multipart_form_data] *)

(** The value [files[name]]: the dictionary with keys ['filename'] and
    ['content']. *)
Record FileEntry := {
  filename : str;
  content : bytes
}.

(** The two dictionaries the decoder fills: [form_data] and [files]. *)
Definition Form : Type := gmap str str * gmap str FileEntry.

(** The truth value of a variable that holds [None] or a [str]. *)
Definition str_truthy (x : option str) : bool :=
  match x with
  | Some (_ :: _) => true
  | _ => false
  end.

Definition name_marker : str := us "name=" ++ [quote].
Definition filename_marker : str := us "filename=" ++ [quote].
Definition CRLF : bytes := [CR; LF].
Definition CRLFCRLF : bytes := [CR; LF; CR; LF].
Definition CRLF_text : str := [13; 10]%N.

(** Lines 59-62 and 63-66: the text between [marker] (of [width]
    characters) and the next double quote, when [marker] occurs in [line];
    the variable keeps its value [old] otherwise. *)
Definition extract (marker : str) (width : Z) (line : str) (old : option str)
  : option str :=
  if Py.contains marker line then
    let start := Py.find marker line 0 + width in
    let end_ := Py.find [quote] line start in
    Some (Py.slice line start end_)
  else old.

(** Lines 57-66: the body of the loop over the header lines, on the
    variables [name] and [filename]. *)
Definition scan_line (vars : option str * option str) (line : str)
  : option str * option str :=
  if Py.startswith (us "content-disposition:") (str_lower line) then
    (extract name_marker 6 line (fst vars),
     extract filename_marker 10 line (snd vars))
  else vars.

(** Lines 54-66: [name] and [filename] after the loop. *)
Definition scan_headers (lines : list str) : option str * option str :=
  foldl scan_line (None, None) lines.

(** Lines 68-80: what is recorded for a part whose variables are [name]
    and [filename] and whose content block is [content]. *)
Definition record_part (form : Form) (name filename : option str)
    (content : bytes) : Form :=
  match name with
  | Some ((_ :: _) as n) =>
      let content := Py.rstrip CRLF content in
      match filename with
      | Some ((_ :: _) as f) =>
          (form.1, <[n := {| filename := f; content := content |}]> form.2)
      | _ => (<[n := decode_ignore content]> form.1, form.2)
      end
  | _ => form
  end.

(** Lines 42-80: the body of the loop over the parts. *)
Definition parse_part (form : Form) (part : bytes) : result Form :=
  if bool_decide (Py.strip_with bytes_isspace part = []) then Ok form
  else if Py.contains CRLFCRLF part then
    pieces ← Py.split1 CRLFCRLF part;
    '(headers_data, content) ← Py.unpack2 pieces;
    let headers_text := decode_ignore headers_data in
    lines ← Py.split CRLF_text headers_text;
    let '(name, filename) := scan_headers lines in
    Ok (record_part form name filename content)
  else Ok form.

(** Line 41: the loop. *)
Fixpoint parse_parts (form : Form) (parts : list bytes) : result Form :=
  match parts with
  | [] => Ok form
  | part :: parts' =>
      form' ← parse_part form part;
      parse_parts form' parts'
  end.

(** Lines 32-34: the boundary of a content type that contains
    [boundary=]. *)
Definition boundary_of (content_type : str) : result str :=
  pieces ← Py.split (us "boundary=") content_type;
  piece ← Py.index pieces 1;
  let boundary := Py.strip_with str_isspace piece in
  Ok (if Py.startswith [quote] boundary && Py.endswith [quote] boundary
      then Py.slice boundary 1 (-1)
      else boundary).

(** Lines 26-82.  The content type is a header value of the request. *)
Definition parse_multipart_form_data (content_type : string) (body : bytes)
  : result Form :=
  let content_type := latin1 content_type in
  if negb (Py.contains (us "boundary=") content_type) then
    Raise (Exn ValueError "No boundary found in content type")
  else
    boundary ← boundary_of content_type;
    delimiter ← str_encode (us "--" ++ boundary);
    parts ← Py.split delimiter body;
    parse_parts (∅, ∅) (Py.slice parts 1 (-1)).

(** ** The handlers

    A handler is a program that calls the device, the file system and the
    response writer.  Its effects are recorded, in order, in a trace; the
    outcome of every call to the outside is given by the [World] the
    handler runs in. *)

(** The JSON bodies the handlers send. *)
Inductive Body :=
| StatusOk (config : Configuration) (status : Status) (tape : TapeInfo)
| StatusError (error : string) (tape : TapeInfo)
| PrintOk (printer_status : string)
| PrintError (error : string).

(** What a response carries after its headers. *)
Inductive Content :=
| JsonBody (body : Body)                  (* json.dumps of a handler's dict *)
| JsonRunning (status message : string)   (* the dict of lines 103-106 *)
| Plain (text : bytes)                    (* wfile.write(b'Not Found') *)
| NoContent.                              (* nothing is written *)

(** A response as it is written: the status code of [send_response], the
    headers of the [send_header] calls in order, and the content. *)
Record Response := {
  resp_code : Z;
  resp_headers : list (string * string);
  resp_content : Content
}.

(** Lines 165-167, 187-189, 257-259 and 280-282: the two headers of every
    response of the two handlers. *)
Definition json_headers : list (string * string) :=
  [("Content-type", "application/json");
   ("Access-Control-Allow-Origin", "*")].

(** The response a handler writes for a status code and a body. *)
Definition json_response (code : Z) (body : Body) : Response :=
  {| resp_code := code; resp_headers := json_headers;
     resp_content := JsonBody body |}.

Inductive Event :=
| Connect (host : str) (port : Z)      (* Connection(host, port) *)
| GetConfiguration                     (* printer.get_configuration() *)
| GetStatus                            (* printer.get_status() *)
| PrintJpeg (image : bytes) (mode cut : str)  (* printer.print_jpeg(...) *)
| Close                                (* connection.close() *)
| TempWrite (data : bytes)             (* NamedTemporaryFile, write, close *)
| OpenRead (path : string)             (* open(temp_filename, 'rb') *)
| Unlink (path : string)               (* os.unlink(temp_filename) *)
| Send (code : Z) (body : Body).       (* send_response ... wfile.write *)

(** The outside of a handler: what each call returns or raises.  Writing
    a response ([send_response], the headers, [end_headers], [json.dumps]
    and [wfile.write]) raises when the client has gone. *)
Record World := {
  w_connect : str -> Z -> result unit;
  w_get_configuration : result Configuration;
  w_get_status : result Status;
  w_print_jpeg : bytes -> str -> str -> result unit;
  w_close : result unit;
  w_temp_write : bytes -> result string;
  w_open_read : string -> result unit;
  w_unlink : string -> result unit;
  w_write : Response -> result unit
}.

(** A program: from the trace so far to the trace after it and its
    outcome. *)
Definition Prog (A : Type) : Type := list Event -> list Event * result A.

#[global] Instance Prog_ret : MRet Prog := fun _ a tr => (tr, Ok a).
#[global] Instance Prog_bind : MBind Prog := fun _ _ k m tr =>
  match m tr with
  | (tr', Ok a) => k a tr'
  | (tr', Raise e) => (tr', Raise e)
  end.

(** An expression without effect on the outside. *)
Definition pure {A} (r : result A) : Prog A := fun tr => (tr, r).

(** [raise e] *)
Definition raise {A} (c : exn_class) (msg : string) : Prog A :=
  pure (Raise (Exn c msg)).

(** A call to the outside: it is recorded, then returns or raises. *)
Definition call {A} (ev : Event) (r : result A) : Prog A :=
  fun tr => (tr ++ [ev], r).

(** Writing a response: it is recorded when the handler begins it, then
    is written or raises. *)
Definition send (w : World) (code : Z) (body : Body) : Prog unit :=
  call (Send code body) (w_write w (json_response code body)).

(** [try: body except Exception as e: handler(e)] *)
Definition try_except_Exception {A} (body : Prog A) (handler : exn -> Prog A)
  : Prog A :=
  fun tr =>
    match body tr with
    | (tr', Raise e) =>
        if is_Exception e then handler e tr' else (tr', Raise e)
    | r => r
    end.

(** [try: body except: pass] *)
Definition try_except_pass (body : Prog unit) : Prog unit :=
  fun tr =>
    match body tr with
    | (tr', Raise _) => (tr', Ok tt)
    | r => r
    end.

(** [try: body finally: cleanup] *)
Definition try_finally {A} (body : Prog A) (cleanup : Prog unit) : Prog A :=
  fun tr =>
    match body tr with
    | (tr', r) =>
        match cleanup tr' with
        | (tr'', Ok _) => (tr'', r)
        | (tr'', Raise e) => (tr'', Raise e)
        end
    end.

Definition default_ip : str := us "192.168.178.120".

Definition zero_tape : TapeInfo :=
  {| present := false; type_mm := 0; total_mm := 0;
     remaining_mm := 0; percentage := 0 |}.

(** Lines 128-203.  [ip] is [query_params.get('ip')]: the values of the
    query parameter, when there is one. *)
Definition handle_printer_status_request (w : World) (ip : option (list str))
  : Prog unit :=
  try_except_Exception
    (printer_ip ← pure (Py.index (default [default_ip] ip) 0);
     _ ← call (Connect printer_ip 9100) (w_connect w printer_ip 9100);
     config ← call GetConfiguration (w_get_configuration w);
     status ← call GetStatus (w_get_status w);
     _ ← call Close (w_close w);
     tape_info ← pure (project config status);
     send w 200 (StatusOk config status tape_info))
    (fun e => send w 500 (StatusError (exn_msg e) zero_tape)).

(** The request as [handle_print_request] reads it: the content type
    header ([''] when absent), the value of [int(content-length)], which
    may raise, and the read of that many bytes of the body. *)
Record Request := {
  req_content_type : string;
  req_content_length : result Z;
  req_read : Z -> result bytes
}.

(** The arguments of a print job: printer address, mode, cut, image bytes
    and the name of the temporary file that holds them. *)
Record Job := {
  job_ip : str;
  job_mode : str;
  job_cut : str;
  job_image : bytes;
  job_temp : string
}.

(** Lines 208-238: from the request to the image written to the temporary
    file. *)
Definition print_setup (w : World) (req : Request) : Prog Job :=
  let content_type := req_content_type req in
  content_length ← pure (req_content_length req);
  if negb (String.prefix "multipart/form-data" content_type) then
    raise ValueError "Expected multipart/form-data"
  else
    body ← pure (req_read req content_length);
    form ← pure (parse_multipart_form_data content_type body);
    let printer_ip := default default_ip (form.1 !! us "printer_ip") in
    let mode := default (us "vivid") (form.1 !! us "mode") in
    let cut := default (us "full") (form.1 !! us "cut") in
    match form.2 !! us "image" with
    | None => raise ValueError "No image file provided"
    | Some image =>
        let image_data := content image in
        temp_filename ←
          call (TempWrite image_data) (w_temp_write w image_data);
        mret {| job_ip := printer_ip; job_mode := mode; job_cut := cut;
                job_image := image_data; job_temp := temp_filename |}
    end.

(** Lines 240-274: the inner [try ... finally]. *)
Definition print_job (w : World) (job : Job) : Prog unit :=
  try_finally
    (_ ← call (Connect (job_ip job) 9100) (w_connect w (job_ip job) 9100);
     status ← call GetStatus (w_get_status w);
     _ ← call (OpenRead (job_temp job)) (w_open_read w (job_temp job));
     _ ← call (PrintJpeg (job_image job) (job_mode job) (job_cut job))
              (w_print_jpeg w (job_image job) (job_mode job) (job_cut job));
     _ ← call Close (w_close w);
     send w 200 (PrintOk (print_state status)))
    (try_except_pass
       (call (Unlink (job_temp job)) (w_unlink w (job_temp job)))).

(** Lines 205-289. *)
Definition handle_print_request (w : World) (req : Request) : Prog unit :=
  try_except_Exception
    (job ← print_setup w req;
     print_job w job)
    (fun e => send w 500 (PrintError (exn_msg e))).

(** Running a handler from the empty trace. *)
Definition run {A} (p : Prog A) : list Event * result A := p [].
Definition trace {A} (p : Prog A) : list Event := (run p).1.
Definition outcome {A} (p : Prog A) : result A := (run p).2.

(** The responses begun, in order. *)
Definition responses (tr : list Event) : list (Z * Body) :=
  omap (fun ev => match ev with Send c b => Some (c, b) | _ => None end) tr.

(** ** Inputs of the examples *)

Definition dquote : bytes := [Byte.x22].

(** A [Content-Disposition: form-data] line with the given attributes,
    each value between double quotes. *)
Definition disposition (attrs : list (string * string)) : bytes :=
  bs "Content-Disposition: form-data"
  ++ (attrs ≫= fun kv =>
        bs "; " ++ bs kv.1 ++ bs "=" ++ dquote ++ bs kv.2 ++ dquote).

(** A part as it stands between two delimiters: the CRLF that ends the
    delimiter line, the header lines, a blank line, the payload and the
    framing CRLF. *)
Definition make_part (header : bytes) (payload : bytes) : bytes :=
  CRLF ++ header ++ CRLFCRLF ++ payload ++ CRLF.

(** A body with the boundary [XYZ]. *)
Definition make_body (parts : list bytes) : bytes :=
  (parts ≫= fun p => bs "--XYZ" ++ p) ++ bs "--XYZ--" ++ CRLF.

(** The specification's step 5: a single trailing CRLF is stripped. *)
Definition strip_one_crlf (content : bytes) : bytes :=
  if Py.endswith CRLF content
  then take (length content - 2) content
  else content.

(** ** Definitions used by the statements *)



(** The specification's presence formula, with [> 0] on the two
    configuration values. *)
Definition spec_present (config : Configuration) (status : Status) : bool :=
  from_option PyFloat.gtb0 false (tape_width config)
  && from_option PyFloat.gtb0 false (tape_length_initial config)
  && PyFloat.neb (tape_length_remaining status) minus_one.

(** The specification's percentage formula, with [floor]. *)
Definition spec_percentage (remaining total : Z) : result Z :=
  if total >? 0 then
    q ← PyFloat.int_truediv remaining total;
    PyFloat.floor (PyFloat.mul q hundred)
  else Ok 0.

(** A configuration and a status with the given tape values, in inches. *)
Definition mk_config (w l : PrimFloat.float) : Configuration :=
  {| model := "VC-500W"; serial := "0001";
     tape_width := Some (PyFloat.lit w);
     tape_length_initial := Some (PyFloat.lit l) |}.

Definition mk_status (r : PrimFloat.float) : Status :=
  {| print_state := "IDLE"; print_job_stage := EmptyString;
     print_job_error := EmptyString;
     tape_length_remaining := PyFloat.lit r |}.

(** [int] and [floor] differ on negative floats only. *)
Definition sign_negative (x : spec_float) : bool :=
  match x with
  | S754_finite true _ _ => true
  | _ => false
  end.

(** [w] with another outcome of [os.unlink]. *)
Definition with_unlink (w : World) (f : string -> result unit) : World :=
  {| w_connect := w_connect w;
     w_get_configuration := w_get_configuration w;
     w_get_status := w_get_status w;
     w_print_jpeg := w_print_jpeg w;
     w_close := w_close w;
     w_temp_write := w_temp_write w;
     w_open_read := w_open_read w;
     w_unlink := f;
     w_write := w_write w |}.

(** The effects of the job's body (lines 241-267), by the first call that
    raises. *)
Definition job_body_events (w : World) (job : Job) : list Event :=
  let c := Connect (job_ip job) 9100 in
  let o := OpenRead (job_temp job) in
  let p := PrintJpeg (job_image job) (job_mode job) (job_cut job) in
  match w_connect w (job_ip job) 9100 with
  | Raise _ => [c]
  | Ok _ =>
      match w_get_status w with
      | Raise _ => [c; GetStatus]
      | Ok status =>
          match w_open_read w (job_temp job) with
          | Raise _ => [c; GetStatus; o]
          | Ok _ =>
              match w_print_jpeg w (job_image job) (job_mode job)
                      (job_cut job) with
              | Raise _ => [c; GetStatus; o; p]
              | Ok _ =>
                  match w_close w with
                  | Raise _ => [c; GetStatus; o; p; Close]
                  | Ok _ =>
                      [c; GetStatus; o; p; Close;
                       Send 200 (PrintOk (print_state status))]
                  end
              end
          end
      end
  end.

(** The outcome of the job's body. *)
Definition job_body_outcome (w : World) (job : Job) : result unit :=
  _ ← w_connect w (job_ip job) 9100;
  status ← w_get_status w;
  _ ← w_open_read w (job_temp job);
  _ ← w_print_jpeg w (job_image job) (job_mode job) (job_cut job);
  _ ← w_close w;
  w_write w (json_response 200 (PrintOk (print_state status))).

(** File operations that succeed. *)
Definition no_file : string -> result unit := fun _ => Ok tt.

(** A device that accepts the connection and then fails to answer the
    configuration query. *)
Definition world_config_fails : World :=
  {| w_connect := fun _ _ => Ok tt;
     w_get_configuration := Raise (Exn OSError "timed out");
     w_get_status := Raise (Exn OSError "timed out");
     w_print_jpeg := fun _ _ _ => Raise (Exn OSError "timed out");
     w_close := Ok tt;
     w_temp_write := fun _ => Ok "/tmp/tmpa1b2c3.jpg";
     w_open_read := no_file;
     w_unlink := no_file;
     w_write := fun _ => Ok tt |}.

(** Line 57: the test on a header line. *)
Definition is_disposition (line : str) : bool :=
  Py.startswith (us "content-disposition:") (str_lower line).

(** A part [name=image; filename=fname]. *)
Definition image_part (fname : string) (payload : bytes) : bytes :=
  make_part (disposition [("name", "image"); ("filename", fname)]) payload.

(** A part whose disposition has a filename attribute and no name
    attribute. *)
Definition filename_only_part (payload : bytes) : bytes :=
  make_part (disposition [("filename", "a.jpg")]) payload.


(** A device that answers the status query and fails while printing. *)
Definition world_print_fails : World :=
  {| w_connect := fun _ _ => Ok tt;
     w_get_configuration := Raise (Exn OSError "timed out");
     w_get_status :=
       Ok {| print_state := "IDLE"; print_job_stage := EmptyString;
             print_job_error := EmptyString;
             tape_length_remaining := PyFloat.lit 5 |};
     w_print_jpeg := fun _ _ _ => Raise (Exn OSError "connection reset");
     w_close := Ok tt;
     w_temp_write := fun _ => Ok "/tmp/tmpa1b2c3.jpg";
     w_open_read := no_file;
     w_unlink := no_file;
     w_write := fun _ => Ok tt |}.

(** The specification's end-to-end request: address 10.0.0.5, mode pastel,
    cut each and an image of three bytes. *)
Definition field_part (name value : string) : bytes :=
  make_part (disposition [("name", name)]) (bs value).

Definition sample_body : bytes :=
  make_body [field_part "printer_ip" "10.0.0.5"; field_part "mode" "pastel";
             field_part "cut" "each"; image_part "a.jpg" (bs "ABC")].

Definition sample_request : Request :=
  {| req_content_type := "multipart/form-data; boundary=XYZ";
     req_content_length := Ok (Py.len sample_body);
     req_read := fun _ => Ok sample_body |}.

Definition sample_job : Job :=
  {| job_ip := us "10.0.0.5"; job_mode := us "pastel"; job_cut := us "each";
     job_image := bs "ABC"; job_temp := "/tmp/tmpa1b2c3.jpg" |}.

(** ** The rest of the server *)

(** ** The dispatcher: [do_OPTIONS], [do_GET], [do_POST] *)

(** What a request makes the server do: a call to the device or the file
    system, or a response. *)
Inductive Action :=
| Effect (ev : Event)
| Reply (r : Response).

(** An effect of a handler as an action: its [Send] is a response with the
    JSON headers. *)
Definition on_wire (ev : Event) : Action :=
  match ev with
  | Send code body => Reply (json_response code body)
  | _ => Effect ev
  end.

(** Lines 113-116 and 123-126. *)
Definition not_found : Response :=
  {| resp_code := 404;
     resp_headers := [("Access-Control-Allow-Origin", "*")];
     resp_content := Plain (bs "Not Found") |}.

(** Lines 85-91. *)
Definition preflight : Response :=
  {| resp_code := 200;
     resp_headers :=
       [("Access-Control-Allow-Origin", "*");
        ("Access-Control-Allow-Methods", "GET, POST, OPTIONS");
        ("Access-Control-Allow-Headers", "Content-Type")];
     resp_content := NoContent |}.

(** Lines 97-106. *)
Definition running : Response :=
  {| resp_code := 200; resp_headers := json_headers;
     resp_content :=
       JsonRunning "running"
         "Bridge server is running and ready to accept print jobs" |}.

(** A response written outside a handler: nothing catches what the write
    raises. *)
Definition reply (w : World) (r : Response) : list Action * result unit :=
  ([Reply r], w_write w r).

(** Lines 85-91. *)
Definition do_OPTIONS (w : World) : list Action * result unit :=
  reply w preflight.

(** What [do_GET] reads of [urlparse(self.path)]: the path, and
    [parse_qs(parsed_path.query).get('ip')]. *)
Record Url := {
  url_path : string;
  url_ip : option (list str)
}.

(** Lines 93-116.  [parsed] is the outcome of [urlparse(self.path)] on
    line 95, which raises [ValueError] on a target it cannot parse and
    stands outside any [try]. *)
Definition do_GET (w : World) (parsed : result Url)
  : list Action * result unit :=
  match parsed with
  | Raise e => ([], Raise e)
  | Ok url =>
      if String.eqb (url_path url) "/status" then reply w running
      else if String.eqb (url_path url) "/printer-status" then
        let r := run (handle_printer_status_request w (url_ip url)) in
        (on_wire <$> r.1, r.2)
      else reply w not_found
  end.

(** Lines 118-126.  [path] is [self.path], the request target as sent,
    query string included. *)
Definition do_POST (w : World) (path : string) (req : Request)
  : list Action * result unit :=
  if String.eqb path "/print" then
    let r := run (handle_print_request w req) in
    (on_wire <$> r.1, r.2)
  else reply w not_found.

(** The responses among the actions. *)
Definition replies (acts : list Action) : list Response :=
  omap (fun a => match a with Reply r => Some r | Effect _ => None end) acts.

(** ** Further definitions used by the statements *)

(** A call to the printer. *)
Definition is_device (ev : Event) : bool :=
  match ev with
  | Connect _ _ | GetConfiguration | GetStatus | PrintJpeg _ _ _ | Close =>
      true
  | _ => false
  end.

(** A device whose session cannot be closed: every call succeeds but
    [close]. *)
Definition world_close_fails : World :=
  {| w_connect := fun _ _ => Ok tt;
     w_get_configuration :=
       Ok {| model := "VC-500W"; serial := "0001";
             tape_width := Some (PyFloat.lit 1);
             tape_length_initial := Some (PyFloat.lit 10) |};
     w_get_status :=
       Ok {| print_state := "IDLE"; print_job_stage := EmptyString;
             print_job_error := EmptyString;
             tape_length_remaining := PyFloat.lit 5 |};
     w_print_jpeg := fun _ _ _ => Ok tt;
     w_close := Raise (Exn OSError "broken pipe");
     w_temp_write := fun _ => Ok "/tmp/tmpa1b2c3.jpg";
     w_open_read := no_file;
     w_unlink := no_file;
     w_write := fun _ => Ok tt |}.

(** A request with the given content type and body. *)
Definition mk_request (content_type : string) (body : bytes) : Request :=
  {| req_content_type := content_type;
     req_content_length := Ok (Py.len body);
     req_read := fun _ => Ok body |}.

(** The outcome of the call or of the write that an event records: it
    returned. *)
Definition succeeded (w : World) (ev : Event) : bool :=
  match ev with
  | Connect host port =>
      match w_connect w host port with Ok _ => true | Raise _ => false end
  | GetConfiguration =>
      match w_get_configuration w with Ok _ => true | Raise _ => false end
  | GetStatus =>
      match w_get_status w with Ok _ => true | Raise _ => false end
  | PrintJpeg image mode cut =>
      match w_print_jpeg w image mode cut with
      | Ok _ => true
      | Raise _ => false
      end
  | Close => match w_close w with Ok _ => true | Raise _ => false end
  | TempWrite data =>
      match w_temp_write w data with Ok _ => true | Raise _ => false end
  | OpenRead path =>
      match w_open_read w path with Ok _ => true | Raise _ => false end
  | Unlink path =>
      match w_unlink w path with Ok _ => true | Raise _ => false end
  | Send code body =>
      match w_write w (json_response code body) with
      | Ok _ => true
      | Raise _ => false
      end
  end.

(** The outcome of writing the response of a handler. *)
Definition written (w : World) (cb : Z * Body) : result unit :=
  w_write w (json_response cb.1 cb.2).

(** Every step of the status handler before its response succeeds, with
    these results (lines 134-162). *)
Definition status_steps_succeed (w : World) (ip : option (list str))
    (config : Configuration) (status : Status) (tape : TapeInfo) : Prop :=
  exists host,
    Py.index (default [default_ip] ip) 0 = Ok host /\
    w_connect w host 9100 = Ok tt /\
    w_get_configuration w = Ok config /\
    w_get_status w = Ok status /\
    w_close w = Ok tt /\
    project config status = Ok tape.

(** Every step of the print handler before its response succeeds, with
    this status (lines 209-253). *)
Definition print_steps_succeed (w : World) (req : Request) (status : Status)
  : Prop :=
  exists tr job,
    run (print_setup w req) = (tr, Ok job) /\
    w_connect w (job_ip job) 9100 = Ok tt /\
    w_get_status w = Ok status /\
    w_open_read w (job_temp job) = Ok tt /\
    w_print_jpeg w (job_image job) (job_mode job) (job_cut job) = Ok tt /\
    w_close w = Ok tt.

(** A device and a client with which every call succeeds. *)
Definition world_ready : World :=
  {| w_connect := fun _ _ => Ok tt;
     w_get_configuration := Ok (mk_config 1 10);
     w_get_status := Ok (mk_status 5);
     w_print_jpeg := fun _ _ _ => Ok tt;
     w_close := Ok tt;
     w_temp_write := fun _ => Ok "/tmp/tmpa1b2c3.jpg";
     w_open_read := no_file;
     w_unlink := no_file;
     w_write := fun _ => Ok tt |}.

(** The last response begun was written. *)
Definition answered (w : World) (rs : list Response) : Prop :=
  exists r, last rs = Some r /\ w_write w r = Ok tt.

(** What holds of the handling of a request: when it returns, the last
    response begun was written; at most two responses are begun, and a
    second one is the 500 that follows a 200 whose writing raised an
    [Exception]. *)
Definition handled (w : World) (r : list Action * result unit) : Prop :=
  (r.2 = Ok tt -> answered w (replies r.1))
  /\ (length (replies r.1) <= 2)%nat
  /\ (forall r1 r2,
        replies r.1 = [r1; r2] ->
        resp_code r1 = 200 /\ resp_code r2 = 500 /\
        exists e, w_write w r1 = Raise e /\ is_Exception e = true).

(** With a writer that does not fail: one response when the handling
    returns, none when it is cut short. *)
Definition replied_once (r : list Action * result unit) : Prop :=
  match r.2 with
  | Ok _ => length (replies r.1) = 1%nat
  | Raise e => is_Exception e = false /\ replies r.1 = []
  end.

(** The delimiter [sep] does not begin inside [p]: in [p] followed by the
    delimiter, whatever comes next, the delimiter is first found at the end
    of [p]. *)
Definition ends_at_delimiter (sep p : bytes) : Prop :=
  forall rest, Py.find sep (p ++ sep ++ rest) 0 = Py.len p.

(** A body laid out with the delimiter [sep]: a preamble, the parts, each
    after a delimiter, and a last delimiter followed by [tail]. *)
Definition delimited (sep pre : bytes) (parts : list bytes) (tail : bytes)
  : bytes :=
  pre ++ (parts ≫= fun p => sep ++ p) ++ sep ++ tail.

(** What holds of every decoded form: no entry under an empty name, no
    file with an empty filename, no file content that ends in CR or LF. *)
Definition form_wf (form : Form) : Prop :=
  (forall n v, form.1 !! n = Some v -> n <> [])
  /\ (forall n f, form.2 !! n = Some f ->
        n <> [] /\ filename f <> [] /\
        forall c, last (content f) = Some c -> c <> CR /\ c <> LF).

(** A string that can stand between the double quotes of a header
    attribute and be read back: ASCII, without a double quote and without
    a carriage return. *)
Definition quotable (s : string) : Prop :=
  Forall (fun b => (Byte.to_N b < 128)%N /\ b <> Byte.x22 /\ b <> CR) (bs s).

(** A name of a part: not empty, quotable, and without an equals sign. *)
Definition plain_name (s : string) : Prop :=
  s <> EmptyString /\ quotable s /\ Byte.x3d ∉ bs s.

(** A part with a name and a filename. *)
Definition file_part (name fname : string) (payload : bytes) : bytes :=
  make_part (disposition [("name", name); ("filename", fname)]) payload.

(** A part with a name only and any payload. *)
Definition text_part (name : string) (payload : bytes) : bytes :=
  make_part (disposition [("name", name)]) payload.

(** A sequence of bytes that does not end in a carriage return or a line
    feed. *)
Definition no_trailing_newline (s : bytes) : Prop :=
  forall c, last s = Some c -> c <> CR /\ c <> LF.

(** An ASCII text that does not end in a carriage return or a line feed. *)
Definition plain_value (s : string) : Prop :=
  Forall (fun b => (Byte.to_N b < 128)%N) (bs s)
  /\ no_trailing_newline (bs s).

(** What a client puts in a form: a text field, or a file with its name
    and its bytes. *)
Inductive Item :=
| Field (name value : string)
| File (name fname : string) (payload : bytes).

(** The part a client writes for an item. *)
Definition encode_item (item : Item) : bytes :=
  match item with
  | Field name value => text_part name (bs value)
  | File name fname payload => file_part name fname payload
  end.

(** The entry that stands for an item in the two dictionaries. *)
Definition record_item (form : Form) (item : Item) : Form :=
  match item with
  | Field name value => (<[us name := us value]> form.1, form.2)
  | File name fname payload =>
      (form.1,
       <[us name := {| filename := us fname; content := payload |}]> form.2)
  end.

(** The items that are read back as they were written. *)
Definition valid_item (item : Item) : Prop :=
  match item with
  | Field name value => plain_name name /\ plain_value value
  | File name fname payload =>
      plain_name name /\ fname <> EmptyString /\ quotable fname
      /\ no_trailing_newline payload
  end.

(** The beginning of the header line that [disposition] writes, as text. *)
Definition line_start : str := us "Content-Disposition: form-data; ".

(** * Proofs *)

(** ** Rounding: what [binary_round_aux] does to a bounded value *)

Section Rounding.
















End Rounding.

(** ** The percentage stays within 0..100 when the remaining length does
    not exceed the total length *)


(** The three float literals of the projection. *)
Lemma hundred_eq : hundred = S754_finite false 7036874417766400 (-46).
Proof. reflexivity. Qed.

Lemma inch_to_mm_eq : inch_to_mm = S754_finite false 7149464408450662 (-48).
Proof. reflexivity. Qed.

Lemma minus_one_eq : minus_one = S754_finite true 4503599627370496 (-52).
Proof. reflexivity. Qed.




(** ** The status projection *)

(** Inversion of one [x ← r; k] step of the [result] monad. *)
Lemma result_bind_Ok {A B} (r : result A) (k : A -> result B) b :
  r ≫= k = Ok b -> exists a, r = Ok a /\ k a = Ok b.
Proof. destruct r as [a|e]; [now exists a|discriminate]. Qed.

Lemma result_bind_Raise {A B} (r : result A) (k : A -> result B) e :
  r ≫= k = Raise e -> r = Raise e \/ exists a, r = Ok a /\ k a = Raise e.
Proof.
  destruct r as [a|e']; cbn; [right; now exists a|left; congruence].
Qed.

Ltac inv_bind H :=
  let a := fresh "a" in
  let Ha := fresh "Ha" in
  apply result_bind_Ok in H; destruct H as (a & Ha & H).

Lemma truthy_false_iff x :
  PyFloat.truthy x = false <-> exists s, x = S754_zero s.
Proof.
  split.
  - destruct x as [s|s| |s m e]; cbn; try discriminate.
    + intros _. now exists s.
    + destruct s; discriminate.
    + destruct s; discriminate.
  - now intros [s ->].
Qed.

Lemma truthy_opt_Some x :
  PyFloat.truthy_opt x = true -> exists a, x = Some a /\ PyFloat.truthy a = true.
Proof. destruct x as [a|]; [now exists a|discriminate]. Qed.

Lemma to_int_Raise x e :
  PyFloat.to_int x = Raise e ->
  exn_cls e = ValueError \/ exn_cls e = OverflowError.
Proof.
  destruct x; cbn; intros H; inversion H; subst; cbn; auto.
Qed.

Lemma int_truediv_Raise r t e :
  PyFloat.int_truediv r t = Raise e ->
  (t = 0 /\ exn_cls e = ZeroDivisionError) \/
  (t <> 0 /\ exn_cls e = OverflowError).
Proof.
  unfold PyFloat.int_truediv. destruct (Z.eqb_spec t 0) as [->|Hne].
  - intros H; inversion H; subst. now left.
  - destruct (PyFloat.div _ _); intros H; inversion H; subst. now right.
Qed.

Lemma percentage_of_Raise r t e :
  percentage_of r t = Raise e ->
  exn_cls e = ValueError \/ exn_cls e = OverflowError.
Proof.
  unfold percentage_of. destruct (t >? 0) eqn:Ht; [|discriminate].
  apply Z.gtb_lt in Ht.
  intros H. apply result_bind_Raise in H as [H|(q & Hq & H)].
  - apply int_truediv_Raise in H as [[-> _]|[_ H]]; [lia|now right].
  - now apply to_int_Raise in H.
Qed.

Lemma project_guard_false config status :
  tape_guard config status = false ->
  project config status = Ok tape_info_default.
Proof. unfold project. now intros ->. Qed.

Lemma project_Ok_inv config status t :
  project config status = Ok t ->
  (tape_guard config status = false /\ t = tape_info_default) \/
  (tape_guard config status = true /\ present t = true /\
   percentage_of (remaining_mm t) (total_mm t) = Ok (percentage t)).
Proof.
  unfold project. destruct (tape_guard config status).
  - intros H. right. inv_bind H. inv_bind H. inv_bind H. inv_bind H.
    inv_bind H. inv_bind H. inversion H; subst; cbn. auto.
  - intros H. left. inversion H. auto.
Qed.

Lemma project_Raise_inv config status e :
  project config status = Raise e ->
  tape_guard config status = true /\
  (exn_cls e = ValueError \/ exn_cls e = OverflowError).
Proof.
  unfold project, tape_guard.
  destruct (PyFloat.truthy_opt (tape_width config)) eqn:Hw; [|discriminate].
  destruct (PyFloat.truthy_opt (tape_length_initial config)) eqn:Hl;
    [|discriminate].
  destruct (PyFloat.neb (tape_length_remaining status) minus_one);
    [|discriminate].
  apply truthy_opt_Some in Hw as (w & -> & _).
  apply truthy_opt_Some in Hl as (l & -> & _).
  cbn [andb PyFloat.mul_opt]. intros H. split; [reflexivity|].
  cbn [mbind result_bind] in H.
  apply result_bind_Raise in H as [H|(ty & _ & H)];
    [now apply to_int_Raise in H|].
  apply result_bind_Raise in H as [H|(total & _ & H)];
    [now apply to_int_Raise in H|].
  apply result_bind_Raise in H as [H|(remaining & _ & H)];
    [now apply to_int_Raise in H|].
  apply result_bind_Raise in H as [H|(pct & _ & H)];
    [now apply percentage_of_Raise in H|].
  discriminate.
Qed.

(** C3 (as stated, refuted): a negative width is true in Python, so the
    tape is reported present although [width > 0] fails. *)
Lemma project_present_negative_width :
  exists t, project (mk_config (-1) 10) (mk_status 5) = Ok t /\
            present t = true /\
            spec_present (mk_config (-1) 10) (mk_status 5) = false.
Proof. eexists. split; [vm_compute; reflexivity|]. split; reflexivity. Qed.

(** C3 (amended): [present] is the truth value of the source's test, that
    is, width and initial length are floats other than zero (not
    necessarily positive) and the remaining length differs from -1.0; when
    [present] is false the four numeric fields are 0.  The projection fails
    only when the test holds, with a [ValueError] or an [OverflowError] of a
    conversion. *)
Theorem project_present config status :
  match project config status with
  | Ok t =>
      present t =
        PyFloat.truthy_opt (tape_width config)
        && PyFloat.truthy_opt (tape_length_initial config)
        && PyFloat.neb (tape_length_remaining status) minus_one
      /\ (present t = false ->
          type_mm t = 0 /\ total_mm t = 0 /\ remaining_mm t = 0
          /\ percentage t = 0)
  | Raise e =>
      PyFloat.truthy_opt (tape_width config)
      && PyFloat.truthy_opt (tape_length_initial config)
      && PyFloat.neb (tape_length_remaining status) minus_one = true
      /\ (exn_cls e = ValueError \/ exn_cls e = OverflowError)
  end.
Proof.
  destruct (project config status) as [t|e] eqn:E.
  - apply project_Ok_inv in E as [[Hg ->]|(Hg & Hp & _)].
    + split; [symmetry; exact Hg|]. intros _. now cbn.
    + split; [rewrite Hp; symmetry; exact Hg|]. rewrite Hp. discriminate.
  - apply project_Raise_inv in E. exact E.
Qed.

Lemma floor_to_int x :
  sign_negative x = false -> PyFloat.floor x = PyFloat.to_int x.
Proof. destruct x as [s|s| |[] m e]; cbn; congruence. Qed.

Lemma binary_round_aux_sign m e l :
  sign_negative (binary_round_aux prec emax false m e l) = false.
Proof.
  unfold binary_round_aux.
  destruct (shr_fexp prec emax m e l) as [mrs1 e1].
  destruct (shr_fexp prec emax _ e1 loc_Exact) as [mrs2 e2].
  destruct (shr_m mrs2); [reflexivity| |reflexivity].
  now destruct (e2 <=? emax - prec).
Qed.

Lemma int_truediv_sign r t q :
  0 <= r -> 0 < t -> PyFloat.int_truediv r t = Ok q ->
  q = S754_nan \/ q = S754_zero false \/ exists m e, q = S754_finite false m e.
Proof.
  intros Hr Ht. unfold PyFloat.int_truediv.
  destruct (Z.eqb_spec t 0) as [->|_]; [lia|].
  destruct t as [|t|t]; try lia. destruct r as [|r|r]; try lia.
  - cbn. intros [= <-]. auto.
  - cbn [PyFloat.of_int_exact PyFloat.div SFdiv xorb].
    destruct (SFdiv_core_binary prec emax (Z.pos r) 0 (Z.pos t) 0)
      as [[mz ez] lz].
    pose proof (binary_round_aux_sign mz ez lz) as Hs.
    unfold binary_round_aux in *.
    destruct (shr_fexp prec emax mz ez lz) as [mrs1 e1].
    destruct (shr_fexp prec emax _ e1 loc_Exact) as [mrs2 e2].
    destruct (shr_m mrs2); [intros [= <-]; auto| |intros [= <-]; auto].
    destruct (e2 <=? emax - prec); [|discriminate].
    intros [= <-]. right. right. eauto.
Qed.

Lemma percentage_of_floor r t :
  0 <= r -> 0 < t -> spec_percentage r t = percentage_of r t.
Proof.
  intros Hr Ht. unfold spec_percentage, percentage_of.
  destruct (t >? 0); [|reflexivity].
  destruct (PyFloat.int_truediv r t) as [q|e] eqn:E; [|reflexivity].
  cbn [mbind result_bind]. apply floor_to_int.
  apply int_truediv_sign in E as [->|[->|(m & e & ->)]]; trivial.
  rewrite hundred_eq. cbn [PyFloat.mul SFmul xorb].
  apply binary_round_aux_sign.
Qed.

(** C4 (as stated, refuted): with a remaining length of -2.0 inches the
    source's [int(...)] truncates -19.68 to -19, whereas the floor of the
    same float, and of the exact quotient, is -20. *)
Lemma project_percentage_not_floor :
  exists t, project (mk_config 1 10) (mk_status (-2)) = Ok t /\
            total_mm t > 0 /\
            percentage t = -19 /\
            spec_percentage (remaining_mm t) (total_mm t) = Ok (-20) /\
            (remaining_mm t * 100) / total_mm t = -20.
Proof.
  eexists. split; [vm_compute; reflexivity|]. cbn [total_mm remaining_mm percentage].
  repeat split; vm_compute; reflexivity.
Qed.

(** C4 (amended): when [total_mm > 0] the percentage is the truncation
    toward zero ([int]) of the float [remaining_mm / total_mm * 100], which
    is its floor whenever [remaining_mm >= 0]; when [total_mm <= 0] it is 0;
    and the projection never raises [ZeroDivisionError]. *)
Theorem project_percentage config status :
  match project config status with
  | Ok t =>
      (0 < total_mm t ->
       exists q,
         PyFloat.int_truediv (remaining_mm t) (total_mm t) = Ok q /\
         PyFloat.to_int (PyFloat.mul q hundred) = Ok (percentage t) /\
         (0 <= remaining_mm t ->
          PyFloat.floor (PyFloat.mul q hundred) = Ok (percentage t)))
      /\ (total_mm t <= 0 -> percentage t = 0)
  | Raise e => exn_cls e <> ZeroDivisionError
  end.
Proof.
  destruct (project config status) as [t|e] eqn:E.
  - apply project_Ok_inv in E as [[Hg ->]|(Hg & Hp & Hpct)].
    + cbn. split; [lia|reflexivity].
    + split.
      * intros Ht.
        pose proof Hpct as Hsp. unfold percentage_of in Hpct.
        replace (total_mm t >? 0) with true in Hpct
          by (symmetry; apply Z.gtb_lt; lia).
        apply result_bind_Ok in Hpct as (q & Hq & Hint).
        exists q. repeat split; trivial.
        intros Hr. rewrite <- percentage_of_floor in Hsp by lia.
        unfold spec_percentage in Hsp.
        replace (total_mm t >? 0) with true in Hsp
          by (symmetry; apply Z.gtb_lt; lia).
        rewrite Hq in Hsp. exact Hsp.
      * intros Ht. unfold percentage_of in Hpct.
        replace (total_mm t >? 0) with false in Hpct
          by (symmetry; rewrite Z.gtb_ltb; apply Z.ltb_ge; lia).
        congruence.
  - apply project_Raise_inv in E as [_ [-> | ->]]; discriminate.
Qed.






(** ** The decoder never fails once a boundary is found *)

Section SeqFacts.
Context {A : Type} `{EqDecision A}.
Implicit Types s sep cur : list A.

Lemma split_aux_nonempty sep skip cur s :
  (1 <= length (Py.split_aux sep skip cur s))%nat.
Proof.
  revert skip cur. induction s as [|a s IH]; intros skip cur; cbn; [lia|].
  destruct skip; [|apply IH].
  destruct (Py.startswith sep (a :: s)); cbn; [lia|apply IH].
Qed.

(** An occurrence of the separator gives at least two pieces. *)
Lemma split_aux_two sep cur s i :
  sep <> [] -> Py.find_aux sep s i <> -1 ->
  (2 <= length (Py.split_aux sep 0 cur s))%nat.
Proof.
  intros Hsep. revert cur i. induction s as [|a s IH]; intros cur i; cbn.
  - destruct sep; [congruence|]. cbn. congruence.
  - destruct sep as [|c sep']; [congruence|].
    destruct (Py.startswith (c :: sep') (a :: s)) eqn:E.
    + intros _. cbn [length]. apply le_n_S, split_aux_nonempty.
    + apply IH.
Qed.

Lemma split_aux_Forall (P : A -> Prop) sep skip cur s :
  Forall P cur -> Forall P s ->
  Forall (Forall P) (Py.split_aux sep skip cur s).
Proof.
  revert skip cur. induction s as [|a s IH]; intros skip cur Hcur Hs; cbn.
  - repeat constructor. now apply Forall_reverse.
  - inversion Hs as [|? ? Ha Hs']; subst.
    destruct skip; [|now apply IH].
    destruct (Py.startswith sep (a :: s)).
    + constructor; [now apply Forall_reverse|]. apply IH; [constructor|trivial].
    + apply IH; [now constructor|trivial].
Qed.

Lemma drop_while_Forall (P : A -> Prop) f s :
  Forall P s -> Forall P (Py.drop_while f s).
Proof.
  induction 1 as [|a s Ha Hs IH]; cbn; [constructor|].
  destruct (f a); [exact IH|now constructor].
Qed.

Lemma strip_with_Forall (P : A -> Prop) f s :
  Forall P s -> Forall P (Py.strip_with f s).
Proof.
  intros Hs. unfold Py.strip_with, Py.rstrip_with.
  apply Forall_reverse, drop_while_Forall, Forall_reverse.
  now apply drop_while_Forall.
Qed.

Lemma slice_Forall (P : A -> Prop) s i j :
  Forall P s -> Forall P (Py.slice s i j).
Proof. intros Hs. unfold Py.slice. now apply Forall_take, Forall_drop. Qed.

(** [s.split(sep)[1]] exists as soon as [sep in s]. *)
Lemma split_index_1 (P : A -> Prop) sep s :
  sep <> [] -> Py.contains sep s = true -> Forall P s ->
  exists pieces piece,
    Py.split sep s = Ok pieces /\ Py.index pieces 1 = Ok piece /\
    Forall P piece.
Proof.
  intros Hsep Hin HP. unfold Py.contains, Py.find in Hin.
  apply negb_true_iff, Z.eqb_neq in Hin.
  replace (Py.len s <? 0) with false in Hin
    by (symmetry; apply Z.ltb_ge; unfold Py.len; lia).
  cbn [Z.to_nat drop] in Hin.
  pose proof (split_aux_two sep [] s 0 Hsep Hin) as Hlen.
  pose proof (split_aux_Forall P sep 0 [] s ltac:(constructor) HP) as Hall.
  unfold Py.split. destruct sep as [|c sep']; [congruence|].
  destruct (Py.split_aux (c :: sep') 0 [] s) as [|p0 [|p1 rest]] eqn:E;
    cbn in Hlen; try lia.
  exists (p0 :: p1 :: rest), p1. repeat split; trivial.
  inversion Hall as [|? ? _ Hall']; subst. now inversion Hall'.
Qed.

(** [s.split(sep, 1)] unpacks to two values as soon as [sep in s]. *)
Lemma split1_unpack2 sep s :
  sep <> [] -> Py.contains sep s = true ->
  exists h c, (Py.split1 sep s ≫= Py.unpack2) = Ok (h, c).
Proof.
  intros Hsep Hin. unfold Py.contains in Hin.
  apply negb_true_iff in Hin. unfold Py.split1.
  destruct sep as [|c sep']; [congruence|]. rewrite Hin. cbn. eauto.
Qed.

End SeqFacts.

Lemma latin1_bounded s : Forall (fun c => (c < 256)%N) (latin1 s).
Proof.
  unfold latin1, us. apply Forall_map, Forall_forall. intros c _. cbn.
  pose proof (Byte.to_N_bounded c). lia.
Qed.

Lemma encode_cp_latin1 c :
  (c < 256)%N -> exists x, encode_cp c = Ok x /\ x <> [].
Proof.
  intros Hc. unfold encode_cp.
  destruct (c <? 128)%N; [eexists; split; [reflexivity|discriminate]|].
  replace (c <? 2048)%N with true by (symmetry; apply N.ltb_lt; lia).
  eexists; split; [reflexivity|discriminate].
Qed.

Lemma str_encode_latin1 s :
  Forall (fun c => (c < 256)%N) s -> exists x, str_encode s = Ok x.
Proof.
  induction 1 as [|c s Hc Hs [y IH]]; cbn; [eauto|].
  destruct (encode_cp_latin1 c Hc) as (x & -> & _). rewrite IH. cbn. eauto.
Qed.

Lemma boundary_of_Ok content_type :
  Py.contains (us "boundary=") (latin1 content_type) = true ->
  exists boundary,
    boundary_of (latin1 content_type) = Ok boundary /\
    Forall (fun c => (c < 256)%N) boundary.
Proof.
  intros Hin. unfold boundary_of.
  destruct (split_index_1 (fun c => (c < 256)%N) (us "boundary=")
              (latin1 content_type)) as (pieces & piece & -> & Hp & HP);
    [discriminate|trivial|apply latin1_bounded|].
  cbn [mbind result_bind]. rewrite Hp. cbn [mbind result_bind].
  eexists. split; [reflexivity|].
  destruct (_ && _); [apply slice_Forall|]; now apply strip_with_Forall.
Qed.

Lemma parse_part_Ok form part : exists form', parse_part form part = Ok form'.
Proof.
  unfold parse_part. destruct (bool_decide _); [eauto|].
  destruct (Py.contains CRLFCRLF part) eqn:Hin; [|eauto].
  destruct (split1_unpack2 CRLFCRLF part) as (h & c & Hsplit);
    [discriminate|trivial|].
  destruct (Py.split1 CRLFCRLF part) as [pieces|e]; [|discriminate].
  cbn [mbind result_bind] in *. rewrite Hsplit.
  cbn [mbind result_bind Py.split CRLF_text].
  destruct (scan_headers _) as [name fname]. eauto.
Qed.

Lemma parse_parts_Ok parts :
  forall form, exists form', parse_parts form parts = Ok form'.
Proof.
  induction parts as [|part parts IH]; intros form; cbn; [eauto|].
  destruct (parse_part_Ok form part) as [form' ->]. cbn. apply IH.
Qed.

(** C9: the decoder raises exactly when the content type holds no
    [boundary=]: then it raises the [ValueError] of line 30, and otherwise,
    whatever the body, it returns the two dictionaries. *)
Theorem parse_multipart_form_data_total content_type body :
  if Py.contains (us "boundary=") (latin1 content_type)
  then exists form, parse_multipart_form_data content_type body = Ok form
  else parse_multipart_form_data content_type body
       = Raise (Exn ValueError "No boundary found in content type").
Proof.
  unfold parse_multipart_form_data.
  destruct (Py.contains (us "boundary=") (latin1 content_type)) eqn:Hin;
    [|reflexivity].
  cbn [negb].
  destruct (boundary_of_Ok content_type Hin) as (boundary & -> & Hb).
  cbn [mbind result_bind].
  assert (Hd : exists c d, str_encode (us "--" ++ boundary) = Ok (c :: d)).
  { change (us "--" ++ boundary) with (45%N :: 45%N :: boundary).
    cbn [str_encode].
    destruct (str_encode_latin1 boundary Hb) as [y ->].
    cbn. eauto. }
  destruct Hd as (c & d & ->). cbn [mbind result_bind Py.split].
  apply parse_parts_Ok.
Qed.

(** ** What a part is recorded as *)

Lemma extract_Some marker width line old :
  Py.contains marker line = true ->
  exists v, extract marker width line old = Some v.
Proof. unfold extract. intros ->. eauto. Qed.

Lemma extract_keeps_Some marker width line v :
  exists v', extract marker width line (Some v) = Some v'.
Proof. unfold extract. destruct (Py.contains marker line); eauto. Qed.

(** Once a disposition line carries the filename marker, the variable
    [filename] holds a string at the end of the loop. *)
Lemma scan_headers_filename lines vars :
  is_Some vars.2
  \/ Exists (fun line => is_disposition line = true /\
                         Py.contains filename_marker line = true) lines ->
  is_Some (foldl scan_line vars lines).2.
Proof.
  revert vars. induction lines as [|line lines IH]; intros vars; cbn [foldl].
  - intros [H|H]; [exact H|inversion H].
  - intros H. apply IH.
    unfold scan_line. fold (is_disposition line).
    destruct H as [[v Hv]|H].
    + left. destruct (is_disposition line); cbn [snd]; [|now exists v].
      rewrite Hv. destruct (extract_keeps_Some filename_marker 10 line v).
      eauto.
    + inversion H as [? ? [Hd Hf]|? ? Hrest]; subst.
      * left. rewrite Hd. cbn [snd].
        destruct (extract_Some filename_marker 10 line vars.2 Hf). eauto.
      * now right.
Qed.

Lemma split1_two {A} `{EqDecision A} (sep part h c : list A) :
  Py.split1 sep part = Ok [h; c] -> Py.contains sep part = true.
Proof.
  unfold Py.split1, Py.contains. destruct sep; [discriminate|].
  destruct (_ =? -1); [discriminate|reflexivity].
Qed.

(** The steps of [parse_part] on a part that is not blank and has the
    blank line. *)
Lemma parse_part_record form part headers_data payload lines :
  Py.strip_with bytes_isspace part <> [] ->
  Py.split1 CRLFCRLF part = Ok [headers_data; payload] ->
  Py.split CRLF_text (decode_ignore headers_data) = Ok lines ->
  parse_part form part
  = Ok (record_part form (scan_headers lines).1 (scan_headers lines).2
          payload).
Proof.
  intros Hne Hsplit Hlines. unfold parse_part.
  rewrite bool_decide_eq_false_2 by exact Hne.
  rewrite (split1_two _ _ _ _ Hsplit), Hsplit.
  cbn [mbind result_bind Py.unpack2]. rewrite Hlines.
  cbn [mbind result_bind]. now destruct (scan_headers lines).
Qed.

(** C6 (amended): for a part with a disposition line that carries the
    filename marker, the variable [filename] is set, and the part is
    recorded as a file exactly when its name and its filename are both
    non-empty, whatever the content; with an empty filename it is recorded
    as a text field. *)
Theorem filename_decides_kind form part headers_data payload lines :
  Py.strip_with bytes_isspace part <> [] ->
  Py.split1 CRLFCRLF part = Ok [headers_data; payload] ->
  Py.split CRLF_text (decode_ignore headers_data) = Ok lines ->
  Exists (fun line => is_disposition line = true /\
                      Py.contains filename_marker line = true) lines ->
  exists name fname,
    scan_headers lines = (name, Some fname) /\
    parse_part form part
    = Ok match name, fname with
         | Some ((_ :: _) as n), _ :: _ =>
             (form.1,
              <[n := {| filename := fname;
                        content := Py.rstrip CRLF payload |}]> form.2)
         | Some ((_ :: _) as n), [] =>
             (<[n := decode_ignore (Py.rstrip CRLF payload)]> form.1, form.2)
         | _, _ => form
         end.
Proof.
  intros Hne Hsplit Hlines Hex.
  rewrite (parse_part_record form part headers_data payload lines) by trivial.
  destruct (scan_headers_filename lines (None, None) (or_intror Hex))
    as [fname Hf].
  fold (scan_headers lines) in Hf.
  destruct (scan_headers lines) as [name fn]. cbn [fst snd] in *. subst fn.
  exists name, fname. split; [reflexivity|].
  unfold record_part. destruct name as [[|n0 n]|]; trivial.
Qed.

(** C6 (as stated, refuted): a part whose disposition carries an empty
    filename attribute is recorded as a text field, not as a file. *)
Lemma empty_filename_recorded_as_field :
  Exists (fun line => is_disposition line = true /\
                      Py.contains filename_marker line = true)
    [decode_ignore (disposition [("name", "image"); ("filename", EmptyString)])]
  /\ exists form,
       parse_part (∅, ∅) (image_part EmptyString (bs "ABC")) = Ok form /\
       form.1 !! us "image" = Some (us "ABC") /\
       form.2 !! us "image" = None.
Proof.
  split.
  - constructor. split; vm_compute; reflexivity.
  - eexists. split; [vm_compute; reflexivity|]. split; vm_compute; reflexivity.
Qed.

(** The theorem at the part [name=image; filename=a.jpg] with a text
    content. *)
Lemma filename_decides_kind_witness :
  Py.strip_with bytes_isspace (image_part "a.jpg" (bs "plain text")) <> [] /\
  exists name fname,
    scan_headers
      [[]; decode_ignore (disposition [("name", "image"); ("filename", "a.jpg")])]
    = (name, Some fname) /\
    parse_part (∅, ∅) (image_part "a.jpg" (bs "plain text"))
    = Ok match name, fname with
         | Some ((_ :: _) as n), _ :: _ =>
             (∅, <[n := {| filename := fname;
                           content := Py.rstrip CRLF (bs "plain text" ++ CRLF) |}]> ∅)
         | Some ((_ :: _) as n), [] =>
             (<[n := decode_ignore (Py.rstrip CRLF (bs "plain text" ++ CRLF))]> ∅, ∅)
         | _, _ => (∅, ∅)
         end.
Proof.
  assert (Hne : Py.strip_with bytes_isspace
                  (image_part "a.jpg" (bs "plain text")) <> [])
    by (vm_compute; discriminate).
  split; [exact Hne|].
  apply (filename_decides_kind (∅, ∅)
           (image_part "a.jpg" (bs "plain text"))
           (CRLF ++ disposition [("name", "image"); ("filename", "a.jpg")])
           (bs "plain text" ++ CRLF)).
  - exact Hne.
  - vm_compute; reflexivity.
  - vm_compute; reflexivity.
  - right. left. split; vm_compute; reflexivity.
Defined.

(** The specification's example: a part with the name image and the
    filename a.jpg decodes to a file part although its content is text. *)
Lemma image_part_is_file :
  parse_multipart_form_data "multipart/form-data; boundary=XYZ"
    (make_body [image_part "a.jpg" (bs "plain text")])
  = Ok (∅, {[ us "image" := {| filename := us "a.jpg";
                               content := bs "plain text" |} ]}).
Proof. vm_compute; reflexivity. Qed.

(** [s.find(sub)] scans from the first element. *)
Lemma find_0 {A} `{EqDecision A} (sub s : list A) :
  Py.find sub s 0 = Py.find_aux sub s 0.
Proof.
  unfold Py.find.
  replace (Py.len s <? 0) with false
    by (symmetry; apply Z.ltb_ge; unfold Py.len; lia).
  reflexivity.
Qed.

(** What [drop_while] leaves begins with an element that is kept. *)
Lemma drop_while_nil_inv {A} (f : A -> bool) (s : list A) :
  Py.drop_while f s = [] -> Forall (fun a => f a = true) s.
Proof.
  induction s as [|a s IH]; cbn; [constructor|].
  destruct (f a) eqn:E; [intros H; constructor; auto|discriminate].
Qed.

Lemma drop_while_head {A} (f : A -> bool) (s : list A) a t :
  Py.drop_while f s = a :: t -> f a = false.
Proof.
  induction s as [|c s IH]; cbn; [discriminate|].
  destruct (f c) eqn:E; [exact IH|]. now intros [= <- _].
Qed.

(** A sequence that strips to nothing consists of stripped elements. *)
Lemma strip_with_nil_inv {A} (f : A -> bool) (s : list A) :
  Py.strip_with f s = [] -> Forall (fun a => f a = true) s.
Proof.
  unfold Py.strip_with, Py.rstrip_with. intros H.
  apply (f_equal reverse) in H. rewrite reverse_involutive in H. cbn in H.
  apply drop_while_nil_inv, Forall_reverse in H.
  rewrite reverse_involutive in H.
  destruct (Py.drop_while f s) as [|a t] eqn:E.
  - now apply drop_while_nil_inv.
  - apply drop_while_head in E. inversion H; congruence.
Qed.

(** The same for every content and every state of the two dictionaries:
    the content plays no part in the choice between file and field. *)
Lemma image_part_file_any_content form payload :
  parse_part form (image_part "a.jpg" payload)
  = Ok (form.1,
        <[us "image" := {| filename := us "a.jpg";
                           content := Py.rstrip CRLF (payload ++ CRLF) |}]>
          form.2).
Proof.
  rewrite (parse_part_record form _
             (CRLF ++ disposition [("name", "image"); ("filename", "a.jpg")])
             (payload ++ CRLF)
             [[]; decode_ignore
                    (disposition [("name", "image"); ("filename", "a.jpg")])]).
  - vm_compute scan_headers. reflexivity.
  - intros H. apply strip_with_nil_inv in H.
    vm_compute in H. inversion H as [|? ? _ H1]; subst.
    inversion H1 as [|? ? _ H2]; subst. inversion H2 as [|? ? Hc _]; subst.
    discriminate.
  - unfold Py.split1, CRLFCRLF. rewrite find_0. vm_compute. reflexivity.
  - vm_compute. reflexivity.
Qed.

(** [rstrip] removes every trailing CR and LF, those of the payload
    included. *)
Section Rstrip.
Context {A : Type} `{EqDecision A}.

Lemma rstrip_with_snoc (f : A -> bool) s a :
  f a = true -> Py.rstrip_with f (s ++ [a]) = Py.rstrip_with f s.
Proof.
  intros Ha. unfold Py.rstrip_with. rewrite reverse_snoc. cbn. now rewrite Ha.
Qed.

Lemma rstrip_snoc (chars s : list A) a :
  a ∈ chars -> Py.rstrip chars (s ++ [a]) = Py.rstrip chars s.
Proof. intros Ha. apply rstrip_with_snoc. now apply bool_decide_eq_true. Qed.

End Rstrip.

Lemma rstrip_CRLF_payload_newline payload :
  Py.rstrip CRLF (payload ++ [LF] ++ CRLF) = Py.rstrip CRLF payload.
Proof.
  change ([LF] ++ CRLF) with ([LF] ++ [CR] ++ [LF]). rewrite !app_assoc.
  rewrite !rstrip_snoc; trivial; unfold CRLF; set_solver.
Qed.

(** C5 (the code departs from the claim): a payload [A LF] followed by the
    framing CRLF is recorded as [A]: the payload's own line feed is
    stripped with the framing, where stripping one CRLF keeps it.  It
    holds for every payload that ends in a line feed. *)
Theorem rstrip_eats_payload_newline :
  parse_part (∅, ∅) (image_part "a.jpg" (bs "A" ++ [LF]))
  = Ok (∅, {[ us "image" := {| filename := us "a.jpg"; content := bs "A" |} ]})
  /\ strip_one_crlf ((bs "A" ++ [LF]) ++ CRLF) = bs "A" ++ [LF]
  /\ Py.rstrip CRLF ((bs "A" ++ [LF]) ++ CRLF) = bs "A"
  /\ forall payload,
       Py.rstrip CRLF (payload ++ [LF] ++ CRLF) = Py.rstrip CRLF payload.
Proof.
  repeat split; try (vm_compute; reflexivity).
  apply rstrip_CRLF_payload_newline.
Qed.

(** ** Substring search *)

Section Find.
Context {A : Type} `{EqDecision A}.
Implicit Types s sub pre post p t : list A.

Lemma startswith_app p t : Py.startswith p (p ++ t) = true.
Proof.
  induction p as [|a p IH]; cbn; [now destruct t|].
  now rewrite bool_decide_eq_true_2, IH.
Qed.

Lemma startswith_inv p s :
  Py.startswith p s = true -> exists t, s = p ++ t.
Proof.
  revert s. induction p as [|a p IH]; intros s; cbn.
  - intros _. now exists s.
  - destruct s as [|c s]; [discriminate|].
    intros [Hac Hp]%andb_true_iff. apply bool_decide_eq_true in Hac as ->.
    destruct (IH s Hp) as [t ->]. now exists t.
Qed.

Lemma find_aux_found sub pre post i :
  0 <= i -> Py.find_aux sub (pre ++ sub ++ post) i <> -1.
Proof.
  revert i. induction pre as [|a pre IH]; intros i Hi; cbn [app].
  - destruct (sub ++ post) as [|c t] eqn:E; cbn [Py.find_aux].
    + apply app_eq_nil in E as [-> _]. cbn. lia.
    + rewrite <- E, startswith_app. lia.
  - cbn [Py.find_aux]. destruct (Py.startswith sub _); [lia|].
    apply IH. lia.
Qed.

Lemma find_aux_inv sub s i :
  Py.find_aux sub s i <> -1 -> exists pre post, s = pre ++ sub ++ post.
Proof.
  revert i. induction s as [|a s IH]; intros i; cbn [Py.find_aux].
  - destruct (Py.startswith sub []) eqn:E; [|congruence].
    intros _. apply startswith_inv in E as [t E].
    symmetry in E. apply app_eq_nil in E as [-> ->]. now exists [], [].
  - destruct (Py.startswith sub (a :: s)) eqn:E.
    + intros _. apply startswith_inv in E as [t ->]. now exists [], t.
    + intros H0. destruct (IH _ H0) as (pre & post & ->).
      now exists (a :: pre), post.
Qed.

Lemma contains_iff sub s :
  Py.contains sub s = true <-> exists pre post, s = pre ++ sub ++ post.
Proof.
  unfold Py.contains, Py.find.
  replace (Py.len s <? 0) with false
    by (symmetry; apply Z.ltb_ge; unfold Py.len; lia).
  cbn [Z.to_nat drop]. rewrite negb_true_iff, Z.eqb_neq. split.
  - apply find_aux_inv.
  - intros (pre & post & ->). now apply find_aux_found.
Qed.

End Find.

(** The marker of the name occurs wherever the marker of the filename
    does: it is its last six characters. *)
Lemma filename_marker_is_name_marker line :
  Py.contains filename_marker line = true ->
  Py.contains name_marker line = true.
Proof.
  rewrite !contains_iff. intros (pre & post & ->).
  exists (pre ++ us "file"), post.
  change filename_marker with (us "file" ++ name_marker).
  now rewrite <- !app_assoc.
Qed.

(** Hence a disposition line with a filename attribute always resolves a
    name, also when it has no name attribute. *)
Lemma scan_headers_name lines vars :
  is_Some vars.1
  \/ Exists (fun line => is_disposition line = true /\
                         Py.contains filename_marker line = true) lines ->
  is_Some (foldl scan_line vars lines).1.
Proof.
  revert vars. induction lines as [|line lines IH]; intros vars; cbn [foldl].
  - intros [H|H]; [exact H|inversion H].
  - intros H. apply IH.
    unfold scan_line. fold (is_disposition line).
    destruct H as [[v Hv]|H].
    + left. destruct (is_disposition line); cbn [fst]; [|now exists v].
      rewrite Hv. destruct (extract_keeps_Some name_marker 6 line v).
      eauto.
    + inversion H as [? ? [Hd Hf]|? ? Hrest]; subst.
      * left. rewrite Hd. cbn [fst].
        apply filename_marker_is_name_marker in Hf.
        destruct (extract_Some name_marker 6 line vars.1 Hf). eauto.
      * now right.
Qed.

(** A part without a name is dropped. *)
Lemma nameless_part_dropped form part headers_data payload lines :
  Py.strip_with bytes_isspace part <> [] ->
  Py.split1 CRLFCRLF part = Ok [headers_data; payload] ->
  Py.split CRLF_text (decode_ignore headers_data) = Ok lines ->
  str_truthy (scan_headers lines).1 = false ->
  parse_part form part = Ok form.
Proof.
  intros Hne Hsplit Hlines Hname.
  rewrite (parse_part_record form part headers_data payload lines) by trivial.
  unfold record_part.
  destruct (scan_headers lines).1 as [[|n0 n]|]; trivial. discriminate.
Qed.

(** C7 (the code departs from the claim): a part whose disposition carries
    only a filename attribute is not dropped: the search for the name
    marker matches inside the filename marker, so the part is recorded as a
    file under its file name. *)
Theorem filename_only_part_recorded :
  Py.contains name_marker
    (decode_ignore (disposition [("filename", "a.jpg")])) = true
  /\ scan_headers [[]; decode_ignore (disposition [("filename", "a.jpg")])]
     = (Some (us "a.jpg"), Some (us "a.jpg"))
  /\ parse_part (∅, ∅) (filename_only_part (bs "ABC"))
     = Ok (∅, {[ us "a.jpg" := {| filename := us "a.jpg";
                                  content := bs "ABC" |} ]})
  /\ parse_multipart_form_data "multipart/form-data; boundary=XYZ"
       (make_body [filename_only_part (bs "ABC")])
     = Ok (∅, {[ us "a.jpg" := {| filename := us "a.jpg";
                                  content := bs "ABC" |} ]}).
Proof. repeat split; vm_compute; reflexivity. Qed.

(** ** The handlers: session closure and temporary file *)

Lemma Prog_bind_run {A B} (m : Prog A) (k : A -> Prog B) tr :
  (m ≫= k) tr =
  match m tr with
  | (tr', Ok a) => k a tr'
  | (tr', Raise e) => (tr', Raise e)
  end.
Proof. reflexivity. Qed.

(** The setup writes nothing but the temporary file. *)
Lemma print_setup_trace w req tr0 tr r :
  print_setup w req tr0 = (tr, r) ->
  tr = tr0 \/ exists data, tr = tr0 ++ [TempWrite data].
Proof.
  unfold print_setup. rewrite Prog_bind_run. unfold pure, raise, pure.
  destruct (req_content_length req) as [n|e]; [|intros [= <- _]; now left].
  destruct (negb _); [intros [= <- _]; now left|].
  rewrite Prog_bind_run.
  destruct (req_read req n) as [body|e]; [|intros [= <- _]; now left].
  rewrite Prog_bind_run.
  destruct (parse_multipart_form_data _ body) as [form|e];
    [|intros [= <- _]; now left].
  destruct (form.2 !! us "image") as [image|]; [|intros [= <- _]; now left].
  rewrite Prog_bind_run. unfold call.
  destruct (w_temp_write w (content image)) as [path|e];
    intros [= <- _]; right; eauto.
Qed.

Lemma print_setup_unlink_indep w f req tr0 :
  print_setup (with_unlink w f) req tr0 = print_setup w req tr0.
Proof. reflexivity. Qed.

(** The job: its body, then the unlink, whose failure is dropped. *)
Lemma print_job_run w job tr :
  print_job w job tr =
  (tr ++ job_body_events w job ++ [Unlink (job_temp job)],
   job_body_outcome w job).
Proof.
  unfold print_job, try_finally, try_except_pass, job_body_events,
    job_body_outcome, send, call.
  cbv [mbind Prog_bind result_bind].
  destruct (w_connect w (job_ip job) 9100) as [[]|e];
    [|destruct (w_unlink w (job_temp job)) as [[]|?];
      now rewrite <- !app_assoc].
  destruct (w_get_status w) as [status|e];
    [|destruct (w_unlink w (job_temp job)) as [[]|?];
      now rewrite <- !app_assoc].
  destruct (w_open_read w (job_temp job)) as [[]|e];
    [|destruct (w_unlink w (job_temp job)) as [[]|?];
      now rewrite <- !app_assoc].
  destruct (w_print_jpeg w (job_image job) (job_mode job) (job_cut job))
    as [[]|e];
    [|destruct (w_unlink w (job_temp job)) as [[]|?];
      now rewrite <- !app_assoc].
  destruct (w_close w) as [[]|e];
    [|destruct (w_unlink w (job_temp job)) as [[]|?];
      now rewrite <- !app_assoc].
  destruct (w_write w _) as [[]|e];
    destruct (w_unlink w (job_temp job)) as [[]|?];
    now rewrite <- !app_assoc.
Qed.

(** The whole handler after a successful setup. *)
Lemma handle_print_request_run w req tr job :
  run (print_setup w req) = (tr, Ok job) ->
  run (handle_print_request w req) =
  match job_body_outcome w job with
  | Raise e =>
      if is_Exception e
      then (tr ++ job_body_events w job ++ [Unlink (job_temp job)]
               ++ [Send 500 (PrintError (exn_msg e))],
            w_write w (json_response 500 (PrintError (exn_msg e))))
      else (tr ++ job_body_events w job ++ [Unlink (job_temp job)], Raise e)
  | Ok _ => (tr ++ job_body_events w job ++ [Unlink (job_temp job)], Ok tt)
  end.
Proof.
  unfold run, handle_print_request, try_except_Exception. intros E.
  rewrite Prog_bind_run, E, print_job_run.
  destruct (job_body_outcome w job) as [[]|e]; [reflexivity|].
  destruct (is_Exception e); [|reflexivity].
  unfold send, call. now rewrite <- !app_assoc.
Qed.

(** Without a successful setup no device call is made. *)
Lemma handle_print_request_no_job w req tr e :
  run (print_setup w req) = (tr, Raise e) ->
  trace (handle_print_request w req) =
  if is_Exception e then tr ++ [Send 500 (PrintError (exn_msg e))] else tr.
Proof.
  unfold trace, run, handle_print_request, try_except_Exception. intros E.
  rewrite Prog_bind_run, E. now destruct (is_Exception e).
Qed.

Lemma Close_in_job_body w job :
  Close ∈ job_body_events w job <->
  w_connect w (job_ip job) 9100 = Ok tt /\
  (exists status, w_get_status w = Ok status) /\
  w_open_read w (job_temp job) = Ok tt /\
  w_print_jpeg w (job_image job) (job_mode job) (job_cut job) = Ok tt.
Proof.
  unfold job_body_events.
  destruct (w_connect w (job_ip job) 9100) as [[]|e1].
  2:{ split; [|intros (? & _); discriminate].
      rewrite !elem_of_cons, elem_of_nil. intuition discriminate. }
  destruct (w_get_status w) as [status|e2].
  2:{ split; [|intros (_ & (? & ?) & _); discriminate].
      rewrite !elem_of_cons, elem_of_nil. intuition discriminate. }
  destruct (w_open_read w (job_temp job)) as [[]|e3].
  2:{ split; [|intros (_ & _ & ? & _); discriminate].
      rewrite !elem_of_cons, elem_of_nil. intuition discriminate. }
  destruct (w_print_jpeg w (job_image job) (job_mode job) (job_cut job))
    as [[]|e4].
  2:{ split; [|intros (_ & _ & _ & ?); discriminate].
      rewrite !elem_of_cons, elem_of_nil. intuition discriminate. }
  split; [eauto 10|]. intros _.
  destruct (w_close w); rewrite !elem_of_cons; auto 10.
Qed.

(** The device calls of the status handler (lines 139-146), by the first
    one that raises. *)
Lemma status_handler_Close w ip :
  Close ∈ trace (handle_printer_status_request w ip) <->
  exists host config status,
    Py.index (default [default_ip] ip) 0 = Ok host /\
    w_connect w host 9100 = Ok tt /\
    w_get_configuration w = Ok config /\
    w_get_status w = Ok status.
Proof.
  unfold trace, run, handle_printer_status_request, try_except_Exception,
    send, call, pure.
  cbv [mbind Prog_bind].
  destruct (Py.index (default [default_ip] ip) 0) as [host|e0].
  2:{ split; [|intros (? & ? & ? & ? & _); discriminate].
      destruct (is_Exception e0); cbn;
        rewrite ?elem_of_cons, elem_of_nil; intuition discriminate. }
  destruct (w_connect w host 9100) as [[]|e1] eqn:E1.
  2:{ split.
      - destruct (is_Exception e1); cbn;
          rewrite ?elem_of_cons, elem_of_nil; intuition discriminate.
      - intros (? & ? & ? & [= <-] & ? & _). congruence. }
  destruct (w_get_configuration w) as [config|e2].
  2:{ split; [|intros (? & ? & ? & _ & _ & ? & _); discriminate].
      destruct (is_Exception e2); cbn;
        rewrite ?elem_of_cons, elem_of_nil; intuition discriminate. }
  destruct (w_get_status w) as [status|e3].
  2:{ split; [|intros (? & ? & ? & _ & _ & _ & ?); discriminate].
      destruct (is_Exception e3); cbn;
        rewrite ?elem_of_cons, elem_of_nil; intuition discriminate. }
  split; [intros _; eauto 10|]. intros _.
  destruct (w_close w) as [[]|e4]; [destruct (project config status)|];
    cbn;
    repeat match goal with
           | |- context [match ?r with Ok _ => _ | Raise _ => _ end] =>
               destruct r
           | |- context [if ?c then _ else _] => destruct c
           end;
    cbn; rewrite !elem_of_cons; auto 10.
Qed.

(** C1 (as stated, refuted): in each handler the session is opened, a
    later step raises, and the handler answers 500 without calling
    [close]. *)
Lemma handlers_leave_session_open :
  (w_connect world_config_fails default_ip 9100 = Ok tt /\
   trace (handle_printer_status_request world_config_fails None)
   = [Connect default_ip 9100; GetConfiguration;
      Send 500 (StatusError "timed out" zero_tape)] /\
   Close ∉ trace (handle_printer_status_request world_config_fails None))
  /\
  (w_connect world_print_fails (us "10.0.0.5") 9100 = Ok tt /\
   trace (handle_print_request world_print_fails sample_request)
   = [TempWrite (bs "ABC"); Connect (us "10.0.0.5") 9100; GetStatus;
      OpenRead "/tmp/tmpa1b2c3.jpg";
      PrintJpeg (bs "ABC") (us "pastel") (us "each");
      Unlink "/tmp/tmpa1b2c3.jpg";
      Send 500 (PrintError "connection reset")] /\
   Close ∉ trace (handle_print_request world_print_fails sample_request)).
Proof.
  assert (E1 : trace (handle_printer_status_request world_config_fails None)
               = [Connect default_ip 9100; GetConfiguration;
                  Send 500 (StatusError "timed out" zero_tape)])
    by reflexivity.
  assert (E2 : trace (handle_print_request world_print_fails sample_request)
               = [TempWrite (bs "ABC"); Connect (us "10.0.0.5") 9100;
                  GetStatus; OpenRead "/tmp/tmpa1b2c3.jpg";
                  PrintJpeg (bs "ABC") (us "pastel") (us "each");
                  Unlink "/tmp/tmpa1b2c3.jpg";
                  Send 500 (PrintError "connection reset")])
    by (vm_compute; reflexivity).
  split; (split; [reflexivity|]); (split; [assumption|]).
  - rewrite E1, !elem_of_cons, elem_of_nil. intuition discriminate.
  - rewrite E2, !elem_of_cons, elem_of_nil. intuition discriminate.
Qed.

(** C1 (amended): each handler calls [close] exactly when the session was
    opened and every device step before the close succeeded; when one of
    these steps fails, [close] is not called, and when they all succeed it
    is called whatever happens afterwards. *)
Theorem close_iff_all_steps_succeed w ip req :
  (Close ∈ trace (handle_printer_status_request w ip) <->
   exists host config status,
     Py.index (default [default_ip] ip) 0 = Ok host /\
     w_connect w host 9100 = Ok tt /\
     w_get_configuration w = Ok config /\
     w_get_status w = Ok status)
  /\
  (Close ∈ trace (handle_print_request w req) <->
   exists tr job status,
     run (print_setup w req) = (tr, Ok job) /\
     w_connect w (job_ip job) 9100 = Ok tt /\
     w_get_status w = Ok status /\
     w_open_read w (job_temp job) = Ok tt /\
     w_print_jpeg w (job_image job) (job_mode job) (job_cut job) = Ok tt).
Proof.
  split; [apply status_handler_Close|].
  destruct (run (print_setup w req)) as [tr [job|e]] eqn:E.
  - pose proof (print_setup_trace w req [] tr (Ok job) E) as Htr.
    assert (Hpre : Close ∉ tr).
    { destruct Htr as [->|[data ->]]; cbn;
        rewrite ?elem_of_cons, elem_of_nil; intuition discriminate. }
    unfold trace. rewrite (handle_print_request_run w req tr job E).
    assert (Hin : Close ∈ tr ++ job_body_events w job ++ [Unlink (job_temp job)]
                  <-> Close ∈ job_body_events w job).
    { rewrite !elem_of_app, elem_of_cons, elem_of_nil. intuition discriminate. }
    transitivity (Close ∈ job_body_events w job).
    + destruct (job_body_outcome w job) as [[]|e]; cbn [fst]; trivial.
      destruct (is_Exception e); cbn [fst]; trivial.
      rewrite !app_assoc, elem_of_app, <- !app_assoc, Hin.
      rewrite elem_of_cons, elem_of_nil. intuition discriminate.
    + rewrite Close_in_job_body. split.
      * intros (? & (status & ?) & ? & ?). exists tr, job, status. auto.
      * intros (tr' & job' & status & [= <- <-] & ? & ? & ? & ?). eauto 10.
  - rewrite (handle_print_request_no_job w req tr e E).
    pose proof (print_setup_trace w req [] tr (Raise e) E) as Htr.
    split; [|intros (? & ? & ? & ? & _); discriminate].
    destruct Htr as [->|[data ->]]; destruct (is_Exception e); cbn;
      rewrite ?elem_of_cons, elem_of_nil; intuition discriminate.
Qed.

(** C2: once the image is written to the temporary file, the handler
    calls [os.unlink] on it on every path, as its last effect but for the
    error response; and the outcome of the unlink changes neither the
    responses nor the handler's outcome. *)
Theorem temp_file_unlinked w req tr job :
  run (print_setup w req) = (tr, Ok job) ->
  (exists pre post,
     trace (handle_print_request w req)
     = pre ++ (Unlink (job_temp job) :: post) /\
     (Unlink (job_temp job) ∉ pre) /\
     (post = [] \/ exists error, post = [Send 500 (PrintError error)]))
  /\
  (forall f,
     responses (trace (handle_print_request (with_unlink w f) req))
     = responses (trace (handle_print_request w req)) /\
     outcome (handle_print_request (with_unlink w f) req)
     = outcome (handle_print_request w req)).
Proof.
  intros E. split.
  - exists (tr ++ job_body_events w job).
    assert (Hpre : Unlink (job_temp job) ∉ tr ++ job_body_events w job).
    { pose proof (print_setup_trace w req [] tr (Ok job) E) as Htr.
      rewrite elem_of_app. intros [H|H].
      - destruct Htr as [->|[data ->]]; cbn in H;
          rewrite ?elem_of_cons, elem_of_nil in H; intuition discriminate.
      - unfold job_body_events in H.
        repeat match type of H with
               | context [match ?r with Ok _ => _ | Raise _ => _ end] =>
                   destruct r
               end;
          rewrite ?elem_of_cons, elem_of_nil in H; intuition discriminate. }
    unfold trace. rewrite (handle_print_request_run w req tr job E).
    destruct (job_body_outcome w job) as [[]|e]; cbn [fst].
    + exists []. rewrite <- app_assoc. auto.
    + destruct (is_Exception e); cbn [fst].
      * exists [Send 500 (PrintError (exn_msg e))].
        rewrite <- app_assoc. split; [reflexivity|]. eauto.
      * exists []. rewrite <- app_assoc. auto.
  - intros f. unfold trace, outcome.
    assert (E' : run (print_setup (with_unlink w f) req) = (tr, Ok job))
      by exact E.
    rewrite (handle_print_request_run w req tr job E).
    rewrite (handle_print_request_run (with_unlink w f) req tr job E').
    change (job_body_outcome (with_unlink w f) job)
      with (job_body_outcome w job).
    change (job_body_events (with_unlink w f) job)
      with (job_body_events w job).
    now destruct (job_body_outcome w job) as [[]|e].
Qed.

(** The theorem at a request whose print submission raises. *)
Lemma temp_file_unlinked_witness :
  run (print_setup world_print_fails sample_request)
  = ([TempWrite (bs "ABC")], Ok sample_job)
  /\
  ((exists pre post,
      trace (handle_print_request world_print_fails sample_request)
      = pre ++ (Unlink (job_temp sample_job) :: post) /\
      (Unlink (job_temp sample_job) ∉ pre) /\
      (post = [] \/ exists error, post = [Send 500 (PrintError error)]))
   /\
   (forall f,
      responses (trace (handle_print_request
                          (with_unlink world_print_fails f) sample_request))
      = responses (trace (handle_print_request world_print_fails sample_request))
      /\
      outcome (handle_print_request
                 (with_unlink world_print_fails f) sample_request)
      = outcome (handle_print_request world_print_fails sample_request))).
Proof.
  assert (E : run (print_setup world_print_fails sample_request)
              = ([TempWrite (bs "ABC")], Ok sample_job))
    by (vm_compute; reflexivity).
  exact (conj E (temp_file_unlinked world_print_fails sample_request
                   [TempWrite (bs "ABC")] sample_job E)).
Defined.

(** The specification's end-to-end example: the device receives the
    address, mode, cut and image of the request, and the temporary file is
    unlinked although printing raises. *)
Lemma print_request_example :
  run (handle_print_request world_print_fails sample_request)
  = ([TempWrite (bs "ABC"); Connect (us "10.0.0.5") 9100; GetStatus;
      OpenRead "/tmp/tmpa1b2c3.jpg";
      PrintJpeg (bs "ABC") (us "pastel") (us "each");
      Unlink "/tmp/tmpa1b2c3.jpg";
      Send 500 (PrintError "connection reset")], Ok tt).
Proof. vm_compute; reflexivity. Qed.

(** * More of the code *)

(** ** The handlers: responses and order of the device calls *)

Lemma responses_app tr1 tr2 :
  responses (tr1 ++ tr2) = responses tr1 ++ responses tr2.
Proof. apply omap_app. Qed.

Lemma responses_setup w req tr r :
  run (print_setup w req) = (tr, r) -> responses tr = [].
Proof.
  intros E. apply (print_setup_trace w req [] tr r) in E as [->|[data ->]];
    reflexivity.
Qed.

(** The runs of the status handler: every step succeeds and the 200 is
    begun, or a step raises and at most the 500 is begun. *)
Lemma status_handler_cases w ip :
  (exists config status tape host,
     Py.index (default [default_ip] ip) 0 = Ok host /\
     status_steps_succeed w ip config status tape /\
     run (handle_printer_status_request w ip) =
     match w_write w (json_response 200 (StatusOk config status tape)) with
     | Ok _ =>
         ([Connect host 9100; GetConfiguration; GetStatus; Close;
           Send 200 (StatusOk config status tape)], Ok tt)
     | Raise e =>
         if is_Exception e
         then ([Connect host 9100; GetConfiguration; GetStatus; Close;
                Send 200 (StatusOk config status tape);
                Send 500 (StatusError (exn_msg e) zero_tape)],
               w_write w (json_response 500
                            (StatusError (exn_msg e) zero_tape)))
         else ([Connect host 9100; GetConfiguration; GetStatus; Close;
                Send 200 (StatusOk config status tape)], Raise e)
     end)
  \/
  ((forall config status tape, ~ status_steps_succeed w ip config status tape)
   /\ exists e pre,
        responses pre = [] /\
        run (handle_printer_status_request w ip) =
        if is_Exception e
        then (pre ++ [Send 500 (StatusError (exn_msg e) zero_tape)],
              w_write w (json_response 500
                           (StatusError (exn_msg e) zero_tape)))
        else (pre, Raise e)).
Proof.
  unfold status_steps_succeed, run, handle_printer_status_request,
    try_except_Exception, send, call, pure.
  cbv [mbind Prog_bind].
  destruct (Py.index (default [default_ip] ip) 0) as [host|e] eqn:E0.
  2:{ right. split; [intros c s t (h & H & _); congruence|].
      exists e, []. split; [reflexivity|]. now destruct (is_Exception e). }
  destruct (w_connect w host 9100) as [[]|e] eqn:E1.
  2:{ right. split; [intros c s t (h & H0 & H & _); congruence|].
      exists e, [Connect host 9100]. split; [reflexivity|].
      now destruct (is_Exception e). }
  destruct (w_get_configuration w) as [config|e] eqn:E2.
  2:{ right. split; [intros c s t (h & _ & _ & H & _); congruence|].
      exists e, [Connect host 9100; GetConfiguration].
      split; [reflexivity|]. now destruct (is_Exception e). }
  destruct (w_get_status w) as [status|e] eqn:E3.
  2:{ right. split; [intros c s t (h & _ & _ & _ & H & _); congruence|].
      exists e, [Connect host 9100; GetConfiguration; GetStatus].
      split; [reflexivity|]. now destruct (is_Exception e). }
  destruct (w_close w) as [[]|e] eqn:E4.
  2:{ right. split; [intros c s t (h & _ & _ & _ & _ & H & _); congruence|].
      exists e, [Connect host 9100; GetConfiguration; GetStatus; Close].
      split; [reflexivity|]. now destruct (is_Exception e). }
  destruct (project config status) as [tape|e] eqn:E5.
  2:{ right. split.
      - intros c s t (h & _ & _ & Hc & Hs & _ & H).
        injection Hc as <-. injection Hs as <-. congruence.
      - exists e, [Connect host 9100; GetConfiguration; GetStatus; Close].
        split; [reflexivity|]. now destruct (is_Exception e). }
  left. exists config, status, tape, host. split; [reflexivity|].
  split; [exists host; auto 10|].
  cbn. destruct (w_write w (json_response 200 _)) as [[]|e]; [reflexivity|].
  now destruct (is_Exception e).
Qed.

Lemma status_steps_functional w ip c s t c' s' t' :
  status_steps_succeed w ip c s t -> status_steps_succeed w ip c' s' t' ->
  c' = c /\ s' = s /\ t' = t.
Proof.
  intros (h & _ & _ & Hc & Hs & _ & Ht) (h' & _ & _ & Hc' & Hs' & _ & Ht').
  rewrite Hc in Hc'. injection Hc' as <-.
  rewrite Hs in Hs'. injection Hs' as <-.
  rewrite Ht in Ht'. injection Ht' as <-. auto.
Qed.

(** X2: the responses of the status handler.  When every step succeeds,
    the handler begins with the 200 that carries the configuration, the
    status and their projection, and returns once it is written; a 200 is
    begun in no other case.  Every other response is a 500 with the
    all-zero tape.  At most two responses are begun, the second being the
    500 that reports an [Exception] raised while the 200 was written.  When
    the handler returns, the last response begun was written; when it
    raises an [Exception], that is the failure to write the 500. *)
Theorem status_handler_responses w ip :
  (forall config status tape,
     status_steps_succeed w ip config status tape ->
     exists rest,
       responses (trace (handle_printer_status_request w ip))
       = (200, StatusOk config status tape) :: rest /\
       (written w (200, StatusOk config status tape) = Ok tt ->
        rest = [] /\ outcome (handle_printer_status_request w ip) = Ok tt))
  /\
  (forall body,
     (200, body) ∈ responses (trace (handle_printer_status_request w ip)) ->
     exists config status tape,
       status_steps_succeed w ip config status tape /\
       body = StatusOk config status tape)
  /\
  (forall code body,
     (code, body) ∈ responses (trace (handle_printer_status_request w ip)) ->
     code = 200 \/
     (code = 500 /\ exists error, body = StatusError error zero_tape))
  /\
  (length (responses (trace (handle_printer_status_request w ip))) <= 2)%nat
  /\
  (forall cb1 cb2,
     responses (trace (handle_printer_status_request w ip)) = [cb1; cb2] ->
     cb1.1 = 200 /\
     exists e,
       written w cb1 = Raise e /\ is_Exception e = true /\
       cb2 = (500, StatusError (exn_msg e) zero_tape))
  /\
  match outcome (handle_printer_status_request w ip) with
  | Ok _ =>
      exists cb,
        last (responses (trace (handle_printer_status_request w ip)))
        = Some cb /\
        written w cb = Ok tt
  | Raise e =>
      is_Exception e = false \/
      exists cb,
        last (responses (trace (handle_printer_status_request w ip)))
        = Some cb /\
        cb.1 = 500 /\ written w cb = Raise e
  end.
Proof.
  unfold trace, outcome, written.
  destruct (status_handler_cases w ip)
    as [(c & s & t & host & _ & Hok & ->)|(Hno & e & pre & Hpre & ->)].
  - destruct (w_write w (json_response 200 (StatusOk c s t)))
      as [[]|e] eqn:Ew; [|destruct (is_Exception e) eqn:Ee];
      cbn [fst snd responses omap list_omap];
      (split; [|split; [|split; [|split; [|split]]]]).
    + intros c' s' t' H.
      destruct (status_steps_functional _ _ _ _ _ _ _ _ Hok H)
        as (-> & -> & ->).
      eexists. split; [reflexivity|]. auto.
    + intros body Hin. apply list_elem_of_singleton in Hin as [= ->]. eauto.
    + intros code body Hin. apply list_elem_of_singleton in Hin as [= -> _].
      now left.
    + cbn. lia.
    + discriminate.
    + eexists. split; [reflexivity|]. exact Ew.
    + intros c' s' t' H.
      destruct (status_steps_functional _ _ _ _ _ _ _ _ Hok H)
        as (-> & -> & ->).
      eexists. split; [reflexivity|]. cbn. congruence.
    + intros body Hin. rewrite !elem_of_cons, elem_of_nil in Hin.
      destruct Hin as [[= ->]|[[=]|[]]]. eauto.
    + intros code body Hin. rewrite !elem_of_cons, elem_of_nil in Hin.
      destruct Hin as [[= -> _]|[[= -> ->]|[]]]; [now left|right; eauto].
    + cbn. lia.
    + intros cb1 cb2 [= <- <-]. split; [reflexivity|]. exists e. auto.
    + cbn [last].
      destruct (w_write w (json_response 500 _)) as [[]|e'] eqn:Ew';
        [eexists; split; [reflexivity|exact Ew']|].
      right. eexists. split; [reflexivity|]. split; [reflexivity|exact Ew'].
    + intros c' s' t' H.
      destruct (status_steps_functional _ _ _ _ _ _ _ _ Hok H)
        as (-> & -> & ->).
      eexists. split; [reflexivity|]. cbn. congruence.
    + intros body Hin. apply list_elem_of_singleton in Hin as [= ->]. eauto.
    + intros code body Hin. apply list_elem_of_singleton in Hin as [= -> _].
      now left.
    + cbn. lia.
    + discriminate.
    + now left.
  - destruct (is_Exception e) eqn:Ee; cbn [fst snd];
      rewrite ?responses_app, ?Hpre; cbn [responses omap list_omap app];
      (split; [|split; [|split; [|split; [|split]]]]).
    + intros c s t H. destruct (Hno c s t H).
    + intros body Hin. apply list_elem_of_singleton in Hin as [=].
    + intros code body Hin. apply list_elem_of_singleton in Hin as [= -> ->].
      right. eauto.
    + cbn. lia.
    + discriminate.
    + cbn [last].
      destruct (w_write w (json_response 500 _)) as [[]|e'] eqn:Ew';
        [eexists; split; [reflexivity|exact Ew']|].
      right. eexists. split; [reflexivity|]. split; [reflexivity|exact Ew'].
    + intros c s t H. destruct (Hno c s t H).
    + intros body Hin. now apply elem_of_nil in Hin.
    + intros code body Hin. now apply elem_of_nil in Hin.
    + cbn. lia.
    + discriminate.
    + now left.
Qed.

(** The theorem at a device and a client with which every call succeeds:
    the 200 alone. *)
Lemma status_handler_responses_witness :
  status_steps_succeed world_ready None (mk_config 1 10) (mk_status 5)
    {| present := true; type_mm := 25; total_mm := 254;
       remaining_mm := 127; percentage := 50 |}
  /\ exists rest,
       responses (trace (handle_printer_status_request world_ready None))
       = (200, StatusOk (mk_config 1 10) (mk_status 5)
                 {| present := true; type_mm := 25; total_mm := 254;
                    remaining_mm := 127; percentage := 50 |}) :: rest /\
       (written world_ready
          (200, StatusOk (mk_config 1 10) (mk_status 5)
                  {| present := true; type_mm := 25; total_mm := 254;
                     remaining_mm := 127; percentage := 50 |}) = Ok tt ->
        rest = [] /\
        outcome (handle_printer_status_request world_ready None) = Ok tt).
Proof.
  assert (H : status_steps_succeed world_ready None (mk_config 1 10)
                (mk_status 5)
                {| present := true; type_mm := 25; total_mm := 254;
                   remaining_mm := 127; percentage := 50 |}).
  { exists default_ip. repeat split; vm_compute; reflexivity. }
  split; [exact H|].
  destruct (status_handler_responses world_ready None) as [Hok _].
  exact (Hok _ _ _ H).
Defined.

(** The runs of the print handler: every step succeeds and the 200 is
    begun, or a step raises and at most the 500 is begun. *)
Lemma print_handler_cases w req :
  (exists status tr job,
     run (print_setup w req) = (tr, Ok job) /\
     print_steps_succeed w req status /\
     run (handle_print_request w req) =
     match w_write w (json_response 200 (PrintOk (print_state status))) with
     | Ok _ =>
         (tr ++ [Connect (job_ip job) 9100; GetStatus;
                 OpenRead (job_temp job);
                 PrintJpeg (job_image job) (job_mode job) (job_cut job);
                 Close; Send 200 (PrintOk (print_state status));
                 Unlink (job_temp job)], Ok tt)
     | Raise e =>
         if is_Exception e
         then (tr ++ [Connect (job_ip job) 9100; GetStatus;
                      OpenRead (job_temp job);
                      PrintJpeg (job_image job) (job_mode job) (job_cut job);
                      Close; Send 200 (PrintOk (print_state status));
                      Unlink (job_temp job);
                      Send 500 (PrintError (exn_msg e))],
               w_write w (json_response 500 (PrintError (exn_msg e))))
         else (tr ++ [Connect (job_ip job) 9100; GetStatus;
                      OpenRead (job_temp job);
                      PrintJpeg (job_image job) (job_mode job) (job_cut job);
                      Close; Send 200 (PrintOk (print_state status));
                      Unlink (job_temp job)], Raise e)
     end)
  \/
  ((forall status, ~ print_steps_succeed w req status)
   /\ exists e pre,
        responses pre = [] /\
        run (handle_print_request w req) =
        if is_Exception e
        then (pre ++ [Send 500 (PrintError (exn_msg e))],
              w_write w (json_response 500 (PrintError (exn_msg e))))
        else (pre, Raise e)).
Proof.
  destruct (run (print_setup w req)) as [tr [job|e]] eqn:E.
  2:{ right. split; [intros s (tr' & job' & H & _); congruence|].
      exists e, tr. split; [now apply (responses_setup w req tr (Raise e))|].
      unfold run, handle_print_request, try_except_Exception in *.
      rewrite Prog_bind_run, E. now destruct (is_Exception e). }
  pose proof (responses_setup w req tr (Ok job) E) as Htr.
  rewrite (handle_print_request_run w req tr job E).
  unfold print_steps_succeed, job_body_outcome, job_body_events.
  destruct (w_connect w (job_ip job) 9100) as [[]|e] eqn:E1.
  2:{ right. split.
      - intros s (tr' & job' & H0 & H & _). rewrite E in H0.
        injection H0 as <- <-. congruence.
      - exists e, (tr ++ [Connect (job_ip job) 9100; Unlink (job_temp job)]).
        split; [now rewrite responses_app, Htr|].
        cbn. destruct (is_Exception e); now rewrite <- ?app_assoc. }
  destruct (w_get_status w) as [status|e] eqn:E2.
  2:{ right. split.
      - intros s (tr' & job' & H0 & _ & H & _). rewrite E in H0.
        injection H0 as <- <-. congruence.
      - exists e, (tr ++ [Connect (job_ip job) 9100; GetStatus;
                          Unlink (job_temp job)]).
        split; [now rewrite responses_app, Htr|].
        cbn. destruct (is_Exception e); now rewrite <- ?app_assoc. }
  destruct (w_open_read w (job_temp job)) as [[]|e] eqn:E3.
  2:{ right. split.
      - intros s (tr' & job' & H0 & _ & _ & H & _). rewrite E in H0.
        injection H0 as <- <-. congruence.
      - exists e, (tr ++ [Connect (job_ip job) 9100; GetStatus;
                          OpenRead (job_temp job); Unlink (job_temp job)]).
        split; [now rewrite responses_app, Htr|].
        cbn. destruct (is_Exception e); now rewrite <- ?app_assoc. }
  destruct (w_print_jpeg w (job_image job) (job_mode job) (job_cut job))
    as [[]|e] eqn:E4.
  2:{ right. split.
      - intros s (tr' & job' & H0 & _ & _ & _ & H & _). rewrite E in H0.
        injection H0 as <- <-. congruence.
      - exists e, (tr ++ [Connect (job_ip job) 9100; GetStatus;
                          OpenRead (job_temp job);
                          PrintJpeg (job_image job) (job_mode job)
                            (job_cut job);
                          Unlink (job_temp job)]).
        split; [now rewrite responses_app, Htr|].
        cbn. destruct (is_Exception e); now rewrite <- ?app_assoc. }
  destruct (w_close w) as [[]|e] eqn:E5.
  2:{ right. split.
      - intros s (tr' & job' & H0 & _ & _ & _ & _ & H). rewrite E in H0.
        injection H0 as <- <-. congruence.
      - exists e, (tr ++ [Connect (job_ip job) 9100; GetStatus;
                          OpenRead (job_temp job);
                          PrintJpeg (job_image job) (job_mode job)
                            (job_cut job);
                          Close; Unlink (job_temp job)]).
        split; [now rewrite responses_app, Htr|].
        cbn. destruct (is_Exception e); now rewrite <- ?app_assoc. }
  left. exists status, tr, job. split; [reflexivity|].
  split; [exists tr, job; auto 10|].
  cbn. destruct (w_write w (json_response 200 _)) as [[]|e];
    [now rewrite <- ?app_assoc|].
  destruct (is_Exception e); now rewrite <- ?app_assoc.
Qed.

Lemma print_steps_functional w req s s' :
  print_steps_succeed w req s -> print_steps_succeed w req s' -> s' = s.
Proof.
  intros (tr & job & _ & _ & Hs & _) (tr' & job' & _ & _ & Hs' & _).
  congruence.
Qed.

(** X1: the responses of the print handler.  When the set-up and the five
    steps of the job succeed, the handler begins with the 200 that carries
    the printer's state, and returns once it is written; a 200 is begun in
    no other case.  Every other response is a 500 with an error message.
    At most two responses are begun, the second being the 500 that reports
    an [Exception] raised while the 200 was written.  When the handler
    returns, the last response begun was written; when it raises an
    [Exception], that is the failure to write the 500. *)
Theorem print_handler_responses w req :
  (forall status,
     print_steps_succeed w req status ->
     exists rest,
       responses (trace (handle_print_request w req))
       = (200, PrintOk (print_state status)) :: rest /\
       (written w (200, PrintOk (print_state status)) = Ok tt ->
        rest = [] /\ outcome (handle_print_request w req) = Ok tt))
  /\
  (forall body,
     (200, body) ∈ responses (trace (handle_print_request w req)) ->
     exists status,
       print_steps_succeed w req status /\
       body = PrintOk (print_state status))
  /\
  (forall code body,
     (code, body) ∈ responses (trace (handle_print_request w req)) ->
     code = 200 \/ (code = 500 /\ exists error, body = PrintError error))
  /\
  (length (responses (trace (handle_print_request w req))) <= 2)%nat
  /\
  (forall cb1 cb2,
     responses (trace (handle_print_request w req)) = [cb1; cb2] ->
     cb1.1 = 200 /\
     exists e,
       written w cb1 = Raise e /\ is_Exception e = true /\
       cb2 = (500, PrintError (exn_msg e)))
  /\
  match outcome (handle_print_request w req) with
  | Ok _ =>
      exists cb,
        last (responses (trace (handle_print_request w req))) = Some cb /\
        written w cb = Ok tt
  | Raise e =>
      is_Exception e = false \/
      exists cb,
        last (responses (trace (handle_print_request w req))) = Some cb /\
        cb.1 = 500 /\ written w cb = Raise e
  end.
Proof.
  unfold trace, outcome, written.
  destruct (print_handler_cases w req)
    as [(s & tr & job & E & Hok & ->)|(Hno & e & pre & Hpre & ->)].
  - pose proof (responses_setup w req tr (Ok job) E) as Htr.
    destruct (w_write w (json_response 200 (PrintOk (print_state s))))
      as [[]|e] eqn:Ew; [|destruct (is_Exception e) eqn:Ee];
      cbn [fst snd]; rewrite responses_app, Htr;
      cbn [responses omap list_omap app];
      (split; [|split; [|split; [|split; [|split]]]]).
    + intros s' H. rewrite (print_steps_functional _ _ _ _ Hok H).
      eexists. split; [reflexivity|]. auto.
    + intros body Hin. apply list_elem_of_singleton in Hin as [= ->]. eauto.
    + intros code body Hin. apply list_elem_of_singleton in Hin as [= -> _].
      now left.
    + cbn. lia.
    + discriminate.
    + eexists. split; [reflexivity|]. exact Ew.
    + intros s' H. rewrite (print_steps_functional _ _ _ _ Hok H).
      eexists. split; [reflexivity|]. cbn. congruence.
    + intros body Hin. rewrite !elem_of_cons, elem_of_nil in Hin.
      destruct Hin as [[= ->]|[[=]|[]]]. eauto.
    + intros code body Hin. rewrite !elem_of_cons, elem_of_nil in Hin.
      destruct Hin as [[= -> _]|[[= -> ->]|[]]]; [now left|right; eauto].
    + cbn. lia.
    + intros cb1 cb2 [= <- <-]. split; [reflexivity|]. exists e. auto.
    + cbn [last].
      destruct (w_write w (json_response 500 _)) as [[]|e'] eqn:Ew';
        [eexists; split; [reflexivity|exact Ew']|].
      right. eexists. split; [reflexivity|]. split; [reflexivity|exact Ew'].
    + intros s' H. rewrite (print_steps_functional _ _ _ _ Hok H).
      eexists. split; [reflexivity|]. cbn. congruence.
    + intros body Hin. apply list_elem_of_singleton in Hin as [= ->]. eauto.
    + intros code body Hin. apply list_elem_of_singleton in Hin as [= -> _].
      now left.
    + cbn. lia.
    + discriminate.
    + now left.
  - destruct (is_Exception e) eqn:Ee; cbn [fst snd];
      rewrite ?responses_app, ?Hpre; cbn [responses omap list_omap app];
      (split; [|split; [|split; [|split; [|split]]]]).
    + intros s H. destruct (Hno s H).
    + intros body Hin. apply list_elem_of_singleton in Hin as [=].
    + intros code body Hin. apply list_elem_of_singleton in Hin as [= -> ->].
      right. eauto.
    + cbn. lia.
    + discriminate.
    + cbn [last].
      destruct (w_write w (json_response 500 _)) as [[]|e'] eqn:Ew';
        [eexists; split; [reflexivity|exact Ew']|].
      right. eexists. split; [reflexivity|]. split; [reflexivity|exact Ew'].
    + intros s H. destruct (Hno s H).
    + intros body Hin. now apply elem_of_nil in Hin.
    + intros code body Hin. now apply elem_of_nil in Hin.
    + cbn. lia.
    + discriminate.
    + now left.
Qed.

(** The theorem at the request of the end-to-end example, with a device
    and a client with which every call succeeds: the 200 alone. *)
Lemma print_handler_responses_witness :
  print_steps_succeed world_ready sample_request (mk_status 5)
  /\ exists rest,
       responses (trace (handle_print_request world_ready sample_request))
       = (200, PrintOk (print_state (mk_status 5))) :: rest /\
       (written world_ready (200, PrintOk (print_state (mk_status 5)))
        = Ok tt ->
        rest = [] /\
        outcome (handle_print_request world_ready sample_request) = Ok tt).
Proof.
  assert (H : print_steps_succeed world_ready sample_request (mk_status 5)).
  { exists [TempWrite (bs "ABC")], sample_job.
    repeat split; vm_compute; reflexivity. }
  split; [exact H|].
  destruct (print_handler_responses world_ready sample_request) as [Hok _].
  exact (Hok _ H).
Defined.

(** X3: a failure to close the session after a successful print is
    reported as a failed request: the image has been submitted, the
    temporary file is unlinked, and the response is 500 with the message of
    [close]. *)
Theorem print_close_failure_reported w req tr job e :
  run (print_setup w req) = (tr, Ok job) ->
  w_connect w (job_ip job) 9100 = Ok tt ->
  (exists status, w_get_status w = Ok status) ->
  w_open_read w (job_temp job) = Ok tt ->
  w_print_jpeg w (job_image job) (job_mode job) (job_cut job) = Ok tt ->
  w_close w = Raise e ->
  is_Exception e = true ->
  trace (handle_print_request w req)
  = tr ++ [Connect (job_ip job) 9100; GetStatus; OpenRead (job_temp job);
           PrintJpeg (job_image job) (job_mode job) (job_cut job); Close;
           Unlink (job_temp job); Send 500 (PrintError (exn_msg e))].
Proof.
  intros E Hc [status Hs] Ho Hp Hcl He. unfold trace.
  rewrite (handle_print_request_run w req tr job E).
  unfold job_body_outcome, job_body_events. rewrite Hc, Hs, Ho, Hp, Hcl.
  cbn. now rewrite He.
Qed.

(** The theorem at a device whose [close] raises. *)
Lemma print_close_failure_reported_witness :
  trace (handle_print_request world_close_fails sample_request)
  = [TempWrite (bs "ABC")]
    ++ [Connect (job_ip sample_job) 9100; GetStatus;
        OpenRead (job_temp sample_job);
        PrintJpeg (job_image sample_job) (job_mode sample_job)
          (job_cut sample_job);
        Close; Unlink (job_temp sample_job);
        Send 500 (PrintError "broken pipe")].
Proof.
  apply (print_close_failure_reported world_close_fails sample_request
           [TempWrite (bs "ABC")] sample_job (Exn OSError "broken pipe")).
  - vm_compute; reflexivity.
  - reflexivity.
  - eexists; reflexivity.
  - reflexivity.
  - reflexivity.
  - reflexivity.
  - reflexivity.
Defined.

(** X4: a request is rejected before any file or device is touched when
    its content type is not multipart, when the content type has no
    boundary, and when the decoded form has no file named image: the only
    effect is the 500 response with the message of the check, and the
    handler's outcome is that of writing it. *)
Theorem print_request_rejected w req n :
  req_content_length req = Ok n ->
  (String.prefix "multipart/form-data" (req_content_type req) = false ->
   run (handle_print_request w req)
   = ([Send 500 (PrintError "Expected multipart/form-data")],
      w_write w (json_response 500
                   (PrintError "Expected multipart/form-data"))))
  /\
  (forall body,
     String.prefix "multipart/form-data" (req_content_type req) = true ->
     req_read req n = Ok body ->
     Py.contains (us "boundary=") (latin1 (req_content_type req)) = false ->
     run (handle_print_request w req)
     = ([Send 500 (PrintError "No boundary found in content type")],
        w_write w (json_response 500
                     (PrintError "No boundary found in content type"))))
  /\
  (forall body form,
     String.prefix "multipart/form-data" (req_content_type req) = true ->
     req_read req n = Ok body ->
     parse_multipart_form_data (req_content_type req) body = Ok form ->
     form.2 !! us "image" = None ->
     run (handle_print_request w req)
     = ([Send 500 (PrintError "No image file provided")],
        w_write w (json_response 500 (PrintError "No image file provided")))).
Proof.
  intros Hn.
  unfold run, handle_print_request, try_except_Exception, print_setup.
  rewrite !Prog_bind_run. unfold pure, raise, pure. rewrite Hn.
  repeat split.
  - intros ->. reflexivity.
  - intros body -> Hb Hc. cbn [negb]. rewrite !Prog_bind_run, Hb.
    unfold parse_multipart_form_data. rewrite Hc. reflexivity.
  - intros body form -> Hb Hp Hi. cbn [negb]. rewrite !Prog_bind_run, Hb, Hp.
    rewrite Prog_bind_run. cbv beta iota zeta. rewrite Hi. reflexivity.
Qed.

(** The theorem at a plain-text request, at a multipart request without
    boundary and at a multipart request without parts. *)
Lemma print_request_rejected_witness :
  run (handle_print_request world_print_fails (mk_request "text/plain" []))
  = ([Send 500 (PrintError "Expected multipart/form-data")], Ok tt)
  /\
  run (handle_print_request world_print_fails
         (mk_request "multipart/form-data" []))
  = ([Send 500 (PrintError "No boundary found in content type")], Ok tt)
  /\
  run (handle_print_request world_print_fails
         (mk_request "multipart/form-data; boundary=XYZ" (make_body [])))
  = ([Send 500 (PrintError "No image file provided")], Ok tt).
Proof.
  split; [|split].
  - apply (print_request_rejected world_print_fails
             (mk_request "text/plain" []) 0 eq_refl).
    reflexivity.
  - apply (print_request_rejected world_print_fails
             (mk_request "multipart/form-data" []) 0 eq_refl)
      with (body := []); reflexivity.
  - apply (print_request_rejected world_print_fails
             (mk_request "multipart/form-data; boundary=XYZ" (make_body []))
             (Py.len (make_body [])) eq_refl)
      with (body := make_body []) (form := (∅, ∅));
      vm_compute; reflexivity.
Defined.

Lemma filter_device_setup w req tr r :
  run (print_setup w req) = (tr, r) -> List.filter is_device tr = [].
Proof.
  intros E. apply (print_setup_trace w req [] tr r) in E as [->|[data ->]];
    reflexivity.
Qed.

(** A successful set-up has written the image of the job, and nothing
    else. *)
Lemma print_setup_writes_image w req tr job :
  run (print_setup w req) = (tr, Ok job) -> tr = [TempWrite (job_image job)].
Proof.
  unfold run, print_setup. rewrite Prog_bind_run.
  unfold pure, raise, pure.
  destruct (req_content_length req) as [n|?]; [|discriminate].
  destruct (negb _); [discriminate|].
  rewrite Prog_bind_run.
  destruct (req_read req n) as [body|?]; [|discriminate].
  rewrite Prog_bind_run.
  destruct (parse_multipart_form_data _ body) as [form|?]; [|discriminate].
  cbv beta iota zeta.
  destruct (form.2 !! us "image") as [image|]; [|discriminate].
  rewrite Prog_bind_run. unfold call.
  destruct (w_temp_write w (content image)) as [path|?]; [|discriminate].
  intros [= <- <-]. reflexivity.
Qed.

(** The device calls of the print handler are those of the job's body. *)
Lemma device_calls_print w req tr job :
  run (print_setup w req) = (tr, Ok job) ->
  List.filter is_device (trace (handle_print_request w req))
  = List.filter is_device (job_body_events w job).
Proof.
  intros E. pose proof (filter_device_setup w req tr (Ok job) E) as Htr.
  unfold trace. rewrite (handle_print_request_run w req tr job E).
  destruct (job_body_outcome w job) as [[]|e]; cbn [fst];
    [|destruct (is_Exception e); cbn [fst]];
    rewrite !List.filter_app, Htr; cbn; now rewrite ?app_nil_r.
Qed.

Lemma device_calls_no_job w req tr e :
  run (print_setup w req) = (tr, Raise e) ->
  List.filter is_device (trace (handle_print_request w req)) = [].
Proof.
  intros E. pose proof (filter_device_setup w req tr (Raise e) E) as Htr.
  rewrite (handle_print_request_no_job w req tr e E).
  destruct (is_Exception e); [|exact Htr].
  now rewrite List.filter_app, Htr.
Qed.

Ltac failed_call Hall :=
  exfalso;
  repeat (apply Forall_cons_1 in Hall; destruct Hall as [? Hall]);
  cbn [succeeded] in *;
  repeat match goal with
         | E : ?x = Raise _, H : context [match ?x with _ => _ end] |- _ =>
             rewrite E in H
         end;
  discriminate.

Ltac calls_ok :=
  repeat apply Forall_cons_2; try apply Forall_nil_2;
  cbn [succeeded];
  repeat match goal with
         | E : ?x = Ok _ |- context [match ?x with _ => _ end] => rewrite E
         end;
  reflexivity.

(** X5: the device calls of a request follow the protocol and stop at the
    first failure.  For the status handler they are a prefix of connect,
    configuration, status, close, on port 9100 of the first value of the
    query parameter ip or of the default address; for the print handler a
    prefix of connect, status, print, close on port 9100, made after the
    image is in the temporary file, the bytes submitted being the bytes
    written there.  Every call but the last one made has succeeded; and
    when the last one has succeeded too, the sequence is complete, unless
    the address cannot be read, the set-up fails or the temporary file
    cannot be opened. *)
Theorem device_calls_in_order w ip req :
  (List.filter is_device (trace (handle_printer_status_request w ip))
   `prefix_of` [Connect (match ip with
                         | Some (host :: _) => host
                         | _ => default_ip
                         end) 9100;
                GetConfiguration; GetStatus; Close]
   /\
   Forall (fun ev => succeeded w ev = true)
     (removelast
        (List.filter is_device (trace (handle_printer_status_request w ip))))
   /\
   (ip <> Some [] ->
    Forall (fun ev => succeeded w ev = true)
      (List.filter is_device (trace (handle_printer_status_request w ip))) ->
    List.filter is_device (trace (handle_printer_status_request w ip))
    = [Connect (match ip with
                | Some (host :: _) => host
                | _ => default_ip
                end) 9100;
       GetConfiguration; GetStatus; Close]))
  /\
  (Forall (fun ev => succeeded w ev = true)
     (removelast (List.filter is_device (trace (handle_print_request w req))))
   /\
   (forall tr e,
      run (print_setup w req) = (tr, Raise e) ->
      List.filter is_device (trace (handle_print_request w req)) = [])
   /\
   (forall tr job,
      run (print_setup w req) = (tr, Ok job) ->
      (exists rest,
         trace (handle_print_request w req) = TempWrite (job_image job) :: rest)
      /\
      List.filter is_device (trace (handle_print_request w req))
      `prefix_of` [Connect (job_ip job) 9100; GetStatus;
                   PrintJpeg (job_image job) (job_mode job) (job_cut job);
                   Close]
      /\
      (w_open_read w (job_temp job) = Ok tt ->
       Forall (fun ev => succeeded w ev = true)
         (List.filter is_device (trace (handle_print_request w req))) ->
       List.filter is_device (trace (handle_print_request w req))
       = [Connect (job_ip job) 9100; GetStatus;
          PrintJpeg (job_image job) (job_mode job) (job_cut job);
          Close]))).
Proof.
  split.
  - unfold trace, run, handle_printer_status_request, try_except_Exception,
      send, call, pure.
    cbv [mbind Prog_bind].
    destruct (Py.index (default [default_ip] ip) 0) as [host|e] eqn:Ei.
    2:{ assert (Hip : ip = Some []).
        { destruct ip as [[|h l]|]; cbv in Ei; congruence. }
        destruct (is_Exception e); cbn;
          (split; [apply prefix_nil|split; [apply Forall_nil_2|congruence]]). }
    assert (Hhost : host = match ip with
                           | Some (host :: _) => host
                           | _ => default_ip
                           end).
    { destruct ip as [[|h l]|]; cbv in Ei;
        first [discriminate|injection Ei as <-; reflexivity]. }
    rewrite <- Hhost.
    destruct (w_connect w host 9100) as [[]|e] eqn:E1.
    2:{ destruct (is_Exception e); cbn;
          (split; [repeat apply prefix_cons; apply prefix_nil|
                   split; [calls_ok|intros _ Hall; failed_call Hall]]). }
    destruct (w_get_configuration w) as [config|e] eqn:E2.
    2:{ destruct (is_Exception e); cbn;
          (split; [repeat apply prefix_cons; apply prefix_nil|
                   split; [calls_ok|intros _ Hall; failed_call Hall]]). }
    destruct (w_get_status w) as [status|e] eqn:E3.
    2:{ destruct (is_Exception e); cbn;
          (split; [repeat apply prefix_cons; apply prefix_nil|
                   split; [calls_ok|intros _ Hall; failed_call Hall]]). }
    destruct (w_close w) as [[]|e] eqn:E4.
    2:{ destruct (is_Exception e); cbn;
          (split; [repeat apply prefix_cons; apply prefix_nil|
                   split; [calls_ok|intros _ Hall; failed_call Hall]]). }
    assert (Hfull :
      forall tr',
        List.filter is_device tr' = [] ->
        let calls :=
          List.filter is_device
            ([Connect host 9100; GetConfiguration; GetStatus; Close] ++ tr')
        in
        calls `prefix_of` [Connect host 9100; GetConfiguration; GetStatus;
                           Close]
        /\ Forall (fun ev => succeeded w ev = true) (removelast calls)
        /\ (ip <> Some [] ->
            Forall (fun ev => succeeded w ev = true) calls ->
            calls = [Connect host 9100; GetConfiguration; GetStatus; Close])).
    { intros tr' Htr'. cbv zeta. rewrite List.filter_app, Htr'. cbn.
      split; [reflexivity|]. split; [calls_ok|reflexivity]. }
    destruct (project config status) as [tape|e].
    2:{ destruct (is_Exception e); cbn [fst].
        - apply (Hfull [Send 500 (StatusError (exn_msg e) zero_tape)]).
          reflexivity.
        - apply (Hfull []). reflexivity. }
    cbn [fst app].
    destruct (w_write w _) as [[]|e]; [|destruct (is_Exception e)];
      cbn [fst app].
    + apply (Hfull [Send 200 (StatusOk config status tape)]). reflexivity.
    + apply (Hfull [Send 200 (StatusOk config status tape);
                    Send 500 (StatusError (exn_msg e) zero_tape)]).
      reflexivity.
    + apply (Hfull [Send 200 (StatusOk config status tape)]). reflexivity.
  - assert (Hbody : forall job,
      let calls := List.filter is_device (job_body_events w job) in
      calls `prefix_of` [Connect (job_ip job) 9100; GetStatus;
                         PrintJpeg (job_image job) (job_mode job)
                           (job_cut job);
                         Close]
      /\ Forall (fun ev => succeeded w ev = true) (removelast calls)
      /\ (w_open_read w (job_temp job) = Ok tt ->
          Forall (fun ev => succeeded w ev = true) calls ->
          calls = [Connect (job_ip job) 9100; GetStatus;
                   PrintJpeg (job_image job) (job_mode job) (job_cut job);
                   Close])).
    { intros job. cbv zeta. unfold job_body_events.
      destruct (w_connect w (job_ip job) 9100) as [[]|e] eqn:E1.
      2:{ cbn. split; [repeat apply prefix_cons; apply prefix_nil|].
          split; [calls_ok|intros _ Hall; failed_call Hall]. }
      destruct (w_get_status w) as [status|e] eqn:E2.
      2:{ cbn. split; [repeat apply prefix_cons; apply prefix_nil|].
          split; [calls_ok|intros _ Hall; failed_call Hall]. }
      destruct (w_open_read w (job_temp job)) as [[]|e] eqn:E3.
      2:{ cbn. split; [repeat apply prefix_cons; apply prefix_nil|].
          split; [calls_ok|discriminate]. }
      destruct (w_print_jpeg w (job_image job) (job_mode job) (job_cut job))
        as [[]|e] eqn:E4.
      2:{ cbn. split; [repeat apply prefix_cons; apply prefix_nil|].
          split; [calls_ok|intros _ Hall; failed_call Hall]. }
      destruct (w_close w) as [[]|e] eqn:E5; cbn;
        (split; [reflexivity|split; [calls_ok|reflexivity]]). }
    destruct (run (print_setup w req)) as [tr [job|e]] eqn:E.
    + rewrite (device_calls_print w req tr job E).
      destruct (Hbody job) as (H1 & H2 & H3).
      split; [exact H2|]. split; [discriminate|].
      intros tr' job' [= <- <-]. split; [|split; assumption].
      pose proof (print_setup_writes_image w req tr job E) as ->.
      unfold trace. rewrite (handle_print_request_run w req _ job E).
      destruct (job_body_outcome w job) as [[]|e]; cbn [fst];
        [|destruct (is_Exception e); cbn [fst]]; eexists; reflexivity.
    + rewrite (device_calls_no_job w req tr e E).
      split; [apply Forall_nil_2|]. split; [reflexivity|discriminate].
Qed.

(** The theorem at the request of the end-to-end example with a device
    that fails while printing: connect, status and the failed print. *)
Lemma device_calls_in_order_witness :
  List.filter is_device
    (trace (handle_print_request world_print_fails sample_request))
  `prefix_of` [Connect (job_ip sample_job) 9100; GetStatus;
               PrintJpeg (job_image sample_job) (job_mode sample_job)
                 (job_cut sample_job);
               Close].
Proof.
  destruct (device_calls_in_order world_print_fails None sample_request)
    as [_ (_ & _ & H)].
  destruct (H [TempWrite (bs "ABC")] sample_job) as (_ & Hp & _).
  - vm_compute; reflexivity.
  - exact Hp.
Defined.

(** ** The dispatcher *)

(** The replies of a handler's trace are its responses, with the JSON
    headers. *)
Lemma replies_on_wire tr :
  replies (on_wire <$> tr)
  = (fun cb => json_response cb.1 cb.2) <$> responses tr.
Proof.
  induction tr as [|ev tr IH]; [reflexivity|].
  destruct ev; cbn; try exact IH. f_equal. exact IH.
Qed.

Lemma handled_reply w r : handled w (reply w r).
Proof.
  unfold handled, reply. cbn. split; [|split; [lia|discriminate]].
  intros H. exists r. auto.
Qed.

(** The two shapes of a handler's run, as the dispatcher sees them. *)
Lemma handled_success w tr b out :
  responses tr = [(200, b)] ->
  (out = Ok tt -> w_write w (json_response 200 b) = Ok tt) ->
  handled w (on_wire <$> tr, out).
Proof.
  intros Hr Hout. unfold handled. cbn [fst snd].
  rewrite replies_on_wire, Hr. cbn. split; [|split; [lia|discriminate]].
  intros H. eexists. split; [reflexivity|]. auto.
Qed.

Lemma handled_retry w tr b b' e out :
  responses tr = [(200, b); (500, b')] ->
  w_write w (json_response 200 b) = Raise e -> is_Exception e = true ->
  out = w_write w (json_response 500 b') ->
  handled w (on_wire <$> tr, out).
Proof.
  intros Hr Hw He ->. unfold handled. cbn [fst snd].
  rewrite replies_on_wire, Hr. cbn. split; [|split; [lia|]].
  - intros H. eexists. split; [reflexivity|]. exact H.
  - intros r1 r2 [= <- <-]. cbn. eauto.
Qed.

Lemma handled_failure w tr b' out :
  responses tr = [(500, b')] ->
  out = w_write w (json_response 500 b') ->
  handled w (on_wire <$> tr, out).
Proof.
  intros Hr ->. unfold handled. cbn [fst snd].
  rewrite replies_on_wire, Hr. cbn. split; [|split; [lia|discriminate]].
  intros H. eexists. split; [reflexivity|]. exact H.
Qed.

Lemma handled_silent w tr e :
  responses tr = [] -> handled w (on_wire <$> tr, Raise e).
Proof.
  intros Hr. unfold handled. cbn [fst snd].
  rewrite replies_on_wire, Hr. cbn. split; [discriminate|].
  split; [lia|discriminate].
Qed.

Lemma status_handled w ip :
  handled w (on_wire <$> (run (handle_printer_status_request w ip)).1,
             (run (handle_printer_status_request w ip)).2).
Proof.
  destruct (status_handler_cases w ip)
    as [(c & s & t & host & _ & _ & ->)|(_ & e & pre & Hpre & ->)].
  - destruct (w_write w (json_response 200 (StatusOk c s t)))
      as [[]|e] eqn:Ew; [|destruct (is_Exception e) eqn:Ee]; cbn [fst snd].
    + eapply handled_success; [reflexivity|intros _; exact Ew].
    + eapply handled_retry; [reflexivity|exact Ew|exact Ee|reflexivity].
    + eapply handled_success; [reflexivity|discriminate].
  - destruct (is_Exception e); cbn [fst snd].
    + eapply handled_failure; [|reflexivity].
      now rewrite responses_app, Hpre.
    + now apply handled_silent.
Qed.

Lemma print_handled w req :
  handled w (on_wire <$> (run (handle_print_request w req)).1,
             (run (handle_print_request w req)).2).
Proof.
  destruct (print_handler_cases w req)
    as [(s & tr & job & E & _ & ->)|(_ & e & pre & Hpre & ->)].
  - pose proof (responses_setup w req tr (Ok job) E) as Htr.
    destruct (w_write w (json_response 200 (PrintOk (print_state s))))
      as [[]|e] eqn:Ew; [|destruct (is_Exception e) eqn:Ee]; cbn [fst snd].
    + eapply handled_success; [|intros _; exact Ew].
      now rewrite responses_app, Htr.
    + eapply handled_retry; [|exact Ew|exact Ee|reflexivity].
      now rewrite responses_app, Htr.
    + eapply handled_success; [|discriminate].
      now rewrite responses_app, Htr.
  - destruct (is_Exception e); cbn [fst snd].
    + eapply handled_failure; [|reflexivity].
      now rewrite responses_app, Hpre.
    + now apply handled_silent.
Qed.

Lemma status_replied_once w ip :
  (forall r, w_write w r = Ok tt) ->
  replied_once (on_wire <$> (run (handle_printer_status_request w ip)).1,
                (run (handle_printer_status_request w ip)).2).
Proof.
  intros Hw. unfold replied_once.
  destruct (status_handler_cases w ip)
    as [(c & s & t & host & _ & _ & ->)|(_ & e & pre & Hpre & ->)].
  - rewrite Hw. reflexivity.
  - destruct (is_Exception e) eqn:Ee; cbn [fst snd];
      rewrite replies_on_wire, ?responses_app, Hpre.
    + rewrite Hw. reflexivity.
    + now split.
Qed.

Lemma print_replied_once w req :
  (forall r, w_write w r = Ok tt) ->
  replied_once (on_wire <$> (run (handle_print_request w req)).1,
                (run (handle_print_request w req)).2).
Proof.
  intros Hw. unfold replied_once.
  destruct (print_handler_cases w req)
    as [(s & tr & job & E & _ & ->)|(_ & e & pre & Hpre & ->)].
  - pose proof (responses_setup w req tr (Ok job) E) as Htr.
    rewrite Hw. cbn [fst snd].
    now rewrite replies_on_wire, responses_app, Htr.
  - destruct (is_Exception e) eqn:Ee; cbn [fst snd];
      rewrite replies_on_wire, ?responses_app, Hpre.
    + rewrite Hw. reflexivity.
    + now split.
Qed.

(** X7: what a request gets.  A GET whose target [urlparse] rejects gets
    no response.  Whenever the handling of an OPTIONS, GET or POST request
    returns, the last response begun was written; at most two responses are
    begun, and a second one is the 500 that follows a 200 whose writing
    raised an [Exception].  With a client to which every write succeeds and
    a target that [urlparse] accepts, a request whose handling returns gets
    exactly one response, and a request cut short gets none, by an exception
    that is not an [Exception]. *)
Theorem requests_answered w parsed target req :
  (forall e, parsed = Raise e -> do_GET w parsed = ([], Raise e))
  /\
  Forall (handled w) [do_OPTIONS w; do_GET w parsed; do_POST w target req]
  /\
  ((forall r, w_write w r = Ok tt) ->
   forall url,
     parsed = Ok url ->
     Forall replied_once
       [do_OPTIONS w; do_GET w parsed; do_POST w target req]).
Proof.
  split; [now intros e ->|]. split.
  - apply Forall_cons_2; [apply handled_reply|].
    apply Forall_cons_2; [|apply Forall_cons_2; [|apply Forall_nil_2]].
    + unfold do_GET. destruct parsed as [url|e].
      * destruct (String.eqb (url_path url) "/status");
          [apply handled_reply|].
        destruct (String.eqb (url_path url) "/printer-status");
          [apply status_handled|apply handled_reply].
      * unfold handled. cbn. split; [discriminate|].
        split; [lia|discriminate].
    + unfold do_POST. destruct (String.eqb target "/print");
        [apply print_handled|apply handled_reply].
  - intros Hw url ->.
    assert (Hreply : forall r, replied_once (reply w r)).
    { intros r. unfold replied_once, reply. cbn. now rewrite Hw. }
    apply Forall_cons_2; [apply Hreply|].
    apply Forall_cons_2; [|apply Forall_cons_2; [|apply Forall_nil_2]].
    + unfold do_GET. destruct (String.eqb (url_path url) "/status");
        [apply Hreply|].
      destruct (String.eqb (url_path url) "/printer-status");
        [now apply status_replied_once|apply Hreply].
    + unfold do_POST. destruct (String.eqb target "/print");
        [now apply print_replied_once|apply Hreply].
Qed.

(** The theorem at a target that [urlparse] rejects. *)
Lemma requests_answered_witness :
  do_GET world_ready (Raise (Exn ValueError "Invalid IPv6 URL"))
  = ([], Raise (Exn ValueError "Invalid IPv6 URL")).
Proof.
  destruct (requests_answered world_ready
              (Raise (Exn ValueError "Invalid IPv6 URL")) "/print"
              sample_request) as [H _].
  now apply H.
Defined.

(** ** The ends of the percentage scale *)

(** An integer divided by itself is the float 1.0, with no rounding. *)
Lemma int_truediv_self t :
  0 < t ->
  PyFloat.int_truediv t t = Ok (S754_finite false 4503599627370496 (-52)).
Proof.
  intros Ht. unfold PyFloat.int_truediv.
  destruct (Z.eqb_spec t 0) as [->|_]; [lia|].
  destruct t as [|p|p]; try lia.
  cbn [PyFloat.of_int_exact PyFloat.div SFdiv xorb].
  unfold SFdiv_core_binary.
  replace (Zdigits2 (Z.pos p) + 0 - (Zdigits2 (Z.pos p) + 0)) with 0 by lia.
  change (0 - 0) with 0.
  change (Z.min (fexp prec emax 0) 0) with (-53).
  cbv zeta. change (0 - -53) with 53. cbv iota.
  rewrite Z.shiftl_mul_pow2 by lia.
  pose proof (Z_div_mod (Z.pos p * 2 ^ 53) (Z.pos p) ltac:(lia)) as Hdm.
  destruct (Z.div_eucl (Z.pos p * 2 ^ 53) (Z.pos p)) as [q r].
  destruct Hdm as [Hdm Hr].
  assert (Hq : q = 2 ^ 53) by nia.
  assert (Hr0 : r = 0) by nia.
  subst q r.
  replace (new_location (Z.pos p) 0) with loc_Exact
    by (unfold new_location, new_location_even, new_location_odd;
        now destruct (Z.even (Z.pos p))).
  vm_compute. reflexivity.
Qed.

Lemma percentage_of_full t : 0 < t -> percentage_of t t = Ok 100.
Proof.
  intros Ht. unfold percentage_of.
  replace (t >? 0) with true by (symmetry; apply Z.gtb_lt; lia).
  rewrite int_truediv_self by trivial. vm_compute. reflexivity.
Qed.

Lemma percentage_of_empty t : percentage_of 0 t = Ok 0.
Proof.
  unfold percentage_of. destruct (t >? 0) eqn:Ht; [|reflexivity].
  apply Z.gtb_lt in Ht. destruct t as [|p|p]; try lia. reflexivity.
Qed.

(** X9: the two ends of the scale are exact: whatever the lengths, a tape with
    nothing left reads 0 percent, and a tape whose remaining length in
    millimetres equals its total length reads 100 percent. *)
Theorem percentage_endpoints config status tape :
  project config status = Ok tape ->
  (remaining_mm tape = 0 -> percentage tape = 0)
  /\ (0 < total_mm tape -> remaining_mm tape = total_mm tape ->
      percentage tape = 100).
Proof.
  intros H. apply project_Ok_inv in H as [[_ ->]|(_ & _ & Hp)].
  - split; [reflexivity|]. cbn. lia.
  - split.
    + intros Hr. rewrite Hr, percentage_of_empty in Hp. congruence.
    + intros Ht Hr. rewrite Hr, percentage_of_full in Hp by trivial.
      congruence.
Qed.

(** The theorem at a fresh tape of ten inches. *)
Lemma percentage_endpoints_witness :
  percentage {| present := true; type_mm := 25; total_mm := 254;
                remaining_mm := 254; percentage := 100 |} = 100.
Proof.
  apply (percentage_endpoints (mk_config 1 10) (mk_status 10)).
  - vm_compute. reflexivity.
  - cbn. lia.
  - reflexivity.
Defined.

(** ** Splitting at a separator *)

Section Split.
Context {A : Type} `{EqDecision A}.
Implicit Types s sep cur pre rest p : list A.

(** The elements of a separator just matched are passed over. *)
Lemma split_aux_skip sep p cur rest :
  Py.split_aux sep (length p) cur (p ++ rest) = Py.split_aux sep 0 cur rest.
Proof.
  induction p as [|a p IH]; [reflexivity|]. cbn. exact IH.
Qed.

(** Without an occurrence of the separator there is one piece. *)
Lemma split_aux_no_occurrence sep cur s i :
  0 <= i -> Py.find_aux sep s i = -1 ->
  Py.split_aux sep 0 cur s = [reverse cur ++ s].
Proof.
  revert cur i. induction s as [|a s IH]; intros cur i Hi; cbn.
  - intros _. now rewrite app_nil_r.
  - destruct (Py.startswith sep (a :: s)); [lia|].
    intros Hf. rewrite (IH (a :: cur) (i + 1)) by (trivial; lia).
    now rewrite reverse_cons, <- app_assoc.
Qed.

(** The piece before the first occurrence of the separator. *)
Lemma split_aux_first sep pre rest cur i :
  sep <> [] ->
  Py.find_aux sep (pre ++ sep ++ rest) i = i + Py.len pre ->
  Py.split_aux sep 0 cur (pre ++ sep ++ rest)
  = (reverse cur ++ pre) :: Py.split_aux sep 0 [] rest.
Proof.
  intros Hsep. revert cur i. induction pre as [|a pre IH]; intros cur i.
  - intros _. destruct sep as [|c sep']; [congruence|].
    cbn [app]. cbn [Py.split_aux].
    change (c :: sep' ++ rest) with ((c :: sep') ++ rest).
    rewrite startswith_app. rewrite app_nil_r. f_equal.
    cbn [length]. rewrite Nat.sub_succ, Nat.sub_0_r.
    apply split_aux_skip.
  - cbn [app Py.find_aux Py.split_aux].
    unfold Py.len. cbn [length]. rewrite Nat2Z.inj_succ.
    destruct (Py.startswith sep (a :: pre ++ sep ++ rest)); [lia|].
    intros Hf. rewrite (IH (a :: cur) (i + 1)).
    + now rewrite reverse_cons, <- app_assoc.
    + rewrite Hf. unfold Py.len. lia.
Qed.

Lemma contains_false sep s :
  Py.contains sep s = false <-> Py.find_aux sep s 0 = -1.
Proof.
  unfold Py.contains. rewrite find_0, negb_false_iff. apply Z.eqb_eq.
Qed.

(** A sequence laid out as pieces around separators splits into these
    pieces. *)
Lemma split_pieces sep pre (pieces : list (list A)) tail :
  sep <> [] ->
  Forall (fun p => forall rest,
            Py.find sep (p ++ sep ++ rest) 0 = Py.len p) (pre :: pieces) ->
  Py.contains sep tail = false ->
  Py.split_aux sep 0 [] (pre ++ (pieces ≫= fun p => sep ++ p) ++ sep ++ tail)
  = pre :: pieces ++ [tail].
Proof.
  intros Hsep Hall Htail. revert pre Hall.
  induction pieces as [|p ps IH]; intros pre Hall;
    inversion Hall as [|? ? Hpre Hps]; subst.
  - cbn [mbind list_bind app]. specialize (Hpre tail).
    rewrite find_0 in Hpre.
    rewrite (split_aux_first sep pre tail [] 0) by (trivial; lia).
    apply contains_false in Htail.
    rewrite (split_aux_no_occurrence sep [] tail 0) by (trivial; lia).
    reflexivity.
  - cbn [mbind list_bind]. rewrite <- !app_assoc.
    specialize (Hpre (p ++ (ps ≫= fun p => sep ++ p) ++ sep ++ tail)).
    rewrite find_0 in Hpre.
    rewrite (split_aux_first sep pre _ [] 0) by (trivial; lia).
    cbn [reverse app]. f_equal. now apply IH.
Qed.

End Split.

Lemma slice_inner {A} (x y : A) (l : list A) :
  Py.slice (x :: l ++ [y]) 1 (-1) = l.
Proof.
  unfold Py.slice, Py.slice_index. cbn [length].
  rewrite length_app. cbn [length].
  replace (1 <? 0) with false by reflexivity.
  replace (-1 <? 0) with true by reflexivity.
  rewrite Z.min_l by lia. rewrite Z.max_l by lia.
  replace (Z.to_nat 1) with 1%nat by reflexivity.
  replace (Z.to_nat (-1 + Z.of_nat (S (length l + 1)) - 1)) with (length l)
    by lia.
  cbn [drop]. rewrite drop_0. now rewrite take_app_length.
Qed.

(** The delimiter is not empty. *)
Lemma delimiter_nonempty boundary delimiter :
  str_encode (us "--" ++ boundary) = Ok delimiter -> delimiter <> [].
Proof.
  change (us "--" ++ boundary) with (45%N :: 45%N :: boundary).
  cbn [str_encode]. change (encode_cp 45) with (Ok [byte_of 45]).
  cbn [mbind result_bind].
  destruct (str_encode boundary) as [y|?]; [|discriminate].
  cbn. intros [= <-]. discriminate.
Qed.

(** ** Decoding a delimited body *)

(** The decoder on a content type whose boundary and delimiter are known:
    the loop over the inner pieces of the split. *)
Lemma parse_with_delimiter content_type boundary delimiter body :
  Py.contains (us "boundary=") (latin1 content_type) = true ->
  boundary_of (latin1 content_type) = Ok boundary ->
  str_encode (us "--" ++ boundary) = Ok delimiter ->
  parse_multipart_form_data content_type body
  = parse_parts (∅, ∅) (Py.slice (Py.split_aux delimiter 0 [] body) 1 (-1)).
Proof.
  intros Hin Hb Hd. unfold parse_multipart_form_data.
  rewrite Hin. cbn [negb]. rewrite Hb. cbn [mbind result_bind].
  rewrite Hd. cbn [mbind result_bind].
  pose proof (delimiter_nonempty _ _ Hd) as Hne.
  unfold Py.split. destruct delimiter; [congruence|reflexivity].
Qed.

(** X10: a body laid out with the delimiter of its content type decodes as the
    loop over its parts: the preamble and what follows the last delimiter
    are ignored, and no part is cut or merged. *)
Theorem decode_delimited content_type boundary delimiter pre parts tail :
  Py.contains (us "boundary=") (latin1 content_type) = true ->
  boundary_of (latin1 content_type) = Ok boundary ->
  str_encode (us "--" ++ boundary) = Ok delimiter ->
  Forall (ends_at_delimiter delimiter) (pre :: parts) ->
  Py.contains delimiter tail = false ->
  parse_multipart_form_data content_type (delimited delimiter pre parts tail)
  = parse_parts (∅, ∅) parts.
Proof.
  intros Hin Hb Hd Hall Htail.
  rewrite (parse_with_delimiter _ _ _ _ Hin Hb Hd).
  unfold delimited.
  rewrite split_pieces; trivial; [|now apply (delimiter_nonempty boundary)].
  now rewrite slice_inner.
Qed.

(** X11: a body in which the delimiter occurs once or not at all decodes to two
    empty dictionaries without an error: a part that is not followed by a
    closing delimiter is lost. *)
Theorem decode_unterminated content_type boundary delimiter :
  Py.contains (us "boundary=") (latin1 content_type) = true ->
  boundary_of (latin1 content_type) = Ok boundary ->
  str_encode (us "--" ++ boundary) = Ok delimiter ->
  (forall body,
     Py.contains delimiter body = false ->
     parse_multipart_form_data content_type body = Ok (∅, ∅))
  /\
  (forall pre part,
     ends_at_delimiter delimiter pre ->
     Py.contains delimiter part = false ->
     parse_multipart_form_data content_type (pre ++ delimiter ++ part)
     = Ok (∅, ∅)).
Proof.
  intros Hin Hb Hd. pose proof (delimiter_nonempty _ _ Hd) as Hne. split.
  - intros body Hbody. rewrite (parse_with_delimiter _ _ _ _ Hin Hb Hd).
    apply contains_false in Hbody.
    rewrite (split_aux_no_occurrence delimiter [] body 0) by (trivial; lia).
    reflexivity.
  - intros pre part Hpre Hpart.
    rewrite (parse_with_delimiter _ _ _ _ Hin Hb Hd).
    pose proof (split_pieces delimiter pre [] part Hne) as Hs.
    cbn [mbind list_bind app] in Hs. rewrite Hs; trivial.
    now constructor.
Qed.

(** The theorem at the boundary XYZ: a field part and a file part between
    delimiters, closed by the last delimiter line. *)
Lemma decode_delimited_witness :
  parse_multipart_form_data "multipart/form-data; boundary=XYZ"
    (delimited (bs "--XYZ") []
       [field_part "mode" "pastel"; image_part "a.jpg" (bs "ABC")]
       (bs "--" ++ CRLF))
  = parse_parts (∅, ∅)
      [field_part "mode" "pastel"; image_part "a.jpg" (bs "ABC")].
Proof.
  apply (decode_delimited "multipart/form-data; boundary=XYZ" (us "XYZ")).
  - reflexivity.
  - reflexivity.
  - reflexivity.
  - repeat apply Forall_cons_2; [| | |apply Forall_nil_2];
      intros rest; rewrite find_0; vm_compute; reflexivity.
  - reflexivity.
Defined.

(** The theorem at the boundary XYZ: a field part after the only
    delimiter. *)
Lemma decode_unterminated_witness :
  parse_multipart_form_data "multipart/form-data; boundary=XYZ"
    (bs "no delimiter at all")
  = Ok (∅, ∅)
  /\ parse_multipart_form_data "multipart/form-data; boundary=XYZ"
       ([] ++ bs "--XYZ" ++ field_part "mode" "pastel")
     = Ok (∅, ∅).
Proof.
  destruct (decode_unterminated "multipart/form-data; boundary=XYZ"
              (us "XYZ") (bs "--XYZ")) as [H1 H2];
    [reflexivity|reflexivity|reflexivity|].
  split.
  - apply H1. reflexivity.
  - apply H2; [|reflexivity].
    intros rest. rewrite find_0. vm_compute. reflexivity.
Defined.

(** ** What every decoded form satisfies *)

Lemma last_rstrip {A} `{EqDecision A} (chars s : list A) c :
  last (Py.rstrip chars s) = Some c -> c ∉ chars.
Proof.
  unfold Py.rstrip, Py.rstrip_with. rewrite last_reverse.
  destruct (Py.drop_while _ (reverse s)) as [|a t] eqn:E; [discriminate|].
  intros [= <-]. apply drop_while_head in E.
  now apply bool_decide_eq_false in E.
Qed.

Lemma form_wf_empty : form_wf (∅, ∅).
Proof. split; intros n v; cbn; rewrite lookup_empty; discriminate. Qed.

Lemma record_part_wf form name fname payload :
  form_wf form -> form_wf (record_part form name fname payload).
Proof.
  intros [Hf Hg]. unfold record_part.
  destruct name as [[|c n]|]; [now split|..|now split].
  assert (Hne : c :: n <> []) by discriminate.
  destruct fname as [[|d f]|]; (split; cbn [fst snd]).
  - intros k v. destruct (decide (k = c :: n)) as [->|Hk]; [trivial|].
    rewrite lookup_insert_ne by congruence. apply Hf.
  - exact Hg.
  - exact Hf.
  - intros k e. destruct (decide (k = c :: n)) as [->|Hk].
    + rewrite lookup_insert_eq. intros [= <-]. cbn.
      split; [trivial|]. split; [discriminate|].
      intros b Hb. apply last_rstrip in Hb.
      unfold CRLF in Hb. rewrite !elem_of_cons in Hb. split; intros ->; tauto.
    + rewrite lookup_insert_ne by congruence. apply Hg.
  - intros k v. destruct (decide (k = c :: n)) as [->|Hk]; [trivial|].
    rewrite lookup_insert_ne by congruence. apply Hf.
  - exact Hg.
Qed.

Lemma parse_part_wf form part form' :
  parse_part form part = Ok form' -> form_wf form -> form_wf form'.
Proof.
  unfold parse_part.
  destruct (bool_decide _); [now intros [= <-]|].
  destruct (Py.contains CRLFCRLF part) eqn:Ec; [|now intros [= <-]].
  unfold Py.contains in Ec. apply negb_true_iff in Ec.
  unfold Py.split1. cbn [CRLFCRLF]. rewrite Ec.
  cbn [mbind result_bind Py.unpack2].
  unfold Py.split, CRLF_text. cbn [mbind result_bind].
  destruct (scan_headers _) as [name fname].
  intros [= <-] Hwf. now apply record_part_wf.
Qed.

Lemma parse_parts_wf parts :
  forall form form',
    parse_parts form parts = Ok form' -> form_wf form -> form_wf form'.
Proof.
  induction parts as [|part parts IH]; intros form form' H Hwf; cbn in H.
  - now injection H as <-.
  - destruct (parse_part form part) as [form1|e] eqn:E; [|discriminate].
    cbn in H. eapply IH; [exact H|]. eapply parse_part_wf; eauto.
Qed.

(** X12: whatever the request, a decoded form has no entry under an empty name,
    no file with an empty filename, and no file whose content ends in a
    carriage return or a line feed. *)
Theorem decoded_form_wf content_type body form :
  parse_multipart_form_data content_type body = Ok form -> form_wf form.
Proof.
  unfold parse_multipart_form_data.
  destruct (negb _); [discriminate|].
  destruct (boundary_of _) as [b|]; [|discriminate]. cbn [mbind result_bind].
  destruct (str_encode _) as [d|]; [|discriminate]. cbn [mbind result_bind].
  destruct (Py.split d body) as [parts|]; [|discriminate].
  cbn [mbind result_bind].
  intros H. eapply parse_parts_wf; [exact H|apply form_wf_empty].
Qed.

(** The theorem at a body with one image part. *)
Lemma decoded_form_wf_witness :
  form_wf (∅, {[ us "image" := {| filename := us "a.jpg";
                                  content := bs "plain text" |} ]}).
Proof.
  apply (decoded_form_wf "multipart/form-data; boundary=XYZ"
           (make_body [image_part "a.jpg" (bs "plain text")])).
  vm_compute. reflexivity.
Defined.

(** ** Later parts override earlier ones *)

Lemma record_part_overlay form name fname payload :
  record_part form name fname payload
  = ((record_part (∅, ∅) name fname payload).1 ∪ form.1,
     (record_part (∅, ∅) name fname payload).2 ∪ form.2).
Proof.
  unfold record_part. destruct form as [fd fl].
  destruct name as [[|c n]|]; cbn [fst snd];
    rewrite ?(left_id_L ∅ (∪)); trivial.
  destruct fname as [[|d f]|]; cbn [fst snd];
    rewrite ?(left_id_L ∅ (∪)), ?insert_empty, <- ?insert_union_singleton_l;
    reflexivity.
Qed.

Lemma parse_part_overlay form part g :
  parse_part (∅, ∅) part = Ok g ->
  parse_part form part = Ok (g.1 ∪ form.1, g.2 ∪ form.2).
Proof.
  unfold parse_part.
  destruct (bool_decide _).
  { intros [= <-]. cbn. rewrite !(left_id_L ∅ (∪)). now destruct form. }
  destruct (Py.contains CRLFCRLF part) eqn:Ec.
  2:{ intros [= <-]. cbn. rewrite !(left_id_L ∅ (∪)). now destruct form. }
  unfold Py.contains in Ec. apply negb_true_iff in Ec.
  unfold Py.split1. cbn [CRLFCRLF]. rewrite Ec.
  cbn [mbind result_bind Py.unpack2].
  unfold Py.split, CRLF_text. cbn [mbind result_bind].
  destruct (scan_headers _) as [name fname].
  intros [= <-]. f_equal. apply record_part_overlay.
Qed.

Lemma parse_parts_overlay parts :
  forall form g,
    parse_parts (∅, ∅) parts = Ok g ->
    parse_parts form parts = Ok (g.1 ∪ form.1, g.2 ∪ form.2).
Proof.
  induction parts as [|part parts IH]; intros form g; cbn.
  - intros [= <-]. cbn. rewrite !(left_id_L ∅ (∪)). now destruct form.
  - destruct (parse_part (∅, ∅) part) as [g1|e] eqn:E; [|discriminate].
    cbn [mbind result_bind]. intros Hg.
    rewrite (parse_part_overlay form part g1 E). cbn [mbind result_bind].
    destruct (parse_parts_Ok parts (∅, ∅)) as [h Hh].
    rewrite (IH _ _ Hh). rewrite (IH _ _ Hh) in Hg.
    injection Hg as <-. cbn [fst snd].
    rewrite !(assoc_L (∪)). reflexivity.
Qed.

Lemma parse_parts_app l1 l2 form :
  parse_parts form (l1 ++ l2)
  = parse_parts form l1 ≫= fun f => parse_parts f l2.
Proof.
  revert form. induction l1 as [|p l1 IH]; intros form; cbn; [reflexivity|].
  destruct (parse_part form p); cbn; [apply IH|reflexivity].
Qed.

(** X13: the parts are decoded one after the other into the same two
    dictionaries: the entries of later parts replace the entries of
    earlier parts of the same name in the same dictionary, and every other
    entry is kept.  A field and a file of the same name stand side by
    side. *)
Theorem later_parts_override form earlier later f g :
  parse_parts form earlier = Ok f ->
  parse_parts (∅, ∅) later = Ok g ->
  parse_parts form (earlier ++ later) = Ok (g.1 ∪ f.1, g.2 ∪ f.2).
Proof.
  intros Hf Hg. rewrite parse_parts_app, Hf. cbn [mbind result_bind].
  now apply parse_parts_overlay.
Qed.

(** The theorem at two parts of the name mode: the second value wins. *)
Lemma later_parts_override_witness :
  parse_parts (∅, ∅) ([field_part "mode" "pastel"; field_part "cut" "each"]
                       ++ [field_part "mode" "vivid"])
  = Ok ({[ us "mode" := us "vivid" ]}
        ∪ ({[ us "cut" := us "each" ]} ∪ {[ us "mode" := us "pastel" ]}),
        ∅ ∪ ∅).
Proof.
  refine (later_parts_override (∅, ∅)
            [field_part "mode" "pastel"; field_part "cut" "each"]
            [field_part "mode" "vivid"]
            (({[ us "cut" := us "each" ]} ∪ {[ us "mode" := us "pastel" ]}
              : gmap str str), (∅ : gmap str FileEntry))
            (({[ us "mode" := us "vivid" ]} : gmap str str),
             (∅ : gmap str FileEntry)) _ _).
  - vm_compute. reflexivity.
  - vm_compute. reflexivity.
Defined.

(** ** Searching from a position and slicing *)

Section FindFrom.
Context {A : Type} `{EqDecision A}.
Implicit Types s sub pre rest : list A.

(** A search that starts at the end of [pre]. *)
Lemma find_from sub pre rest :
  Py.find sub (pre ++ rest) (Py.len pre)
  = Py.find_aux sub rest (Py.len pre).
Proof.
  unfold Py.find, Py.len. rewrite length_app.
  replace (Z.of_nat (length pre + length rest) <? Z.of_nat (length pre))
    with false by (symmetry; apply Z.ltb_ge; lia).
  rewrite Nat2Z.id. now rewrite drop_app_length.
Qed.

Lemma find_aux_single_absent (q : A) rest i :
  q ∉ rest -> Py.find_aux [q] rest i = -1.
Proof.
  revert i. induction rest as [|a rest IH]; intros i Hq; [reflexivity|].
  apply not_elem_of_cons in Hq as [Hqa Hq]. cbn.
  rewrite bool_decide_false by trivial. cbn. now apply IH.
Qed.

Lemma find_aux_single_first (q : A) value post i :
  q ∉ value ->
  Py.find_aux [q] (value ++ q :: post) i = i + Py.len value.
Proof.
  revert i. induction value as [|a value IH]; intros i Hq.
  - cbn. rewrite bool_decide_true by trivial. cbn. unfold Py.len. cbn. lia.
  - apply not_elem_of_cons in Hq as [Hqa Hq]. cbn.
    rewrite bool_decide_false by trivial. cbn. rewrite IH by trivial.
    unfold Py.len. cbn [length]. lia.
Qed.

(** [s[len(a) : len(a) + len(b)]] *)
Lemma slice_middle (a b c : list A) :
  Py.slice (a ++ b ++ c) (Py.len a) (Py.len a + Py.len b) = b.
Proof.
  unfold Py.slice, Py.slice_index, Py.len. rewrite !length_app.
  replace (Z.of_nat (length a) <? 0) with false
    by (symmetry; apply Z.ltb_ge; lia).
  replace (Z.of_nat (length a) + Z.of_nat (length b) <? 0) with false
    by (symmetry; apply Z.ltb_ge; lia).
  rewrite !Z.min_l by lia.
  rewrite Nat2Z.id, drop_app_length.
  replace (Z.to_nat _) with (length b) by lia.
  now rewrite take_app_length.
Qed.

(** [s[len(a) : -1]] *)
Lemma slice_to_last (a b : list A) :
  Py.slice (a ++ b) (Py.len a) (-1) = take (length b - 1) b.
Proof.
  unfold Py.slice, Py.slice_index, Py.len. rewrite !length_app.
  replace (Z.of_nat (length a) <? 0) with false
    by (symmetry; apply Z.ltb_ge; lia).
  replace (-1 <? 0) with true by reflexivity.
  rewrite Z.min_l by lia.
  rewrite Nat2Z.id, drop_app_length.
  f_equal. lia.
Qed.

End FindFrom.

(** ** The value of a header attribute *)

Lemma extract_quoted marker pre value post old :
  Py.find marker (pre ++ marker ++ value ++ quote :: post) 0 = Py.len pre ->
  quote ∉ value ->
  extract marker (Py.len marker) (pre ++ marker ++ value ++ quote :: post) old
  = Some value.
Proof.
  intros Hfind Hq. unfold extract, Py.contains.
  rewrite Hfind.
  replace (Py.len pre =? -1) with false
    by (symmetry; apply Z.eqb_neq; unfold Py.len; lia).
  cbn [negb]. f_equal.
  assert (Hstart : Py.len pre + Py.len marker = Py.len (pre ++ marker)).
  { unfold Py.len. rewrite length_app. lia. }
  rewrite Hstart.
  rewrite (app_assoc pre marker). rewrite find_from.
  rewrite find_aux_single_first by trivial.
  change (quote :: post) with ([quote] ++ post).
  apply slice_middle.
Qed.

Lemma extract_unterminated marker pre rest old :
  Py.find marker (pre ++ marker ++ rest) 0 = Py.len pre ->
  quote ∉ rest ->
  extract marker (Py.len marker) (pre ++ marker ++ rest) old
  = Some (take (length rest - 1) rest).
Proof.
  intros Hfind Hq. unfold extract, Py.contains.
  rewrite Hfind.
  replace (Py.len pre =? -1) with false
    by (symmetry; apply Z.eqb_neq; unfold Py.len; lia).
  cbn [negb]. f_equal.
  assert (Hstart : Py.len pre + Py.len marker = Py.len (pre ++ marker)).
  { unfold Py.len. rewrite length_app. lia. }
  rewrite Hstart.
  rewrite (app_assoc pre marker). rewrite find_from.
  rewrite find_aux_single_absent by trivial.
  apply slice_to_last.
Qed.

(** X14: what the decoder takes for an attribute of a disposition line, at the
    first occurrence of the marker in the line: the text up to the next
    double quote; and, when no double quote follows, the text up to the
    end of the line without its last character. *)
Theorem extract_value marker width pre old :
  Py.len marker = width ->
  (forall value post,
     Py.find marker (pre ++ marker ++ value ++ quote :: post) 0 = Py.len pre ->
     quote ∉ value ->
     extract marker width (pre ++ marker ++ value ++ quote :: post) old
     = Some value)
  /\
  (forall rest,
     Py.find marker (pre ++ marker ++ rest) 0 = Py.len pre ->
     quote ∉ rest ->
     extract marker width (pre ++ marker ++ rest) old
     = Some (take (length rest - 1) rest)).
Proof.
  intros <-. split.
  - intros value post. apply extract_quoted.
  - intros rest. apply extract_unterminated.
Qed.

(** The theorem at the name attribute: a quoted value, and a value whose
    closing quote is missing and which loses its last character. *)
Lemma extract_value_witness :
  extract name_marker 6
    (us "Content-Disposition: form-data; " ++ name_marker ++ us "mode"
     ++ quote :: us "; x=1") None
  = Some (us "mode")
  /\ extract name_marker 6
       (us "Content-Disposition: form-data; " ++ name_marker ++ us "mode")
       None
     = Some (us "mod").
Proof.
  destruct (extract_value name_marker 6
              (us "Content-Disposition: form-data; ") None) as [H1 H2];
    [reflexivity|].
  split.
  - apply (H1 (us "mode") (us "; x=1")); [reflexivity|].
    apply (bool_decide_unpack (quote ∉ us "mode")). vm_compute. exact I.
  - apply (H2 (us "mode")); [reflexivity|].
    apply (bool_decide_unpack (quote ∉ us "mode")). vm_compute. exact I.
Defined.

(** ** The boundary of a content type *)

Lemma strip_with_fixed {A} (f : A -> bool) (a b : A) (l : list A) :
  f a = false -> f b = false ->
  Py.strip_with f (a :: l ++ [b]) = a :: l ++ [b].
Proof.
  intros Ha Hb. unfold Py.strip_with, Py.rstrip_with. cbn [Py.drop_while].
  rewrite Ha. rewrite app_comm_cons, reverse_snoc. cbn [Py.drop_while].
  rewrite Hb. now rewrite <- reverse_snoc, reverse_involutive.
Qed.

Lemma boundary_of_piece pre rest :
  Py.find (us "boundary=") (pre ++ us "boundary=" ++ rest) 0 = Py.len pre ->
  Py.contains (us "boundary=") rest = false ->
  boundary_of (pre ++ us "boundary=" ++ rest)
  = Ok (let boundary := Py.strip_with str_isspace rest in
        if Py.startswith [quote] boundary && Py.endswith [quote] boundary
        then Py.slice boundary 1 (-1)
        else boundary).
Proof.
  intros Hfind Hrest. unfold boundary_of.
  assert (Hne : us "boundary=" <> []) by discriminate.
  unfold Py.split.
  change (us "boundary=") with (98%N :: us "oundary=") at 1.
  cbv beta iota. change (98%N :: us "oundary=") with (us "boundary=").
  rewrite find_0 in Hfind.
  rewrite (split_aux_first (us "boundary=") pre rest [] 0) by (trivial; lia).
  apply contains_false in Hrest.
  rewrite (split_aux_no_occurrence _ [] rest 0) by (trivial; lia).
  reflexivity.
Qed.

(** X15: the boundary is everything that follows the first [boundary=] in the
    content type, parameters that come after it included; when that text
    stands between two double quotes, they are removed, once, and what is
    between them is the boundary as it is. *)
Theorem boundary_is_remainder pre :
  (forall rest,
     Py.find (us "boundary=") (pre ++ us "boundary=" ++ rest) 0 = Py.len pre ->
     Py.contains (us "boundary=") rest = false ->
     Py.strip_with str_isspace rest = rest ->
     Py.startswith [quote] rest && Py.endswith [quote] rest = false ->
     boundary_of (pre ++ us "boundary=" ++ rest) = Ok rest)
  /\
  (forall inner,
     Py.find (us "boundary=")
       (pre ++ us "boundary=" ++ quote :: inner ++ [quote]) 0 = Py.len pre ->
     Py.contains (us "boundary=") (quote :: inner ++ [quote]) = false ->
     boundary_of (pre ++ us "boundary=" ++ quote :: inner ++ [quote])
     = Ok inner).
Proof.
  split.
  - intros rest Hfind Hrest Hstrip Hq.
    rewrite boundary_of_piece by trivial. cbv zeta.
    now rewrite Hstrip, Hq.
  - intros inner Hfind Hrest.
    rewrite boundary_of_piece by trivial. cbv zeta.
    rewrite strip_with_fixed by reflexivity.
    assert (Hs : Py.startswith [quote] (quote :: inner ++ [quote]) = true)
      by reflexivity.
    assert (He : Py.endswith [quote] (quote :: inner ++ [quote]) = true).
    { unfold Py.endswith. rewrite app_comm_cons, reverse_snoc. reflexivity. }
    rewrite Hs, He. cbn [andb]. now rewrite slice_inner.
Qed.

(** The theorem at a content type with a parameter after the boundary, and
    at a quoted boundary. *)
Lemma boundary_is_remainder_witness :
  boundary_of (us "multipart/form-data; " ++ us "boundary="
               ++ us "XYZ; charset=utf-8")
  = Ok (us "XYZ; charset=utf-8")
  /\ boundary_of (us "multipart/form-data; " ++ us "boundary="
                  ++ quote :: us "X Z" ++ [quote])
     = Ok (us "X Z").
Proof.
  destruct (boundary_is_remainder (us "multipart/form-data; ")) as [H1 H2].
  split.
  - apply H1; reflexivity.
  - apply H2; reflexivity.
Defined.

(** ** Parts as a client writes them *)

(** ASCII bytes decode to themselves. *)
Lemma decode_ascii s :
  Forall (fun b => (Byte.to_N b < 128)%N) s ->
  decode_ignore s = map Byte.to_N s.
Proof.
  unfold decode_ignore. induction 1 as [|b s Hb Hs IH]; [reflexivity|].
  cbn [utf8_scan map]. unfold utf8_step.
  apply N.ltb_lt in Hb. rewrite Hb. now rewrite IH.
Qed.

Lemma to_N_inj b c : Byte.to_N b = Byte.to_N c -> b = c.
Proof.
  intros H. apply (f_equal Byte.of_N) in H.
  rewrite !Byte.of_to_N in H. congruence.
Qed.

Lemma not_elem_of_map_to_N b s : b ∉ s -> Byte.to_N b ∉ map Byte.to_N s.
Proof.
  induction s as [|c s IH]; cbn [map]; intros Hb.
  - apply not_elem_of_nil.
  - apply not_elem_of_cons in Hb as [Hbc Hb]. apply not_elem_of_cons.
    split; [|now apply IH]. intros H. now apply to_N_inj in H.
Qed.

Section Occurrences.
Context {A : Type} `{EqDecision A}.
Implicit Types s sub X R : list A.

(** An occurrence contains every element of the searched sequence. *)
Lemma find_aux_absent sub s i c :
  c ∈ sub -> c ∉ s -> Py.find_aux sub s i = -1.
Proof.
  intros Hc Hs. destruct (Z.eq_dec (Py.find_aux sub s i) (-1)) as [|Hne];
    [trivial|].
  apply find_aux_inv in Hne as (pre & post & ->).
  exfalso. apply Hs. rewrite !elem_of_app. auto.
Qed.

(** The first occurrence is where no occurrence begins before. *)
Lemma find_aux_first_by sub X R i :
  (forall a b, X ++ sub ++ R = a ++ sub ++ b -> (length X <= length a)%nat) ->
  Py.find_aux sub (X ++ sub ++ R) i = i + Py.len X.
Proof.
  revert i. induction X as [|x X IH]; intros i Hocc.
  - cbn [app]. unfold Py.len. cbn [length].
    destruct (sub ++ R) as [|y t] eqn:E.
    + destruct sub; [|discriminate]. cbn. lia.
    + cbn [Py.find_aux]. rewrite <- E, startswith_app. lia.
  - cbn [app Py.find_aux].
    destruct (Py.startswith sub (x :: X ++ sub ++ R)) eqn:E.
    + apply startswith_inv in E as [t Ht].
      specialize (Hocc [] t Ht). cbn in Hocc. lia.
    + rewrite IH.
      * unfold Py.len. cbn [length]. lia.
      * intros a b Hab. specialize (Hocc (x :: a) b).
        cbn [app length] in Hocc. rewrite Hab in Hocc.
        specialize (Hocc eq_refl). lia.
Qed.

Lemma find_aux_head_absent c sub' X R i :
  c ∉ X ->
  Py.find_aux (c :: sub') (X ++ (c :: sub') ++ R) i = i + Py.len X.
Proof.
  revert i. induction X as [|x X IH]; intros i Hc.
  - change ([] ++ (c :: sub') ++ R) with (c :: (sub' ++ R)).
    cbn [Py.find_aux]. change (c :: sub' ++ R) with ((c :: sub') ++ R).
    rewrite startswith_app. unfold Py.len. cbn. lia.
  - apply not_elem_of_cons in Hc as [Hcx Hc].
    cbn [app Py.find_aux Py.startswith].
    rewrite bool_decide_false by trivial. cbn [andb].
    rewrite IH by trivial. unfold Py.len. cbn [length]. lia.
Qed.

Lemma startswith_cons_eq (a : A) p s :
  Py.startswith (a :: p) (a :: s) = Py.startswith p s.
Proof. cbn. now rewrite bool_decide_true by trivial. Qed.

Lemma startswith_cons_ne (a b : A) p s :
  a <> b -> Py.startswith (a :: p) (b :: s) = false.
Proof. intros H. cbn. now rewrite bool_decide_false by trivial. Qed.

(** The cut at the first occurrence. *)
Lemma split1_at sub X R :
  sub <> [] ->
  Py.find_aux sub (X ++ sub ++ R) 0 = Py.len X ->
  Py.split1 sub (X ++ sub ++ R) = Ok [X; R].
Proof.
  intros Hne Hf. unfold Py.split1. destruct sub as [|c sub']; [congruence|].
  rewrite find_0, Hf.
  replace (Py.len X =? -1) with false
    by (symmetry; apply Z.eqb_neq; unfold Py.len; lia).
  unfold Py.len. rewrite Nat2Z.id.
  rewrite take_app_length.
  rewrite <- drop_drop, drop_app_length, drop_app_length.
  reflexivity.
Qed.

(** Where a sequence is cut at the first occurrence of an element. *)
Lemma cut_at_first (q : A) U C A0 B :
  q ∉ U -> A0 ++ q :: B = U ++ q :: C ->
  (A0 = U /\ B = C) \/ exists A', A0 = U ++ q :: A'.
Proof.
  intros Hq. revert A0. induction U as [|u U IH]; intros A0 H.
  - destruct A0 as [|x A0]; cbn in H.
    + left. split; congruence.
    + right. injection H as -> H. now exists A0.
  - apply not_elem_of_cons in Hq as [Hqu Hq].
    destruct A0 as [|x A0]; cbn in H.
    + congruence.
    + injection H as -> H. destruct (IH Hq A0 H) as [[-> ->]|[A' ->]].
      * now left.
      * right. now exists A'.
Qed.

End Occurrences.

(** *** The header line of a part *)

Lemma disposition_name_text name :
  map Byte.to_N (disposition [("name", name)])
  = line_start ++ name_marker ++ us name ++ [quote].
Proof.
  unfold disposition. cbn [mbind list_bind fst snd].
  rewrite app_nil_r, !map_app. reflexivity.
Qed.

Lemma is_disposition_line rest :
  is_disposition (line_start ++ rest) = true.
Proof. vm_compute. reflexivity. Qed.

Lemma find_name_marker rest :
  Py.find name_marker (line_start ++ name_marker ++ rest) 0
  = Py.len line_start.
Proof. rewrite find_0. vm_compute. reflexivity. Qed.

(** The filename marker does not begin before the name's value. *)
Lemma find_filename_marker_skip rest :
  Py.find_aux filename_marker (line_start ++ name_marker ++ rest) 0
  = Py.find_aux filename_marker rest 38.
Proof. vm_compute. reflexivity. Qed.

Lemma quotable_no_quote s : quotable s -> quote ∉ us s.
Proof.
  intros H. change quote with (Byte.to_N Byte.x22).
  apply not_elem_of_map_to_N. intros Hin.
  unfold quotable in H. rewrite Forall_forall in H.
  destruct (H _ Hin) as (_ & Hq & _). congruence.
Qed.

Lemma quotable_no_CR s : quotable s -> CR ∉ bs s.
Proof.
  intros H Hin. unfold quotable in H. rewrite Forall_forall in H.
  destruct (H _ Hin) as (_ & _ & Hq). congruence.
Qed.

Lemma quotable_ascii s :
  quotable s -> Forall (fun b => (Byte.to_N b < 128)%N) (bs s).
Proof.
  intros H. eapply Forall_impl; [exact H|]. cbv beta. tauto.
Qed.

Lemma plain_name_no_equals s : plain_name s -> 61%N ∉ us s.
Proof.
  intros (_ & _ & H). change 61%N with (Byte.to_N Byte.x3d).
  now apply not_elem_of_map_to_N.
Qed.

Lemma plain_name_nonempty s : plain_name s -> us s <> [].
Proof.
  intros (H & _ & _). destruct s; [congruence|]. discriminate.
Qed.

(** A line with a name attribute only has no filename marker. *)
Lemma no_filename_marker name :
  plain_name name ->
  Py.contains filename_marker
    (line_start ++ name_marker ++ us name ++ [quote]) = false.
Proof.
  intros Hn. apply contains_false. rewrite find_filename_marker_skip.
  destruct (Z.eq_dec (Py.find_aux filename_marker (us name ++ [quote]) 38)
              (-1)) as [|Hne]; [trivial|].
  exfalso. apply find_aux_inv in Hne as (a & b & Hab).
  change filename_marker with (us "filename=" ++ [quote]) in Hab.
  rewrite <- app_assoc in Hab. rewrite (app_assoc a) in Hab.
  cbn [app] in Hab. symmetry in Hab. pose proof Hab as Hlen.
  apply cut_at_first in Hab as [[Ha _]|[A' Ha]];
    [| |now apply quotable_no_quote, Hn].
  - apply (plain_name_no_equals name Hn). rewrite <- Ha.
    rewrite elem_of_app. right.
    apply (bool_decide_unpack (61%N ∈ us "filename=")). vm_compute. exact I.
  - rewrite Ha in Hlen. apply (f_equal length) in Hlen.
    rewrite !length_app in Hlen. cbn [length] in Hlen.
    rewrite ?length_app in Hlen. cbn [length] in Hlen. lia.
Qed.

(** The variables after the header of a part with a name only. *)
Lemma scan_name_line name :
  plain_name name ->
  scan_line (None, None) (line_start ++ name_marker ++ us name ++ [quote])
  = (Some (us name), None).
Proof.
  intros Hn. unfold scan_line.
  change (Py.startswith (us "content-disposition:")
            (str_lower (line_start ++ name_marker ++ us name ++ [quote])))
    with (is_disposition (line_start ++ name_marker ++ us name ++ [quote])).
  rewrite is_disposition_line. cbn [fst snd]. f_equal.
  - change 6 with (Py.len name_marker).
    change [quote] with (quote :: []).
    apply extract_quoted; [apply find_name_marker|].
    apply quotable_no_quote, Hn.
  - unfold extract. now rewrite no_filename_marker.
Qed.

Lemma disposition_file_text name fname :
  map Byte.to_N (disposition [("name", name); ("filename", fname)])
  = (line_start ++ name_marker ++ us name ++ quote :: us "; ")
    ++ filename_marker ++ us fname ++ [quote].
Proof.
  unfold disposition. cbn [mbind list_bind fst snd].
  rewrite app_nil_r, !map_app. rewrite <- !app_assoc. reflexivity.
Qed.

(** The filename marker is first found after the name attribute. *)
Lemma find_filename_marker name R :
  plain_name name ->
  Py.find filename_marker
    ((line_start ++ name_marker ++ us name ++ quote :: us "; ")
     ++ filename_marker ++ R) 0
  = Py.len (line_start ++ name_marker ++ us name ++ quote :: us "; ").
Proof.
  intros Hn. rewrite find_0. rewrite <- !app_assoc.
  rewrite find_filename_marker_skip.
  rewrite (app_assoc (us name)).
  rewrite find_aux_first_by.
  - unfold Py.len. rewrite !length_app.
    change (length line_start) with 32%nat.
    change (length name_marker) with 6%nat. lia.
  - intros a b Hab.
    change filename_marker with (us "filename=" ++ [quote]) in Hab.
    rewrite <- !app_assoc in Hab. rewrite (app_assoc a) in Hab.
    cbn [app] in Hab. symmetry in Hab. pose proof Hab as Hab0.
    assert (Hq : quote ∉ us name) by apply quotable_no_quote, Hn.
    apply cut_at_first in Hab as [[Ha _]|[A' Ha]]; [| |exact Hq].
    + exfalso. apply (plain_name_no_equals name Hn). rewrite <- Ha.
      rewrite elem_of_app. right.
      apply (bool_decide_unpack (61%N ∈ us "filename=")).
      vm_compute. exact I.
    + rewrite Ha in Hab0. rewrite <- app_assoc in Hab0.
      apply app_inv_head in Hab0. injection Hab0 as Hab0.
      change (59%N :: 32%N :: 102%N :: 105%N :: 108%N :: 101%N :: 110%N
              :: 97%N :: 109%N :: 101%N :: 61%N :: quote :: R)
        with ((us "; " ++ us "filename=") ++ quote :: R) in Hab0.
      apply (f_equal length) in Ha.
      apply cut_at_first in Hab0 as [[-> _]|[A'' ->]].
      * rewrite !length_app in *. cbn [length] in *.
        rewrite !length_app in Ha.
        change (length (us "filename=")) with 9%nat in Ha.
        change (length (us "; ")) with 2%nat in *. lia.
      * rewrite !length_app in *. cbn [length] in *.
        rewrite ?length_app in Ha. cbn [length] in Ha.
        rewrite ?length_app in Ha.
        change (length (us "filename=")) with 9%nat in Ha.
        change (length (us "; ")) with 2%nat in *. lia.
      * apply (bool_decide_unpack (quote ∉ us "; " ++ us "filename=")).
        vm_compute. exact I.
Qed.

(** The variables after the header of a part with a name and a
    filename. *)
Lemma scan_file_line name fname :
  plain_name name -> quotable fname ->
  scan_line (None, None)
    ((line_start ++ name_marker ++ us name ++ quote :: us "; ")
     ++ filename_marker ++ us fname ++ [quote])
  = (Some (us name), Some (us fname)).
Proof.
  intros Hn Hf. unfold scan_line.
  match goal with
  | |- context [Py.startswith _ (str_lower ?l)] =>
      change (Py.startswith (us "content-disposition:") (str_lower l))
        with (is_disposition l)
  end.
  rewrite <- (app_assoc line_start) at 1.
  rewrite is_disposition_line. cbn [fst snd]. f_equal.
  - rewrite <- !app_assoc. cbn [app].
    change 6 with (Py.len name_marker).
    apply extract_quoted; [apply find_name_marker|].
    apply quotable_no_quote, Hn.
  - change 10 with (Py.len filename_marker).
    change [quote] with (quote :: []).
    apply extract_quoted; [now apply find_filename_marker|].
    now apply quotable_no_quote.
Qed.

(** *** A whole part *)

Lemma rstrip_fixed {A} `{EqDecision A} (chars s : list A) :
  (forall c, last s = Some c -> c ∉ chars) -> Py.rstrip chars s = s.
Proof.
  intros H. unfold Py.rstrip, Py.rstrip_with.
  destruct (reverse s) as [|a t] eqn:E.
  - cbn. apply (f_equal reverse) in E. now rewrite reverse_involutive in E.
  - assert (Ha : last s = Some a).
    { rewrite <- (reverse_involutive s), last_reverse, E. reflexivity. }
    cbn [Py.drop_while]. rewrite bool_decide_false by now apply H.
    rewrite <- E. apply reverse_involutive.
Qed.

Lemma rstrip_CRLF_framing payload :
  Py.rstrip CRLF (payload ++ CRLF) = Py.rstrip CRLF payload.
Proof.
  change CRLF with ([CR] ++ [LF]) at 2. rewrite app_assoc.
  rewrite rstrip_snoc by (unfold CRLF; rewrite !elem_of_cons; auto).
  rewrite rstrip_snoc by (unfold CRLF; rewrite !elem_of_cons; auto).
  reflexivity.
Qed.

(** A part made of one header line without a carriage return: its header
    is that line, and its content block the payload and the framing. *)
Lemma parse_made_part form h hs payload :
  bytes_isspace h = false -> CR ∉ h :: hs ->
  Forall (fun b => (Byte.to_N b < 128)%N) (h :: hs) ->
  parse_part form (make_part (h :: hs) payload)
  = Ok (record_part form
          (scan_line (None, None) (map Byte.to_N (h :: hs))).1
          (scan_line (None, None) (map Byte.to_N (h :: hs))).2
          (payload ++ CRLF)).
Proof.
  intros Hh Hcr Hascii.
  assert (Hsplit : Py.split CRLF_text (decode_ignore (CRLF ++ h :: hs))
                   = Ok [[]; map Byte.to_N (h :: hs)]).
  { rewrite decode_ascii
      by (apply Forall_app; split; [|exact Hascii];
          apply Forall_cons_2; [reflexivity|];
          apply Forall_cons_2; [reflexivity|apply Forall_nil_2]).
    rewrite map_app. change (map Byte.to_N CRLF) with CRLF_text.
    unfold Py.split, CRLF_text. f_equal.
    pose proof (split_aux_first [13%N; 10%N] [] (map Byte.to_N (h :: hs))
                  [] 0 ltac:(discriminate) eq_refl) as Hs.
    change (reverse [] ++ []) with (@nil N) in Hs.
    cbn [app] in Hs |- *. rewrite Hs. f_equal.
    rewrite (split_aux_no_occurrence _ [] _ 0); [reflexivity|lia|].
    apply (find_aux_absent _ _ _ 13%N); [rewrite !elem_of_cons; auto|].
    change 13%N with (Byte.to_N CR). now apply not_elem_of_map_to_N. }
  rewrite (parse_part_record form _ (CRLF ++ h :: hs) (payload ++ CRLF)
             [[]; map Byte.to_N (h :: hs)]); trivial.
  - intros Hblank. apply strip_with_nil_inv in Hblank.
    unfold make_part, CRLF in Hblank. cbn [app] in Hblank.
    apply Forall_cons_1 in Hblank as [_ Hblank].
    apply Forall_cons_1 in Hblank as [_ Hblank].
    apply Forall_cons_1 in Hblank as [Hblank _]. congruence.
  - unfold make_part. rewrite (app_assoc CRLF).
    apply split1_at; [discriminate|].
    apply not_elem_of_cons in Hcr as [Hcrh Hcr'].
    unfold CRLF, CRLFCRLF. cbn [app Py.find_aux].
    rewrite !startswith_cons_eq.
    rewrite !startswith_cons_ne by (trivial || discriminate).
    change (hs ++ CR :: LF :: CR :: LF :: payload ++ [CR; LF])
      with (hs ++ (CR :: [LF; CR; LF]) ++ payload ++ [CR; LF]).
    rewrite find_aux_head_absent by trivial.
    unfold Py.len. cbn [length]. lia.
Qed.

Lemma disposition_CR_free attrs :
  Forall (fun kv : string * string => (CR ∉ bs kv.1) /\ (CR ∉ bs kv.2))
    attrs ->
  CR ∉ disposition attrs.
Proof.
  intros H. unfold disposition. rewrite not_elem_of_app. split.
  { apply (bool_decide_unpack _). vm_compute. exact I. }
  induction H as [|kv attrs [H1 H2] _ IH]; cbn [mbind list_bind].
  - apply not_elem_of_nil.
  - rewrite !not_elem_of_app. repeat split; trivial;
      apply (bool_decide_unpack _); vm_compute; exact I.
Qed.

Lemma disposition_ascii attrs :
  Forall (fun kv : string * string =>
            Forall (fun b => (Byte.to_N b < 128)%N) (bs kv.1) /\
            Forall (fun b => (Byte.to_N b < 128)%N) (bs kv.2)) attrs ->
  Forall (fun b => (Byte.to_N b < 128)%N) (disposition attrs).
Proof.
  intros H. unfold disposition. rewrite Forall_app. split.
  { apply (bool_decide_unpack _). vm_compute. exact I. }
  induction H as [|kv attrs [H1 H2] _ IH]; cbn [mbind list_bind].
  - apply Forall_nil_2.
  - rewrite !Forall_app. repeat split; trivial;
      apply (bool_decide_unpack _); vm_compute; exact I.
Qed.

Lemma text_part_decodes form name payload :
  plain_name name ->
  parse_part form (text_part name payload)
  = Ok (<[us name := decode_ignore (Py.rstrip CRLF payload)]> form.1, form.2).
Proof.
  intros Hn. pose proof (plain_name_nonempty name Hn) as Hne.
  pose proof Hn as (Hn0 & Hnq & Hneq).
  unfold text_part.
  assert (Hcr : CR ∉ disposition [("name", name)]).
  { apply disposition_CR_free.
    apply Forall_cons_2; [split|apply Forall_nil_2].
    - apply (bool_decide_unpack _). vm_compute. exact I.
    - now apply quotable_no_CR. }
  assert (Hascii : Forall (fun b => (Byte.to_N b < 128)%N)
                     (disposition [("name", name)])).
  { apply disposition_ascii.
    apply Forall_cons_2; [split|apply Forall_nil_2].
    - apply (bool_decide_unpack _). vm_compute. exact I.
    - now apply quotable_ascii. }
  assert (Hd : exists hs, disposition [("name", name)] = Byte.x43 :: hs)
    by (eexists; reflexivity).
  destruct Hd as [hs Hd].
  pose proof (disposition_name_text name) as Htext. rewrite Hd in *.
  rewrite parse_made_part; trivial.
  rewrite Htext, scan_name_line by trivial. cbn [fst snd].
  unfold record_part. destruct (us name) as [|c n]; [congruence|].
  now rewrite rstrip_CRLF_framing.
Qed.

Lemma file_part_decodes form name fname payload :
  plain_name name -> fname <> EmptyString -> quotable fname ->
  parse_part form (file_part name fname payload)
  = Ok (form.1,
        <[us name := {| filename := us fname;
                        content := Py.rstrip CRLF payload |}]> form.2).
Proof.
  intros Hn Hf0 Hfq. pose proof (plain_name_nonempty name Hn) as Hne.
  pose proof Hn as (Hn0 & Hnq & Hneq).
  unfold file_part.
  assert (Hcr : CR ∉ disposition [("name", name); ("filename", fname)]).
  { apply disposition_CR_free.
    apply Forall_cons_2; [split|apply Forall_cons_2;
                                  [split|apply Forall_nil_2]];
      try (apply (bool_decide_unpack _); vm_compute; exact I);
      now apply quotable_no_CR. }
  assert (Hascii : Forall (fun b => (Byte.to_N b < 128)%N)
                     (disposition [("name", name); ("filename", fname)])).
  { apply disposition_ascii.
    apply Forall_cons_2; [split|apply Forall_cons_2;
                                  [split|apply Forall_nil_2]];
      try (apply (bool_decide_unpack _); vm_compute; exact I);
      now apply quotable_ascii. }
  assert (Hd : exists hs,
            disposition [("name", name); ("filename", fname)]
            = Byte.x43 :: hs)
    by (eexists; reflexivity).
  destruct Hd as [hs Hd].
  pose proof (disposition_file_text name fname) as Htext. rewrite Hd in *.
  rewrite parse_made_part; trivial.
  rewrite Htext, scan_file_line by trivial. cbn [fst snd].
  unfold record_part. destruct (us name) as [|c n]; [congruence|].
  assert (Hfne : us fname <> [])
    by (destruct fname; [congruence|discriminate]).
  destruct (us fname) as [|d f]; [congruence|].
  now rewrite rstrip_CRLF_framing.
Qed.

(** X16: a part with a name only is recorded as a field under that name: its
    value is the payload without its trailing carriage returns and line
    feeds, decoded.  A part with a name and a filename is recorded as a
    file under that name, its content being the payload without its
    trailing carriage returns and line feeds. *)
Theorem part_decodes form name payload :
  plain_name name ->
  parse_part form (text_part name payload)
  = Ok (<[us name := decode_ignore (Py.rstrip CRLF payload)]> form.1, form.2)
  /\
  (forall fname,
     fname <> EmptyString -> quotable fname ->
     parse_part form (file_part name fname payload)
     = Ok (form.1,
           <[us name := {| filename := us fname;
                           content := Py.rstrip CRLF payload |}]> form.2)).
Proof.
  intros Hn. split.
  - now apply text_part_decodes.
  - intros fname. now apply file_part_decodes.
Qed.

Lemma plain_name_mode : plain_name "mode".
Proof.
  split; [discriminate|].
  split; apply (bool_decide_unpack _); vm_compute; exact I.
Qed.

(** The theorem at a field of the name mode and a file of the same name,
    both with a payload that ends in a line feed. *)
Lemma part_decodes_witness :
  parse_part (∅, ∅) (text_part "mode" (bs "pastel" ++ [LF]))
  = Ok (<[us "mode" := decode_ignore (Py.rstrip CRLF (bs "pastel" ++ [LF]))]>
          ∅, ∅)
  /\ parse_part (∅, ∅) (file_part "mode" "a.jpg" (bs "pastel" ++ [LF]))
     = Ok (∅, <[us "mode" :=
                  {| filename := us "a.jpg";
                     content := Py.rstrip CRLF (bs "pastel" ++ [LF]) |}]> ∅).
Proof.
  destruct (part_decodes (∅, ∅) "mode" (bs "pastel" ++ [LF]) plain_name_mode)
    as [H1 H2].
  split; [exact H1|]. apply H2; [discriminate|].
  apply (bool_decide_unpack _). vm_compute. exact I.
Defined.

(** ** The round trip *)

Lemma item_decodes form item :
  valid_item item ->
  parse_part form (encode_item item) = Ok (record_item form item).
Proof.
  destruct item as [name value|name fname payload]; cbn [valid_item].
  - intros (Hn & Ha & Hl). cbn [encode_item record_item].
    rewrite text_part_decodes by trivial.
    rewrite rstrip_fixed.
    + rewrite decode_ascii by trivial. reflexivity.
    + intros c Hc. destruct (Hl c Hc). unfold CRLF.
      rewrite !elem_of_cons, elem_of_nil. tauto.
  - intros (Hn & Hf0 & Hfq & Hl). cbn [encode_item record_item].
    rewrite file_part_decodes by trivial.
    rewrite rstrip_fixed; [reflexivity|].
    intros c Hc. destruct (Hl c Hc). unfold CRLF.
    rewrite !elem_of_cons, elem_of_nil. tauto.
Qed.

Lemma items_decode items :
  Forall valid_item items ->
  forall form,
    parse_parts form (encode_item <$> items)
    = Ok (foldl record_item form items).
Proof.
  induction 1 as [|item items Hi _ IH]; intros form; [reflexivity|].
  cbn [fmap list_fmap parse_parts foldl].
  rewrite item_decodes by trivial. cbn [mbind result_bind]. apply IH.
Qed.

(** X17: the decoder reads back what a client writes: a body made of the parts
    of valid items, each after the delimiter, and closed by a last
    delimiter, decodes to the entries of the items, in their order, a later
    item replacing an earlier one of the same name and kind. *)
Theorem form_round_trip content_type boundary delimiter pre items tail :
  Py.contains (us "boundary=") (latin1 content_type) = true ->
  boundary_of (latin1 content_type) = Ok boundary ->
  str_encode (us "--" ++ boundary) = Ok delimiter ->
  Forall valid_item items ->
  Forall (ends_at_delimiter delimiter) (pre :: (encode_item <$> items)) ->
  Py.contains delimiter tail = false ->
  parse_multipart_form_data content_type
    (delimited delimiter pre (encode_item <$> items) tail)
  = Ok (foldl record_item (∅, ∅) items).
Proof.
  intros Hin Hb Hd Hv Hall Htail.
  rewrite (parse_with_delimiter _ _ _ _ Hin Hb Hd).
  unfold delimited.
  rewrite split_pieces; trivial; [|now apply (delimiter_nonempty boundary)].
  rewrite slice_inner. now apply items_decode.
Qed.

(** The theorem at the request of the end-to-end example: three fields
    and an image. *)
Lemma form_round_trip_witness :
  parse_multipart_form_data "multipart/form-data; boundary=XYZ" sample_body
  = Ok (foldl record_item (∅, ∅)
          [Field "printer_ip" "10.0.0.5"; Field "mode" "pastel";
           Field "cut" "each"; File "image" "a.jpg" (bs "ABC")]).
Proof.
  refine (form_round_trip "multipart/form-data; boundary=XYZ" (us "XYZ")
            (bs "--XYZ") []
            [Field "printer_ip" "10.0.0.5"; Field "mode" "pastel";
             Field "cut" "each"; File "image" "a.jpg" (bs "ABC")]
            (bs "--" ++ CRLF) _ _ _ _ _ _).
  - reflexivity.
  - reflexivity.
  - reflexivity.
  - repeat apply Forall_cons_2; [| | | |apply Forall_nil_2];
      cbn [valid_item]; repeat split; try discriminate;
      try (apply (bool_decide_unpack _); vm_compute; exact I);
      match goal with
      | H : last _ = Some _ |- _ =>
          vm_compute in H; injection H as <-; discriminate
      end.
  - repeat apply Forall_cons_2; [| | | | |apply Forall_nil_2];
      intros rest; rewrite find_0; vm_compute; reflexivity.
  - reflexivity.
Defined.
